(** * mesh_utils: a shallow embedding of [mesh_utils.py]

    The script orchestrates two external libraries (pymeshlab and trimesh)
    behind three entry points: [simplify_textured_mesh], [dowsample_mesh]
    and [resize_mesh].  The embedding keeps the control flow of the Python
    source: exceptions, [try]/[except Exception], the console output and the
    sequence of library calls are explicit, the libraries themselves are a
    parameter. *)

From Stdlib Require Import ZArith QArith Qround Qabs Bool List String Ascii Lia.
From Stdlib Require Import Floats.SpecFloat.
Import ListNotations.

Local Open Scope Z_scope.
Local Open Scope string_scope.

(** ** Python floats: IEEE 754 binary64 *)

Module PyFloat.

Definition prec : Z := 53.
Definition emax : Z := 1024.

Definition float := spec_float.

(** Every Python float is a well-formed binary64 number. *)
Definition valid (x : float) : bool := valid_binary prec emax x.

Definition zero : float := S754_zero false.
Definition neg_zero : float := S754_zero true.
Definition one : float := S754_finite false 4503599627370496 (-52).
Definition nan : float := S754_nan.

Definition sub : float -> float -> float := SFsub prec emax.
Definition mul : float -> float -> float := SFmul prec emax.
Definition div : float -> float -> float := SFdiv prec emax.
Definition leb : float -> float -> bool := SFleb.
Definition ltb : float -> float -> bool := SFltb.
Definition eqb : float -> float -> bool := SFeqb.

Definition is_nan (x : float) : bool :=
  match x with S754_nan => true | _ => false end.

Definition is_finite (x : float) : bool :=
  match x with S754_zero _ | S754_finite _ _ _ => true | _ => false end.

(** Sign bit, [false] for NaN. *)
Definition signbit (x : float) : bool :=
  match x with
  | S754_zero s | S754_infinity s | S754_finite s _ _ => s
  | S754_nan => false
  end.

(** [float(n)] for a Python int: round to nearest even; the result is an
    infinity exactly when CPython raises [OverflowError]. *)
Definition of_int (n : Z) : float := binary_normalize prec emax n 0 false.

(** [bool(x)], that is [x != 0.0]: both zeros are falsy, NaN is truthy. *)
Definition truthy (x : float) : bool := negb (eqb x zero).

(** The exact rational value of a finite float. *)
Definition to_Q (x : float) : option Q :=
  match x with
  | S754_zero _ => Some 0%Q
  | S754_finite s m e =>
      let v := match e with
               | Zneg p => Qmake (Zpos m) (2 ^ p)%positive
               | _ => inject_Z (Zpos m * 2 ^ e)
               end in
      Some (if s then Qopp v else v)
  | _ => None
  end.

(** Truncation toward zero of a finite float (the integer part). *)
Definition trunc (x : float) : option Z :=
  match x with
  | S754_zero _ => Some 0
  | S754_finite s m e =>
      Some (match e with
            | Zneg p => Z.quot (cond_Zopp s (Zpos m)) (Zpos (2 ^ p))
            | _ => cond_Zopp s (Zpos m * 2 ^ e)
            end)
  | _ => None
  end.

(** One step of [numpy.ndarray.min]: a NaN entry is propagated, and of
    two entries that compare equal (the two zeros) the later one is
    kept. *)
Definition np_min2 (a b : float) : float :=
  if is_nan a then a
  else if ltb a b then a else b.

End PyFloat.

Definition float : Type := PyFloat.float.

(** ** Python values, exceptions and messages *)

(** The values the three entry points return. *)
Inductive pyval : Type :=
| PyNone
| PyInt (n : Z).

(** Exceptions.  [KeyboardInterrupt] and [SystemExit] derive from
    [BaseException] only, so [except Exception] lets them through. *)
Inductive exn : Type :=
| ValueError (msg : string)
| FileNotFoundError (msg : string)
| ZeroDivisionError (msg : string)
| OverflowError (msg : string)
| NameError (msg : string)
| LibraryError (msg : string)
| KeyboardInterrupt
| SystemExit (code : Z).

Definition is_Exception (e : exn) : bool :=
  match e with
  | KeyboardInterrupt | SystemExit _ => false
  | _ => true
  end.

(** What the f-strings print is kept structured: the constructor is the
    template, the arguments are the interpolated values. *)
Inductive message : Type :=
| MsgLoading (base : string)
| MsgTargetFromRatio (ratio : float) (target : option Z)
| MsgStartDecimation (target : option Z) (texture_weight : float)
| MsgSaving (path : string)
| MsgDone (input_faces output_faces : Z) (ratio : float)
| MsgFailed (e : exn)
| MsgError (e : exn)
| MsgOriginalInfo
| MsgResizedInfo
| MsgVertices (n : Z)
| MsgFaces (n : Z)
| MsgExtents (ext : float * float * float).

(** Keyword arguments of
    [MeshSet.meshing_decimation_quadric_edge_collapse_with_texture]. *)
Record decimation_args : Type := {
  targetfacenum : option Z;
  qualitythr : float;
  extratcoordw : float;
  preserveboundary : bool;
  boundaryweight : float;
  optimalplacement : bool;
  planarquadric : bool;
  preservenormal : bool
}.

(** [os.path.basename] on POSIX: what follows the last slash. *)
Fixpoint has_slash (s : string) : bool :=
  match s with
  | EmptyString => false
  | String c rest => if Ascii.eqb c "/" then true else has_slash rest
  end.

Fixpoint basename (s : string) : string :=
  match s with
  | EmptyString => EmptyString
  | String _ rest => if has_slash s then basename rest else s
  end.

(** A Python computation returns a value or raises. *)
Inductive outcome (A : Type) : Type :=
| Returns (a : A)
| Raises (e : exn).
Arguments Returns {A} a.
Arguments Raises {A} e.

(** ** Arithmetic of the script *)

(** [a / b] on two ints: true division, correctly rounded. *)
Definition int_exact (n : Z) : float :=
  match n with
  | Z0 => S754_zero false
  | Zpos p => S754_finite false p 0
  | Zneg p => S754_finite true p 0
  end.

Definition int_truediv (a b : Z) : outcome float :=
  if (b =? 0)%Z then Raises (ZeroDivisionError "division by zero")
  else
    let q := PyFloat.div (int_exact a) (int_exact b) in
    if PyFloat.is_finite q then Returns q
    else Raises (OverflowError "integer division result too large for a float").

(** [n * x] for an int [n] and a float [x]: [n] is converted first. *)
Definition int_mul_float (n : Z) (x : float) : outcome float :=
  let f := PyFloat.of_int n in
  if PyFloat.is_finite f then Returns (PyFloat.mul f x)
  else Raises (OverflowError "int too large to convert to float").

(** [int(x)] for a float [x]. *)
Definition py_int (x : float) : outcome Z :=
  match PyFloat.trunc x with
  | Some n => Returns n
  | None =>
      if PyFloat.is_nan x
      then Raises (ValueError "cannot convert float NaN to integer")
      else Raises (OverflowError "cannot convert float infinity to integer")
  end.

(** Truthiness of the optional command-line values. *)
Definition truthy_int (v : option Z) : bool :=
  match v with
  | None => false
  | Some n => negb (n =? 0)%Z
  end.

Definition truthy_float (v : option float) : bool :=
  match v with
  | None => false
  | Some x => PyFloat.truthy x
  end.

Definition is_None {A} (v : option A) : bool :=
  match v with None => true | Some _ => false end.

(** [extents.min()] of the three box extents. *)
Definition extents_min (ext : float * float * float) : float :=
  let '(x, y, z) := ext in PyFloat.np_min2 (PyFloat.np_min2 x y) z.

(** Line 190: [(args.size / model_size) if args.size else 1.0]. *)
Definition resize_scale (size : option float) (model_size : float) : float :=
  match size with
  | Some sz => if PyFloat.truthy sz then PyFloat.div sz model_size
               else PyFloat.one
  | None => PyFloat.one
  end.

(** The module global [parser] that [dowsample_mesh] reads: bound to the
    [ArgumentParser] of line 201 when the file runs as a script, not bound
    when the module is imported (the [__main__] block is skipped). *)
Inductive global_parser : Type :=
| parser_of_main
| parser_unbound.

(** The parsed command line ([argparse.Namespace]). *)
Record Namespace : Type := {
  input : string;
  output : string;
  downsample : bool;
  size : option float;
  target_faces : option Z;
  reduction_ratio : option float
}.

(** Defaults of [simplify_textured_mesh]: 1.5, 1.0 and 0.3. *)
Definition default_texture_weight : float :=
  S754_finite false 6755399441055744 (-52).
Definition default_boundary_weight : float := PyFloat.one.
Definition default_quality_threshold : float :=
  S754_finite false 5404319552844595 (-54).

(** ** The libraries, the world and the monad of the script *)

Section Script.

(** The state of everything outside the script (file system, the MeshSet
    created by pymeshlab, the viewer) and the trimesh mesh objects. *)
Variables (World Mesh : Type).

(** What is added to a trimesh scene. *)
Inductive geometry : Type :=
| GeomMesh (m : Mesh)
| GeomAxis
| GeomBox (m : Mesh).

(** The calls the script makes into [os], pymeshlab and trimesh, one
    event for each.  Three events stand for a chain of attribute accesses
    and calls that the script always makes together:
    [ms_current_mesh_face_number] is [ms.current_mesh().face_number()]
    (lines 92-93 and 119-120), [mesh_bounding_box_extents] is
    [mesh.bounding_box.primitive.extents] (lines 184-185 and 195), and
    [box_set_face_colors] is [mesh.bounding_box] followed by the
    assignment to [visual.face_colors] (lines 152-153).  [os.path.basename]
    (line 88) touches nothing and is the function [basename]. *)
Inductive libcall : Type :=
| os_path_exists (path : string)
| ml_MeshSet
| ms_load_new_mesh (path : string)
| ms_current_mesh_face_number
| ms_decimation (a : decimation_args)
| ms_save_current_mesh (path : string) (save_textures : bool)
| trimesh_load (path : string)
| mesh_bounding_box_extents (m : Mesh)
| mesh_len_vertices (m : Mesh)
| mesh_len_faces (m : Mesh)
| mesh_apply_scale (m : Mesh) (scale : float)
| mesh_export (m : Mesh) (path : string)
| trimesh_Scene
| trimesh_creation_axis
| box_set_face_colors (m : Mesh)
| scene_add_geometry (g : geometry)
| scene_show.

Inductive event : Type :=
| Stdout (m : message)
| ParserError (msg : string)
| Traceback (e : exn)
| Call (c : libcall).

(** Behaviour of the external libraries: every call may return or raise,
    and may change the world. *)
Record Library : Type := {
  lib_path_exists : string -> World -> bool;
  lib_MeshSet : World -> outcome unit * World;
  lib_load_new_mesh : string -> World -> outcome unit * World;
  (* ms.current_mesh().face_number() *)
  lib_face_number : World -> outcome Z * World;
  lib_decimation : decimation_args -> World -> outcome unit * World;
  lib_save_current_mesh : string -> bool -> World -> outcome unit * World;
  lib_trimesh_load : string -> World -> outcome Mesh * World;
  lib_extents : Mesh -> World -> outcome (float * float * float) * World;
  lib_len_vertices : Mesh -> World -> outcome Z * World;
  lib_len_faces : Mesh -> World -> outcome Z * World;
  (* mesh.apply_scale(scale) changes the mesh in place (line 191); the
     mesh it leaves is the value returned here *)
  lib_apply_scale : Mesh -> float -> World -> outcome Mesh * World;
  lib_export : Mesh -> string -> World -> outcome unit * World;
  lib_Scene : World -> outcome unit * World;
  lib_creation_axis : World -> outcome unit * World;
  lib_set_face_colors : Mesh -> World -> outcome unit * World;
  lib_add_geometry : geometry -> World -> outcome unit * World;
  lib_show : World -> outcome unit * World
}.

Variable lib : Library.

Record state : Type := { trace : list event; world : World }.

Definition M (A : Type) : Type := state -> outcome A * state.

Definition ret {A} (a : A) : M A := fun s => (Returns a, s).

Definition bind {A B} (c : M A) (k : A -> M B) : M B :=
  fun s =>
    match c s with
    | (Returns a, s') => k a s'
    | (Raises e, s') => (Raises e, s')
    end.

Definition raise {A} (e : exn) : M A := fun s => (Raises e, s).

Definition emit (ev : event) : M unit :=
  fun s => (Returns tt, {| trace := trace s ++ [ev]; world := world s |}).

(** A library call: logged, then answered by the library. *)
Definition call {A} (c : libcall) (f : World -> outcome A * World) : M A :=
  fun s =>
    let '(r, w) := f (world s) in
    (r, {| trace := trace s ++ [Call c]; world := w |}).

Definition print (m : message) : M unit := emit (Stdout m).

Definition when (b : bool) (c : M unit) : M unit :=
  if b then c else ret tt.

(** [try: body  except Exception as e: handler e]. *)
Definition try_except {A} (body : M A) (handler : exn -> M A) : M A :=
  fun s =>
    match body s with
    | (Returns a, s') => (Returns a, s')
    | (Raises e, s') =>
        if is_Exception e then handler e s' else (Raises e, s')
    end.

Definition run {A} (c : M A) (w : World) : outcome A * state :=
  c {| trace := []; world := w |}.

Definition lift {A} (r : outcome A) : M A := fun s => (r, s).

Notation "x <- c ;; k" := (bind c (fun x => k))
  (at level 61, c at next level, right associativity).
Notation "c ;;; k" := (bind c (fun _ => k))
  (at level 61, right associativity).

(** *** simplify_textured_mesh *)

(** Lines 72-76: exactly one of the two must be given. *)
Definition check_exclusive (target_faces : option Z)
    (reduction_ratio : option float) : M unit :=
  (if is_None target_faces && is_None reduction_ratio
   then raise (ValueError "You must specify either target_faces or reduction_ratio")
   else ret tt) ;;;
  (if negb (is_None target_faces) && negb (is_None reduction_ratio)
   then raise (ValueError "target_faces and reduction_ratio are mutually exclusive")
   else ret tt).

(** [0 <= reduction_ratio < 1]. *)
Definition in_range (r : float) : bool :=
  PyFloat.leb PyFloat.zero r && PyFloat.ltb r PyFloat.one.

(** Lines 78-79. *)
Definition check_range (reduction_ratio : option float) : M unit :=
  match reduction_ratio with
  | Some r =>
      if negb (in_range r)
      then raise (ValueError "reduction_ratio must be within [0, 1)")
      else ret tt
  | None => ret tt
  end.

(** Lines 82-83. *)
Definition check_input_exists (input_path : string) : M unit :=
  found <- call (os_path_exists input_path)
             (fun w => (Returns (lib_path_exists lib input_path w), w)) ;;
  if negb found
  then raise (FileNotFoundError ("Input file " ++ input_path ++ " not found"))
  else ret tt.

(** Lines 96-101: the face count asked from the engine. *)
Definition compute_target (target_faces : option Z)
    (reduction_ratio : option float) (input_faces : Z) (verbose : bool)
    : M (option Z) :=
  match reduction_ratio with
  | Some r =>
      x <- lift (int_mul_float input_faces (PyFloat.sub PyFloat.one r)) ;;
      calculated_target_faces <- lift (py_int x) ;;
      let target_faces := Some (Z.max calculated_target_faces 4) in
      when verbose (print (MsgTargetFromRatio r target_faces)) ;;;
      ret target_faces
  | None => ret target_faces
  end.

(** The [try] block, lines 71-129. *)
Definition simplify_body (input_path output_path : string)
    (target_faces : option Z) (reduction_ratio : option float)
    (texture_weight : float) (preserve_boundary : bool)
    (boundary_weight quality_threshold : float)
    (planar optimal_placement verbose : bool) : M unit :=
  check_exclusive target_faces reduction_ratio ;;;
  check_range reduction_ratio ;;;
  check_input_exists input_path ;;;
  call ml_MeshSet (lib_MeshSet lib) ;;;
  when verbose (print (MsgLoading (basename input_path))) ;;;
  call (ms_load_new_mesh input_path) (lib_load_new_mesh lib input_path) ;;;
  input_faces <- call ms_current_mesh_face_number (lib_face_number lib) ;;
  target_faces <- compute_target target_faces reduction_ratio input_faces verbose ;;
  when verbose (print (MsgStartDecimation target_faces texture_weight)) ;;;
  (let a := {| targetfacenum := target_faces;
               qualitythr := quality_threshold;
               extratcoordw := texture_weight;
               preserveboundary := preserve_boundary;
               boundaryweight := boundary_weight;
               optimalplacement := optimal_placement;
               planarquadric := planar;
               preservenormal := true |} in
   call (ms_decimation a) (lib_decimation lib a)) ;;;
  output_faces <- call ms_current_mesh_face_number (lib_face_number lib) ;;
  q <- lift (int_truediv output_faces input_faces) ;;
  let reduction_ratio := PyFloat.sub PyFloat.one q in
  when verbose (print (MsgSaving output_path)) ;;;
  call (ms_save_current_mesh output_path true)
       (lib_save_current_mesh lib output_path true) ;;;
  when verbose (print (MsgDone input_faces output_faces reduction_ratio)).

Definition simplify_textured_mesh (input_path output_path : string)
    (target_faces : option Z) (reduction_ratio : option float)
    (texture_weight : float) (preserve_boundary : bool)
    (boundary_weight quality_threshold : float)
    (planar optimal_placement verbose : bool) : M pyval :=
  try_except
    (simplify_body input_path output_path target_faces reduction_ratio
       texture_weight preserve_boundary boundary_weight quality_threshold
       planar optimal_placement verbose)
    (fun e => when verbose (print (MsgFailed e))) ;;;
  ret PyNone.

(** *** display_mesh *)

Definition display_mesh (mesh : string + Mesh) (show_bbox : bool) : M pyval :=
  mesh <- match mesh with
          | inl path => call (trimesh_load path) (lib_trimesh_load lib path)
          | inr m => ret m
          end ;;
  call trimesh_Scene (lib_Scene lib) ;;;
  call (scene_add_geometry (GeomMesh mesh))
       (lib_add_geometry lib (GeomMesh mesh)) ;;;
  call trimesh_creation_axis (lib_creation_axis lib) ;;;
  call (scene_add_geometry GeomAxis) (lib_add_geometry lib GeomAxis) ;;;
  when show_bbox
    (call (box_set_face_colors mesh) (lib_set_face_colors lib mesh) ;;;
     call (scene_add_geometry (GeomBox mesh))
          (lib_add_geometry lib (GeomBox mesh))) ;;;
  call scene_show (lib_show lib) ;;;
  ret PyNone.

(** *** dowsample_mesh *)

(** [parser.error(msg)] at line 161.  [parser] is a global of the module:
    with the parser of line 201 it writes the usage and the message on
    stderr and calls [sys.exit(2)]; where the name is not bound, looking
    it up raises [NameError]. *)
Definition parser_error {A} (parser : global_parser) (msg : string) : M A :=
  match parser with
  | parser_of_main => emit (ParserError msg) ;;; raise (SystemExit 2)
  | parser_unbound => raise (NameError "name 'parser' is not defined")
  end.

(** The [try] block of [dowsample_mesh], lines 164-169; [None] stands
    for falling through to the end of the block. *)
Definition dowsample_try (args : Namespace) : M (option pyval) :=
  simplify_textured_mesh (input args) (output args)
    (target_faces args) (reduction_ratio args)
    default_texture_weight true default_boundary_weight
    default_quality_threshold false true true ;;;
  display_mesh (inl (output args)) true ;;;
  ret None.

(** Its handler, lines 170-174. *)
Definition dowsample_except (e : exn) : M (option pyval) :=
  print (MsgError e) ;;;
  emit (Traceback e) ;;;
  ret (Some (PyInt 1)).

Definition dowsample_mesh (parser : global_parser) (args : Namespace)
    : M pyval :=
  (if negb (truthy_int (target_faces args))
      && negb (truthy_float (reduction_ratio args))
   then parser_error parser
          "You must specify either --target-faces or --reduction-ratio"
   else ret tt) ;;;
  returned <- try_except (dowsample_try args) dowsample_except ;;
  match returned with
  | Some v => ret v
  | None => ret (PyInt 0)
  end.

(** *** resize_mesh *)

Definition resize_mesh (args : Namespace) : M pyval :=
  mesh <- call (trimesh_load (input args)) (lib_trimesh_load lib (input args)) ;;
  extents <- call (mesh_bounding_box_extents mesh) (lib_extents lib mesh) ;;
  let model_size := extents_min extents in
  print MsgOriginalInfo ;;;
  nv <- call (mesh_len_vertices mesh) (lib_len_vertices lib mesh) ;;
  print (MsgVertices nv) ;;;
  nf <- call (mesh_len_faces mesh) (lib_len_faces lib mesh) ;;
  print (MsgFaces nf) ;;;
  print (MsgExtents extents) ;;;
  let scale := resize_scale (size args) model_size in
  mesh <- call (mesh_apply_scale mesh scale) (lib_apply_scale lib mesh scale) ;;
  print MsgResizedInfo ;;;
  nv <- call (mesh_len_vertices mesh) (lib_len_vertices lib mesh) ;;
  print (MsgVertices nv) ;;;
  nf <- call (mesh_len_faces mesh) (lib_len_faces lib mesh) ;;
  print (MsgFaces nf) ;;;
  extents <- call (mesh_bounding_box_extents mesh) (lib_extents lib mesh) ;;
  print (MsgExtents extents) ;;;
  display_mesh (inr mesh) true ;;;
  call (mesh_export mesh (output args)) (lib_export lib mesh (output args)) ;;;
  ret PyNone.

(** The [__main__] block after parsing: [parser] has been bound at line
    201. *)
Definition main (args : Namespace) : M pyval :=
  if downsample args then dowsample_mesh parser_of_main args
  else resize_mesh args.

End Script.

Arguments lib_path_exists {World Mesh} l.
Arguments lib_MeshSet {World Mesh} l.
Arguments lib_load_new_mesh {World Mesh} l.
Arguments lib_face_number {World Mesh} l.
Arguments lib_decimation {World Mesh} l.
Arguments lib_save_current_mesh {World Mesh} l.
Arguments lib_trimesh_load {World Mesh} l.
Arguments lib_extents {World Mesh} l.
Arguments lib_len_vertices {World Mesh} l.
Arguments lib_len_faces {World Mesh} l.
Arguments lib_apply_scale {World Mesh} l.
Arguments lib_export {World Mesh} l.
Arguments lib_Scene {World Mesh} l.
Arguments lib_creation_axis {World Mesh} l.
Arguments lib_set_face_colors {World Mesh} l.
Arguments lib_add_geometry {World Mesh} l.
Arguments lib_show {World Mesh} l.
Arguments ret {World Mesh A} a _.
Arguments raise {World Mesh A} e _.
Arguments bind {World Mesh A B} c k _.
Arguments try_except {World Mesh A} body handler _.
Arguments run {World Mesh A} c w.
Arguments trace {World Mesh} s.
Arguments world {World Mesh} s.
Arguments Build_state {World Mesh} trace world.
Arguments Stdout {Mesh} m.
Arguments ParserError {Mesh} msg.
Arguments Traceback {Mesh} e.
Arguments Call {Mesh} c.
Arguments os_path_exists {Mesh} path.
Arguments ml_MeshSet {Mesh}.
Arguments ms_load_new_mesh {Mesh} path.
Arguments ms_current_mesh_face_number {Mesh}.
Arguments ms_decimation {Mesh} a.
Arguments ms_save_current_mesh {Mesh} path save_textures.
Arguments trimesh_load {Mesh} path.
Arguments mesh_bounding_box_extents {Mesh} m.
Arguments mesh_len_vertices {Mesh} m.
Arguments mesh_len_faces {Mesh} m.
Arguments mesh_apply_scale {Mesh} m scale.
Arguments mesh_export {Mesh} m path.
Arguments box_set_face_colors {Mesh} m.
Arguments scene_add_geometry {Mesh} g.
Arguments trimesh_Scene {Mesh}.
Arguments trimesh_creation_axis {Mesh}.
Arguments scene_show {Mesh}.
Arguments GeomMesh {Mesh} m.
Arguments GeomBox {Mesh} m.
Arguments GeomAxis {Mesh}.
Arguments check_exclusive {World Mesh} target_faces reduction_ratio _.
Arguments check_range {World Mesh} reduction_ratio _.
Arguments check_input_exists {World Mesh} lib input_path _.
Arguments compute_target {World Mesh} target_faces reduction_ratio input_faces verbose _.
Arguments simplify_body {World Mesh} lib input_path output_path target_faces
  reduction_ratio texture_weight preserve_boundary boundary_weight
  quality_threshold planar optimal_placement verbose _.
Arguments simplify_textured_mesh {World Mesh} lib input_path output_path
  target_faces reduction_ratio texture_weight preserve_boundary boundary_weight
  quality_threshold planar optimal_placement verbose _.
Arguments display_mesh {World Mesh} lib mesh show_bbox _.
Arguments dowsample_try {World Mesh} lib args _.
Arguments dowsample_except {World Mesh} e _.
Arguments dowsample_mesh {World Mesh} lib parser args _.
Arguments call {World Mesh A} c f _.
Arguments emit {World Mesh} ev _.
Arguments print {World Mesh} m _.
Arguments when {World Mesh} b c _.
Arguments lift {World Mesh A} r _.
Arguments parser_error {World Mesh A} parser msg _.
Arguments resize_mesh {World Mesh} lib args _.
Arguments main {World Mesh} lib args _.

(** ** Reading a run *)

(** Calls into pymeshlab and trimesh (everything but [os.path.exists]). *)
Definition is_mesh_call {Mesh} (ev : event Mesh) : bool :=
  match ev with
  | Call (os_path_exists _) => false
  | Call _ => true
  | _ => false
  end.

Definition mesh_calls {Mesh} (tr : list (event Mesh)) : list (event Mesh) :=
  filter is_mesh_call tr.

(** The arguments of the decimation calls of a run, in order. *)
Definition decimations {Mesh} (tr : list (event Mesh)) : list decimation_args :=
  flat_map (fun ev => match ev with
                      | Call (ms_decimation a) => [a]
                      | _ => []
                      end) tr.

(** What a run wrote on stdout. *)
Definition printed {Mesh} (tr : list (event Mesh)) : list message :=
  flat_map (fun ev => match ev with Stdout m => [m] | _ => [] end) tr.

(** What a run does to trimesh meshes: the [apply_scale] and [export]
    calls, in order. *)
Inductive mesh_op (Mesh : Type) : Type :=
| Scaled (m : Mesh) (scale : float)
| Exported (m : Mesh) (path : string).
Arguments Scaled {Mesh} m scale.
Arguments Exported {Mesh} m path.

Definition mesh_ops {Mesh} (tr : list (event Mesh)) : list (mesh_op Mesh) :=
  flat_map (fun ev => match ev with
                      | Call (mesh_apply_scale m s) => [Scaled m s]
                      | Call (mesh_export m p) => [Exported m p]
                      | _ => []
                      end) tr.

(** The checks that open [simplify_textured_mesh], lines 72-83, in order. *)
Definition validation {World Mesh} (lib : Library World Mesh)
    (target_faces : option Z) (reduction_ratio : option float)
    (input_path : string) : M World Mesh unit :=
  bind (check_exclusive target_faces reduction_ratio)
    (fun _ => bind (check_range reduction_ratio)
       (fun _ => check_input_exists lib input_path)).

(** Why a run of the body of [simplify_textured_mesh] stops before the
    decimation call: the step that raised [e]. *)
Inductive stopped_before_engine {World Mesh} (lib : Library World Mesh)
    (input_path : string) (target_faces : option Z)
    (reduction_ratio : option float) (w : World) (e : exn) : Prop :=
| stopped_by_validation (st : state World Mesh) :
    run (validation lib target_faces reduction_ratio input_path) w
      = (Raises e, st) ->
    stopped_before_engine lib input_path target_faces reduction_ratio w e
| stopped_by_MeshSet (w' : World) :
    lib_MeshSet lib w = (Raises e, w') ->
    stopped_before_engine lib input_path target_faces reduction_ratio w e
| stopped_by_load (w0 w' : World) :
    lib_MeshSet lib w = (Returns tt, w0) ->
    lib_load_new_mesh lib input_path w0 = (Raises e, w') ->
    stopped_before_engine lib input_path target_faces reduction_ratio w e
| stopped_by_face_number (w0 w1 w' : World) :
    lib_MeshSet lib w = (Returns tt, w0) ->
    lib_load_new_mesh lib input_path w0 = (Returns tt, w1) ->
    lib_face_number lib w1 = (Raises e, w') ->
    stopped_before_engine lib input_path target_faces reduction_ratio w e
| stopped_by_target (w0 w1 w2 : World) (n : Z) (r : float) :
    lib_MeshSet lib w = (Returns tt, w0) ->
    lib_load_new_mesh lib input_path w0 = (Returns tt, w1) ->
    lib_face_number lib w1 = (Returns n, w2) ->
    reduction_ratio = Some r ->
    int_mul_float n (PyFloat.sub PyFloat.one r) = Raises e \/
    (exists x, int_mul_float n (PyFloat.sub PyFloat.one r) = Returns x /\
               py_int x = Raises e) ->
    stopped_before_engine lib input_path target_faces reduction_ratio w e.

(** A float whose exact value lies in the half-open interval [0, 1). *)
Definition in_unit_interval (r : float) : Prop :=
  exists q : Q, PyFloat.to_Q r = Some q /\ (0 <= q)%Q /\ (q < 1)%Q.

(** Non-negative floats: zeros and finite numbers with a clear sign bit. *)
Definition nonneg (x : float) : Prop :=
  match x with
  | S754_zero s | S754_finite s _ _ => s = false
  | _ => False
  end.

(** Floats that are zero or finite with value below [2 ^ b]. *)
Definition below_pow2 (b : Z) (x : float) : Prop :=
  match x with
  | S754_zero _ => True
  | S754_finite _ m e => Zpos (digits2_pos m) + e <= b
  | _ => False
  end.

(** ** A small executable instance of the libraries

    Used to run the script on concrete inputs: meshes are vertex lists with
    a face count, the file system is an association list. *)

Module Demo.

Record mesh : Type := { vertices : list (float * float * float); faces : Z }.

Record world : Type := {
  files : list (string * mesh);
  current : option mesh
}.

Fixpoint lookup (p : string) (fs : list (string * mesh)) : option mesh :=
  match fs with
  | [] => None
  | (q, m) :: rest => if String.eqb p q then Some m else lookup p rest
  end.

Definition fmax (a b : float) : float := if PyFloat.ltb a b then b else a.
Definition fmin (a b : float) : float := if PyFloat.ltb b a then b else a.

Definition span (xs : list float) : float :=
  match xs with
  | [] => PyFloat.zero
  | x :: rest => PyFloat.sub (fold_left fmax rest x) (fold_left fmin rest x)
  end.

Definition extents (m : mesh) : float * float * float :=
  (span (map (fun v => fst (fst v)) (vertices m)),
   span (map (fun v => snd (fst v)) (vertices m)),
   span (map (fun v => snd v) (vertices m))).

Definition scaled (m : mesh) (s : float) : mesh :=
  {| vertices := map (fun v => (PyFloat.mul (fst (fst v)) s,
                                PyFloat.mul (snd (fst v)) s,
                                PyFloat.mul (snd v) s)) (vertices m);
     faces := faces m |}.

Definition no_mesh {A} : outcome A := Raises (LibraryError "no current mesh").
Definition unreadable {A} : outcome A := Raises (LibraryError "cannot load file").

Definition lib : Library world mesh := {|
  lib_path_exists := fun p w =>
    match lookup p (files w) with Some _ => true | None => false end;
  lib_MeshSet := fun w => (Returns tt, {| files := files w; current := None |});
  lib_load_new_mesh := fun p w =>
    match lookup p (files w) with
    | Some m => (Returns tt, {| files := files w; current := Some m |})
    | None => (unreadable, w)
    end;
  lib_face_number := fun w =>
    match current w with
    | Some m => (Returns (faces m), w)
    | None => (no_mesh, w)
    end;
  lib_decimation := fun a w =>
    match current w, targetfacenum a with
    | Some m, Some t =>
        (Returns tt,
         {| files := files w;
            current := Some {| vertices := vertices m;
                               faces := Z.min (faces m) t |} |})
    | _, _ => (no_mesh, w)
    end;
  lib_save_current_mesh := fun p _ w =>
    match current w with
    | Some m => (Returns tt, {| files := (p, m) :: files w; current := current w |})
    | None => (no_mesh, w)
    end;
  lib_trimesh_load := fun p w =>
    match lookup p (files w) with
    | Some m => (Returns m, w)
    | None => (unreadable, w)
    end;
  lib_extents := fun m w => (Returns (extents m), w);
  lib_len_vertices := fun m w => (Returns (Z.of_nat (List.length (vertices m))), w);
  lib_len_faces := fun m w => (Returns (faces m), w);
  lib_apply_scale := fun m s w => (Returns (scaled m s), w);
  lib_export := fun m p w =>
    (Returns tt, {| files := (p, m) :: files w; current := current w |});
  lib_Scene := fun w => (Returns tt, w);
  lib_creation_axis := fun w => (Returns tt, w);
  lib_set_face_colors := fun _ w => (Returns tt, w);
  lib_add_geometry := fun _ w => (Returns tt, w);
  lib_show := fun w => (Returns tt, w)
|}.

Definition two : float := S754_finite false 4503599627370496 (-51).
Definition half : float := S754_finite false 4503599627370496 (-53).

(** Two opposite corners, (0,0,0) and (1,2,2), of a box of 12 triangles. *)
Definition box : mesh :=
  {| vertices := [ (PyFloat.zero, PyFloat.zero, PyFloat.zero);
                   (PyFloat.one, two, two) ];
     faces := 12 |}.

Definition disk : world :=
  {| files := [("in.obj", box)]; current := None |}.

Definition empty_disk : world := {| files := []; current := None |}.




Definition cli (i o : string) (d : bool) (sz : option float)
    (tf : option Z) (rr : option float) : Namespace :=
  {| input := i; output := o; downsample := d; size := sz;
     target_faces := tf; reduction_ratio := rr |}.

End Demo.

(** ** Facts about binary64 *)

Module FloatFacts.

Local Open Scope Z_scope.

Lemma digits2_pos_size (p : positive) : digits2_pos p = Pos.size p.
Proof. induction p; simpl; congruence. Qed.

Lemma digits2_upper (p : positive) : Zpos p < 2 ^ Zpos (digits2_pos p).
Proof.
  rewrite digits2_pos_size, <- Pos2Z.inj_pow.
  apply Pos2Z.pos_lt_pos, Pos.size_gt.
Qed.

Lemma digits2_lower (p : positive) : 2 ^ (Zpos (digits2_pos p) - 1) <= Zpos p.
Proof.
  rewrite digits2_pos_size.
  pose proof (Pos.size_le p) as H.
  apply Pos2Z.pos_le_pos in H.
  rewrite Pos2Z.inj_pow in H.
  replace (Zpos (Pos.size p)) with (1 + (Zpos (Pos.size p) - 1)) in H by lia.
  rewrite Z.pow_add_r in H by lia.
  change (2 ^ 1) with 2 in H. lia.
Qed.

(** A valid finite float has at most 53 digits, and exactly 53 above the
    subnormal range. *)
Lemma valid_finite (s : bool) (m : positive) (e : Z) :
  PyFloat.valid (S754_finite s m e) = true ->
  -1074 <= e <= 971 /\
  Zpos (digits2_pos m) <= 53 /\
  (-1074 < e -> Zpos (digits2_pos m) = 53).
Proof.
  unfold PyFloat.valid, valid_binary, bounded, canonical_mantissa, fexp, emin,
    PyFloat.prec, PyFloat.emax.
  intros H. apply andb_true_iff in H as [Hc He].
  apply Z.eqb_eq in Hc. apply Z.leb_le in He. lia.
Qed.

Lemma pow2_pos (p : positive) : Zpos (2 ^ p) = 2 ^ Zpos p.
Proof. apply Pos2Z.inj_pow. Qed.

Lemma Qmake_lt_1 (a : Z) (b : positive) : (Qmake a b < 1)%Q <-> a < Zpos b.
Proof. unfold Qlt. cbn [Qnum Qden]. lia. Qed.

Lemma inject_Z_lt_1 (z : Z) : (inject_Z z < 1)%Q <-> z < 1.
Proof. unfold Qlt, inject_Z. cbn [Qnum Qden]. lia. Qed.

Lemma Qmake_nonneg (a : Z) (b : positive) : (0 <= Qmake a b)%Q <-> 0 <= a.
Proof. unfold Qle. cbn [Qnum Qden]. lia. Qed.

Lemma ltb_one_finite (m : positive) (e : Z) :
  PyFloat.valid (S754_finite false m e) = true ->
  PyFloat.ltb (S754_finite false m e) PyFloat.one = true <->
  (exists q, PyFloat.to_Q (S754_finite false m e) = Some q /\ (q < 1)%Q).
Proof.
  intros Hv. apply valid_finite in Hv as (He & Hd & Hn).
  pose proof (digits2_upper m) as Hu.
  pose proof (digits2_lower m) as Hl.
  unfold PyFloat.ltb, SFltb, PyFloat.one, SFcompare, PyFloat.to_Q.
  destruct (Z.compare_spec e (-52)) as [Heq | Hlt | Hgt].
  - (* same exponent as 1.0: the mantissa is at least 2^52 *)
    subst e. rewrite Hn in Hl by lia.
    change (2 ^ (53 - 1)) with 4503599627370496 in Hl.
    rewrite Pos.compare_cont_spec. cbn [Pos.switch_Eq].
    assert (Hnlt : (m ?= 4503599627370496)%positive <> Lt).
    { rewrite Pos2Z.inj_compare, Z.compare_lt_iff. lia. }
    split.
    + destruct (m ?= 4503599627370496)%positive; cbn; congruence.
    + intros (q & Hq & Hlt1). exfalso. injection Hq as Hq; subst q.
      apply (proj1 (Qmake_lt_1 (Zpos m) (2 ^ 52))) in Hlt1.
      change (Zpos (2 ^ 52)) with 4503599627370496 in Hlt1. lia.
  - (* smaller exponent: below 1 *)
    split; [intros _ | reflexivity].
    destruct e as [| p | p]; try lia.
    eexists; split; [reflexivity |].
    apply (proj2 (Qmake_lt_1 _ _)). rewrite pow2_pos.
    assert (2 ^ Zpos (digits2_pos m) <= 2 ^ 53) by (apply Z.pow_le_mono_r; lia).
    assert (2 ^ 53 <= 2 ^ Zpos p) by (apply Z.pow_le_mono_r; lia).
    lia.
  - (* larger exponent: at least 2 *)
    rewrite Hn in Hl by lia. change (2 ^ (53 - 1)) with 4503599627370496 in Hl.
    split; [discriminate |].
    intros (q & Hq & Hlt1). exfalso. injection Hq as Hq; subst q.
    destruct e as [| p | p].
    + apply (proj1 (inject_Z_lt_1 (Zpos m * 2 ^ 0))) in Hlt1.
      rewrite Z.pow_0_r, Z.mul_1_r in Hlt1. lia.
    + apply (proj1 (inject_Z_lt_1 (Zpos m * 2 ^ Zpos p))) in Hlt1.
      assert (1 <= 2 ^ Zpos p) by (apply (Z.pow_le_mono_r 2 0); lia).
      nia.
    + apply (proj1 (Qmake_lt_1 (Zpos m) (2 ^ p))) in Hlt1. rewrite pow2_pos in Hlt1.
      assert (2 ^ Zpos p <= 2 ^ 51) by (apply Z.pow_le_mono_r; lia).
      change (2 ^ 51) with 2251799813685248 in H. lia.
Qed.

(** The test [0 <= r < 1] of the script holds exactly for the floats whose
    value is in [0, 1). *)
Lemma in_range_spec (r : float) :
  PyFloat.valid r = true ->
  in_range r = true <-> in_unit_interval r.
Proof.
  intros Hv. unfold in_range, in_unit_interval.
  destruct r as [s | s | | s m e].
  - split; [intros _ | reflexivity].
    exists 0%Q. split; [reflexivity |]. split; [apply Qle_refl | reflexivity].
  - split.
    + destruct s; discriminate.
    + intros (q & Hq & _). discriminate.
  - split; [discriminate |]. intros (q & Hq & _). discriminate.
  - destruct s.
    + split; [discriminate |].
      intros (q & Hq & Hge & _). exfalso.
      cbn [PyFloat.to_Q] in Hq. injection Hq as Hq. subst q.
      destruct e as [| p | p].
      * apply (proj1 (Qmake_nonneg (- (Zpos m * 2 ^ 0)) 1)) in Hge.
        rewrite Z.pow_0_r in Hge. lia.
      * apply (proj1 (Qmake_nonneg (- (Zpos m * 2 ^ Zpos p)) 1)) in Hge.
        assert (0 < 2 ^ Zpos p) by (apply Z.pow_pos_nonneg; lia). nia.
      * apply (proj1 (Qmake_nonneg (- Zpos m) (2 ^ p))) in Hge. lia.
    + change (PyFloat.leb PyFloat.zero (S754_finite false m e)) with true.
      rewrite andb_true_l, (ltb_one_finite m e Hv).
      split.
      * intros (q & Hq & Hlt). exists q. repeat split; trivial.
        cbn [PyFloat.to_Q] in Hq. injection Hq as Hq. subst q.
        destruct e as [| p | p].
        -- apply (proj2 (Qmake_nonneg (Zpos m * 2 ^ 0) 1)). lia.
        -- apply (proj2 (Qmake_nonneg (Zpos m * 2 ^ Zpos p) 1)).
           assert (0 < 2 ^ Zpos p) by (apply Z.pow_pos_nonneg; lia). nia.
        -- apply (proj2 (Qmake_nonneg (Zpos m) (2 ^ p))). lia.
      * intros (q & Hq & _ & Hlt). exists q. split; trivial.
Qed.

(** Rounding keeps the sign it is given. *)
Lemma binary_round_aux_sign (sx : bool) (mx ex : Z) (lx : location) :
  match binary_round_aux PyFloat.prec PyFloat.emax sx mx ex lx with
  | S754_zero s | S754_finite s _ _ | S754_infinity s => s = sx
  | S754_nan => True
  end.
Proof.
  unfold binary_round_aux.
  destruct (shr_fexp _ _ mx ex lx) as [mrs' e'].
  destruct (shr_fexp _ _ _ e' loc_Exact) as [mrs'' e''].
  destruct (shr_m mrs''); trivial.
  destruct (e'' <=? _)%Z; reflexivity.
Qed.

Lemma binary_round_sign (sx : bool) (mx : positive) (ex : Z) :
  match binary_round PyFloat.prec PyFloat.emax sx mx ex with
  | S754_zero s | S754_finite s _ _ | S754_infinity s => s = sx
  | S754_nan => True
  end.
Proof.
  unfold binary_round.
  destruct (shl_align mx ex _) as [mz ez]. apply binary_round_aux_sign.
Qed.

Lemma of_int_nonneg (n : Z) :
  0 <= n -> PyFloat.is_finite (PyFloat.of_int n) = true ->
  nonneg (PyFloat.of_int n).
Proof.
  intros Hn. unfold PyFloat.of_int, binary_normalize.
  destruct n as [| p | p]; [reflexivity | | lia].
  pose proof (binary_round_sign false p 0) as H.
  destruct (binary_round _ _ false p 0); cbn; try discriminate; auto.
Qed.

Lemma mul_nonneg (x y : float) :
  nonneg x -> nonneg y -> PyFloat.is_finite (PyFloat.mul x y) = true ->
  nonneg (PyFloat.mul x y).
Proof.
  unfold PyFloat.mul, SFmul.
  destruct x as [sx | sx | | sx mx ex], y as [sy | sy | | sy my ey];
    cbn; try contradiction; try discriminate;
    intros -> ->; try reflexivity.
  pose proof (binary_round_aux_sign (xorb false false)
                (Zpos (mx * my)) (ex + ey) loc_Exact) as H.
  destruct (binary_round_aux _ _ _ _ _ _); cbn; try discriminate; auto.
Qed.

Lemma iter_xO (m d : positive) :
  Zpos (Pos.iter xO m d) = Zpos m * 2 ^ Zpos d.
Proof.
  revert m. induction d using Pos.peano_ind; intros m.
  - cbn [Pos.iter]. change (2 ^ 1) with 2. lia.
  - rewrite Pos.iter_succ, Pos2Z.inj_xO, IHd, Pos2Z.inj_succ.
    rewrite Z.pow_succ_r by lia. lia.
Qed.

(** In range and finite means zero, or positive with exponent below
    that of 1.0. *)
Lemma in_range_finite (m : positive) (e : Z) (s : bool) :
  PyFloat.valid (S754_finite s m e) = true ->
  in_range (S754_finite s m e) = true ->
  s = false /\ e < -52.
Proof.
  intros Hv Hr. unfold in_range in Hr. apply andb_true_iff in Hr as [H0 H1].
  destruct s; [discriminate |]. split; [reflexivity |].
  apply valid_finite in Hv as (He & Hd & Hn).
  pose proof (digits2_lower m) as Hl.
  unfold PyFloat.ltb, SFltb, PyFloat.one, SFcompare in H1.
  destruct (Z.compare_spec e (-52)) as [Heq | Hlt | Hgt];
    [| exact Hlt | discriminate].
  exfalso. subst e. rewrite Hn in Hl by lia.
  change (2 ^ (53 - 1)) with 4503599627370496 in Hl.
  rewrite Pos.compare_cont_spec in H1. cbn [Pos.switch_Eq] in H1.
  assert (Hnlt : (m ?= 4503599627370496)%positive <> Lt).
  { rewrite Pos2Z.inj_compare, Z.compare_lt_iff. lia. }
  destruct (m ?= 4503599627370496)%positive; cbn in H1; congruence.
Qed.

Lemma sub_one_nonneg (r : float) :
  PyFloat.valid r = true -> in_range r = true ->
  PyFloat.is_finite (PyFloat.sub PyFloat.one r) = true ->
  nonneg (PyFloat.sub PyFloat.one r).
Proof.
  intros Hv Hr.
  destruct r as [s | s | | s m e].
  - intros _. reflexivity.
  - destruct s; discriminate.
  - discriminate.
  - destruct (in_range_finite m e s Hv Hr) as [-> He].
    apply valid_finite in Hv as (_ & Hd & _).
    pose proof (digits2_upper m) as Hu.
    unfold PyFloat.sub, PyFloat.one, SFsub.
    rewrite Z.min_r by lia.
    unfold shl_align. rewrite Z.sub_diag.
    destruct (e - -52) as [| d | d] eqn:Hed; try lia.
    cbn [fst cond_Zopp].
    assert (Hpos : 0 < Zpos (Pos.iter xO 4503599627370496%positive d) - Zpos m).
    { rewrite iter_xO.
      assert (2 ^ Zpos (digits2_pos m) <= 2 ^ 53)
        by (apply Z.pow_le_mono_r; lia).
      assert (2 ^ 1 <= 2 ^ Zpos d) by (apply Z.pow_le_mono_r; lia).
      change (2 ^ 53) with 9007199254740992 in *.
      change (2 ^ 1) with 2 in *. nia. }
    destruct (Zpos (Pos.iter xO 4503599627370496%positive d) - Zpos m)
      as [| p | p] eqn:Hdiff; try lia.
    unfold binary_normalize.
    pose proof (binary_round_sign false p e) as H.
    destruct (binary_round _ _ false p e); cbn; try discriminate; auto.
Qed.

(** On a non-negative float, truncation toward zero is the floor of the
    exact value. *)
Lemma trunc_floor (x : float) (c : Z) :
  nonneg x -> PyFloat.trunc x = Some c ->
  exists q, PyFloat.to_Q x = Some q /\ c = Qfloor q /\ 0 <= c.
Proof.
  destruct x as [s | s | | s m e]; cbn [nonneg]; try contradiction.
  - intros _ H. cbn in H. injection H as <-. exists 0%Q.
    split; [reflexivity |]. split; [reflexivity | lia].
  - intros -> H. destruct e as [| p | p].
    + exists (inject_Z (Zpos m * 2 ^ 0)). split; [reflexivity |].
      rewrite Qfloor_Z.
      assert (Hc : c = Zpos m * 2 ^ 0) by (injection H as <-; reflexivity).
      rewrite Hc, Z.pow_0_r. split; [reflexivity | lia].
    + exists (inject_Z (Zpos m * 2 ^ Zpos p)). split; [reflexivity |].
      rewrite Qfloor_Z.
      assert (Hc : c = Zpos m * 2 ^ Zpos p)
        by (injection H as <-; reflexivity).
      rewrite Hc. split; [reflexivity |].
      apply Z.mul_nonneg_nonneg; [lia |]. apply Z.pow_nonneg. lia.
    + exists (Qmake (Zpos m) (2 ^ p)). split; [reflexivity |].
      assert (Hc : c = Z.quot (Zpos m) (Zpos (2 ^ p)))
        by (injection H as <-; reflexivity).
      rewrite Hc. cbn [Qfloor].
      rewrite Z.quot_div_nonneg by lia.
      split; [reflexivity |]. apply Z.div_pos; lia.
Qed.

Lemma py_int_Returns (x : float) (c : Z) :
  py_int x = Returns c <-> PyFloat.trunc x = Some c.
Proof.
  unfold py_int. destruct (PyFloat.trunc x) as [n |].
  - split; intros H; injection H as <-; reflexivity.
  - split; [destruct (PyFloat.is_nan x) |]; discriminate.
Qed.

(** Lines 97: for a face count [n >= 0] and a ratio in range, the
    integer obtained is the floor of the exact value of the float product
    [n * (1 - r)], and it is not negative. *)
Lemma calculated_target_floor (n : Z) (r x : float) (c : Z) :
  0 <= n -> PyFloat.valid r = true -> in_range r = true ->
  int_mul_float n (PyFloat.sub PyFloat.one r) = Returns x ->
  py_int x = Returns c ->
  exists q, PyFloat.to_Q x = Some q /\ c = Qfloor q /\ 0 <= c.
Proof.
  intros Hn Hv Hr Hx Hc. apply py_int_Returns in Hc.
  apply trunc_floor; [| exact Hc].
  unfold int_mul_float in Hx.
  pose proof (of_int_nonneg n Hn) as Hf.
  pose proof (sub_one_nonneg r Hv Hr) as Hy.
  pose proof (mul_nonneg (PyFloat.of_int n) (PyFloat.sub PyFloat.one r)) as Hm.
  set (f := PyFloat.of_int n) in *.
  set (y := PyFloat.sub PyFloat.one r) in *.
  destruct (PyFloat.is_finite f) eqn:Ef; [| discriminate].
  injection Hx as <-.
  assert (Ey : PyFloat.is_finite y = true).
  { destruct f, y; try discriminate; reflexivity. }
  assert (Ex : PyFloat.is_finite (PyFloat.mul f y) = true).
  { destruct (PyFloat.mul f y); try discriminate; reflexivity. }
  auto.
Qed.

(** Number of binary digits against powers of two. *)
Lemma Zdigits2_le (m k : Z) :
  0 <= m -> 0 <= k -> m < 2 ^ k -> Zdigits2 m <= k.
Proof.
  intros Hm Hk Hlt. destruct m as [| p | p]; cbn [Zdigits2]; [lia | | lia].
  pose proof (digits2_lower p) as Hl.
  destruct (Z_le_gt_dec (Zpos (digits2_pos p)) k) as [Hle | Hgt]; [exact Hle |].
  exfalso.
  assert (2 ^ k <= 2 ^ (Zpos (digits2_pos p) - 1))
    by (apply Z.pow_le_mono_r; lia).
  lia.
Qed.

Lemma Zdigits2_lt (m : Z) : 0 <= m -> m < 2 ^ Zdigits2 m.
Proof.
  intros Hm. destruct m as [| p | p]; cbn [Zdigits2]; [reflexivity | | lia].
  apply digits2_upper.
Qed.

Lemma Zdigits2_nonneg (m : Z) : 0 <= Zdigits2 m.
Proof. destruct m; cbn; lia. Qed.

(** Shifting right halves a non-negative mantissa. *)
Lemma shr_1_m (mrs : shr_record) :
  0 <= shr_m mrs -> shr_m (shr_1 mrs) = shr_m mrs / 2.
Proof.
  destruct mrs as [m r s]. cbn [shr_m]. intros Hm.
  destruct m as [| [p | p |] | p]; cbn [shr_1 shr_m].
  - reflexivity.
  - rewrite Pos2Z.inj_xI. apply Z.div_unique_pos with (r := 1); lia.
  - rewrite Pos2Z.inj_xO. apply Z.div_unique_pos with (r := 0); lia.
  - reflexivity.
  - lia.
Qed.

Lemma iter_shr_1_m (p : positive) (mrs : shr_record) :
  0 <= shr_m mrs ->
  shr_m (iter_pos shr_1 p mrs) = shr_m mrs / 2 ^ Zpos p.
Proof.
  revert mrs. induction p as [p IH | p IH |]; intros mrs Hm; cbn [iter_pos].
  - assert (H1 : 0 <= shr_m (shr_1 mrs)).
    { rewrite shr_1_m by exact Hm. apply Z.div_pos; lia. }
    assert (H2 : 0 <= shr_m (iter_pos shr_1 p (shr_1 mrs))).
    { rewrite IH by exact H1. apply Z.div_pos; [exact H1 |].
      apply Z.pow_pos_nonneg; lia. }
    rewrite IH by exact H2. rewrite IH by exact H1. rewrite shr_1_m by exact Hm.
    assert (Hp : 0 < 2 ^ Zpos p) by (apply Z.pow_pos_nonneg; lia).
    assert (E : 2 ^ Zpos p~1 = 2 * (2 ^ Zpos p * 2 ^ Zpos p)).
    { replace (Zpos p~1) with (1 + Zpos p + Zpos p) by lia.
      rewrite !Z.pow_add_r by lia. change (2 ^ 1) with 2. lia. }
    rewrite E, !Z.div_div by lia. reflexivity.
  - assert (H2 : 0 <= shr_m (iter_pos shr_1 p mrs)).
    { rewrite IH by exact Hm. apply Z.div_pos; [exact Hm |].
      apply Z.pow_pos_nonneg; lia. }
    rewrite IH by exact H2. rewrite IH by exact Hm.
    assert (Hp : 0 < 2 ^ Zpos p) by (apply Z.pow_pos_nonneg; lia).
    assert (E : 2 ^ Zpos p~0 = 2 ^ Zpos p * 2 ^ Zpos p).
    { replace (Zpos p~0) with (Zpos p + Zpos p) by lia.
      rewrite Z.pow_add_r by lia. reflexivity. }
    rewrite E, Z.div_div by lia. reflexivity.
  - rewrite shr_1_m by exact Hm. reflexivity.
Qed.

Lemma shr_record_of_loc_m (m : Z) (l : location) :
  shr_m (shr_record_of_loc m l) = m.
Proof. destruct l as [| []]; reflexivity. Qed.

(** What [shr_fexp] does to a non-negative mantissa: the exponent moves up
    to the canonical one and no digit is gained. *)
Lemma shr_fexp_spec (m e : Z) (l : location) (mrs' : shr_record) (e' : Z) :
  0 <= m ->
  shr_fexp PyFloat.prec PyFloat.emax m e l = (mrs', e') ->
  0 <= shr_m mrs' /\
  e' = Z.max e (fexp PyFloat.prec PyFloat.emax (Zdigits2 m + e)) /\
  (0 < shr_m mrs' -> Zdigits2 (shr_m mrs') + e' <= Zdigits2 m + e) /\
  (shr_m mrs' = 0 -> 0 < m -> Zdigits2 m + e <= e').
Proof.
  intros Hm. unfold shr_fexp, shr.
  set (n := fexp PyFloat.prec PyFloat.emax (Zdigits2 m + e) - e).
  assert (Hn : fexp PyFloat.prec PyFloat.emax (Zdigits2 m + e) = e + n)
    by (unfold n; lia).
  rewrite Hn. clearbody n.
  destruct n as [| p | p]; intros H; injection H as <- <-.
  - rewrite shr_record_of_loc_m. repeat split; lia.
  - rewrite iter_shr_1_m by (rewrite shr_record_of_loc_m; exact Hm).
    rewrite shr_record_of_loc_m.
    assert (Hp : 0 < 2 ^ Zpos p) by (apply Z.pow_pos_nonneg; lia).
    pose proof (Zdigits2_lt m Hm) as Hd.
    pose proof (Zdigits2_nonneg m) as Hd0.
    split; [apply Z.div_pos; lia |]. split; [lia |].
    split; [| intros Hz _;
              assert (m < 2 ^ Zpos p)
                by (destruct (Z_lt_le_dec m (2 ^ Zpos p)) as [Hl | Hl];
                    [exact Hl |];
                    assert (1 <= m / 2 ^ Zpos p)
                      by (apply Z.div_le_lower_bound; lia); lia);
              assert (Zdigits2 m <= Zpos p) by (apply Zdigits2_le; lia);
              lia].
    intros Hpos.
    assert (Hge : 2 ^ Zpos p <= m).
    { destruct (Z_le_gt_dec (2 ^ Zpos p) m) as [Hle | Hgt]; [exact Hle |].
      rewrite Z.div_small in Hpos by lia. lia. }
    assert (Hlt : Zpos p < Zdigits2 m).
    { destruct (Z_lt_le_dec (Zpos p) (Zdigits2 m)) as [Hl | Hl]; [exact Hl |].
      assert (2 ^ Zdigits2 m <= 2 ^ Zpos p) by (apply Z.pow_le_mono_r; lia).
      lia. }
    assert (Hdig : Zdigits2 (m / 2 ^ Zpos p) <= Zdigits2 m - Zpos p).
    { apply Zdigits2_le; [apply Z.div_pos; lia | lia |].
      apply Z.div_lt_upper_bound; [lia |].
      rewrite <- Z.pow_add_r by lia.
      replace (Zpos p + (Zdigits2 m - Zpos p)) with (Zdigits2 m) by lia.
      exact Hd. }
    lia.
  - rewrite shr_record_of_loc_m. repeat split; lia.
Qed.

Lemma Zdigits2_pos (m : Z) : 0 < m -> 1 <= Zdigits2 m.
Proof. destruct m as [| p | p]; cbn; lia. Qed.

Lemma Zdigits2_mono (a b : Z) : 0 <= a <= b -> Zdigits2 a <= Zdigits2 b.
Proof.
  intros [Ha Hab]. pose proof (Zdigits2_lt b) as Hb.
  apply Zdigits2_le; [lia | apply Zdigits2_nonneg | lia].
Qed.

Lemma Zdigits2_succ (m : Z) : 0 <= m -> Zdigits2 (m + 1) <= Zdigits2 m + 1.
Proof.
  intros Hm. pose proof (Zdigits2_lt m Hm) as Hd.
  pose proof (Zdigits2_nonneg m) as Hd0.
  apply Zdigits2_le; [lia | lia |].
  rewrite Z.pow_add_r by lia. change (2 ^ 1) with 2. lia.
Qed.

Lemma round_nearest_even_bounds (m : Z) (l : location) :
  m <= round_nearest_even m l <= m + 1.
Proof.
  unfold round_nearest_even.
  destruct l as [| []]; try destruct (Z.even m); lia.
Qed.

(** Rounding a positive mantissa whose value is far below the overflow
    threshold gives a zero or a finite float, with at most one more digit
    in front of the binary point. *)
Lemma binary_round_aux_finite (sx : bool) (mx ex : Z) (lx : location) :
  0 < mx -> ex <= 970 -> Zdigits2 mx + ex <= 1023 ->
  match binary_round_aux PyFloat.prec PyFloat.emax sx mx ex lx with
  | S754_zero _ => True
  | S754_finite _ m e =>
      Zpos (digits2_pos m) + e <= Z.max (Zdigits2 mx + ex + 1) (-1073)
  | _ => False
  end.
Proof.
  intros Hmx Hex Hdx. unfold binary_round_aux.
  destruct (shr_fexp _ _ mx ex lx) as [mrs' e'] eqn:H1.
  apply shr_fexp_spec in H1 as (Hm' & He' & Hd' & Hz'); [| lia].
  pose proof (round_nearest_even_bounds (shr_m mrs') (loc_of_shr_record mrs'))
    as Hr.
  set (m1 := round_nearest_even (shr_m mrs') (loc_of_shr_record mrs')) in *.
  destruct (shr_fexp _ _ m1 e' loc_Exact) as [mrs'' e''] eqn:H2.
  apply shr_fexp_spec in H2 as (Hm'' & He'' & Hd'' & _); [| lia].
  pose proof (Zdigits2_pos mx Hmx) as Hd1.
  unfold fexp, emin, PyFloat.prec, PyFloat.emax in *.
  assert (Hm1 : Zdigits2 m1 + e' <= Z.max (Zdigits2 mx + ex + 1) (-1073)).
  { destruct (Z.eq_dec (shr_m mrs') 0) as [E0 | N0].
    - specialize (Hz' E0 Hmx).
      assert (Zdigits2 m1 <= 1).
      { apply (Zdigits2_le m1 1); [lia | lia |]. change (2 ^ 1) with 2. lia. }
      lia.
    - assert (Hpos : 0 < shr_m mrs') by lia. specialize (Hd' Hpos).
      pose proof (Zdigits2_mono m1 (shr_m mrs' + 1)) as Hmono.
      pose proof (Zdigits2_succ (shr_m mrs') Hm') as Hsucc.
      lia. }
  destruct (shr_m mrs'') as [| p | p] eqn:Em; [trivial | | lia].
  assert (Hd2 : Zpos (digits2_pos p) + e'' <= Zdigits2 m1 + e').
  { apply Hd''. lia. }
  assert (Hle : (e'' <=? 1024 - 53) = true) by (apply Z.leb_le; lia).
  rewrite Hle. lia.
Qed.

Lemma below_pow2_finite (b : Z) (x : float) :
  below_pow2 b x -> PyFloat.is_finite x = true.
Proof. destruct x; cbn; intros H; trivial; contradiction. Qed.

Lemma binary_round_finite (sx : bool) (mx : positive) (ex b : Z) :
  ex <= 970 -> Zpos (digits2_pos mx) + ex <= b -> -1074 <= b <= 1023 ->
  below_pow2 (b + 1) (binary_round PyFloat.prec PyFloat.emax sx mx ex).
Proof.
  intros Hex Hd Hb. unfold binary_round, shl_align.
  set (ex' := fexp PyFloat.prec PyFloat.emax (Zpos (digits2_pos mx) + ex)).
  clearbody ex'.
  pose proof (digits2_upper mx) as Hu.
  assert (Haux : forall mz ez,
             ez <= ex -> Zdigits2 (Zpos mz) + ez <= Zpos (digits2_pos mx) + ex ->
             below_pow2 (b + 1)
               (binary_round_aux PyFloat.prec PyFloat.emax sx (Zpos mz) ez
                  loc_Exact)).
  { intros mz ez Hez Hdz.
    pose proof (binary_round_aux_finite sx (Zpos mz) ez loc_Exact) as H.
    destruct (binary_round_aux _ _ sx (Zpos mz) ez loc_Exact);
      cbn [below_pow2]; try (apply H; lia).
    assert (Zpos (digits2_pos m) + e
            <= Z.max (Zdigits2 (Zpos mz) + ez + 1) (-1073)) by (apply H; lia).
    lia. }
  destruct (ex' - ex) as [| d | d] eqn:Hd'.
  - apply Haux; cbn [Zdigits2]; lia.
  - apply Haux; cbn [Zdigits2]; lia.
  - apply Haux; [lia |].
    assert (Hz : Zdigits2 (Zpos (Pos.iter xO mx d))
                 <= Zpos (digits2_pos mx) + Zpos d).
    { apply Zdigits2_le; [lia | lia |].
      rewrite iter_xO, Z.pow_add_r by lia.
      assert (0 < 2 ^ Zpos d) by (apply Z.pow_pos_nonneg; lia). nia. }
    lia.
Qed.

Lemma of_int_below (n k : Z) :
  0 <= n < 2 ^ k -> 0 <= k <= 1023 ->
  below_pow2 (k + 1) (PyFloat.of_int n).
Proof.
  intros [Hn Hlt] Hk. unfold PyFloat.of_int, binary_normalize.
  destruct n as [| p | p]; [exact I | | lia].
  apply binary_round_finite; [lia | | lia].
  pose proof (Zdigits2_le (Zpos p) k) as H. cbn [Zdigits2] in H. lia.
Qed.

(** For [r] in range, [1 - r] is a float of value at most 1. *)
Lemma sub_one_below (r : float) :
  PyFloat.valid r = true -> in_range r = true ->
  below_pow2 2 (PyFloat.sub PyFloat.one r).
Proof.
  intros Hv Hr.
  destruct r as [s | s | | s m e].
  - cbn. lia.
  - destruct s; discriminate.
  - discriminate.
  - destruct (in_range_finite m e s Hv Hr) as [-> He].
    apply valid_finite in Hv as (Hemin & Hd & _).
    pose proof (digits2_upper m) as Hu.
    unfold PyFloat.sub, PyFloat.one, SFsub.
    rewrite Z.min_r by lia.
    unfold shl_align. rewrite Z.sub_diag.
    destruct (e - -52) as [| d | d] eqn:Hed; try lia.
    cbn [fst cond_Zopp].
    assert (Hiter : Zpos (Pos.iter xO 4503599627370496%positive d)
                    = 2 ^ (52 + Zpos d)).
    { rewrite iter_xO, Z.pow_add_r by lia. reflexivity. }
    assert (Hm53 : Zpos m < 2 ^ 53).
    { assert (2 ^ Zpos (digits2_pos m) <= 2 ^ 53)
        by (apply Z.pow_le_mono_r; lia). lia. }
    assert (H53 : 2 ^ 53 <= 2 ^ (52 + Zpos d))
      by (apply Z.pow_le_mono_r; lia).
    destruct (Zpos (Pos.iter xO 4503599627370496%positive d) - Zpos m)
      as [| p | p] eqn:Hdiff; try lia.
    unfold binary_normalize.
    apply (binary_round_finite false p e 1); [lia | | lia].
    assert (Zdigits2 (Zpos p) <= 52 + Zpos d)
      by (apply Zdigits2_le; lia).
    cbn [Zdigits2] in *. lia.
Qed.

Lemma mul_below (x y : float) (a b : Z) :
  below_pow2 a x -> below_pow2 b y -> a + b <= 972 ->
  PyFloat.is_finite (PyFloat.mul x y) = true.
Proof.
  intros Hx Hy Hab.
  destruct x as [sx | sx | | sx mx ex], y as [sy | sy | | sy my ey];
    cbn [below_pow2] in *; try contradiction; try reflexivity.
  unfold PyFloat.mul, SFmul.
  pose proof (binary_round_aux_finite (xorb sx sy) (Zpos (mx * my))
                (ex + ey) loc_Exact) as H.
  assert (Hdx : 1 <= Zpos (digits2_pos mx)) by lia.
  assert (Hdy : 1 <= Zpos (digits2_pos my)) by lia.
  assert (Hd : Zdigits2 (Zpos (mx * my))
               <= Zpos (digits2_pos mx) + Zpos (digits2_pos my)).
  { apply Zdigits2_le; [lia | lia |].
    rewrite Z.pow_add_r, Pos2Z.inj_mul by lia.
    pose proof (digits2_upper mx). pose proof (digits2_upper my).
    apply Z.mul_lt_mono_nonneg; lia. }
  destruct (binary_round_aux _ _ _ _ _ _); try reflexivity;
    exfalso; apply H; lia.
Qed.

(** Line 97 never overflows on a realistic face count. *)
Lemma calculated_target_exists (n : Z) (r : float) :
  0 <= n < 2 ^ 63 -> PyFloat.valid r = true -> in_range r = true ->
  exists x c,
    int_mul_float n (PyFloat.sub PyFloat.one r) = Returns x /\
    py_int x = Returns c.
Proof.
  intros Hn Hv Hr.
  assert (Hf : below_pow2 64 (PyFloat.of_int n))
    by (apply (of_int_below n 63); lia).
  pose proof (sub_one_below r Hv Hr) as Hy.
  pose proof (mul_below _ _ 64 2 Hf Hy ltac:(lia)) as Hm.
  unfold int_mul_float. rewrite (below_pow2_finite 64 _ Hf).
  set (x := PyFloat.mul (PyFloat.of_int n) (PyFloat.sub PyFloat.one r)) in *.
  exists x.
  destruct (PyFloat.trunc x) as [c |] eqn:Ht.
  - exists c. split; [reflexivity |]. apply py_int_Returns. exact Ht.
  - exfalso. destruct x; cbn in Ht, Hm; discriminate.
Qed.

End FloatFacts.

(** ** Stepping through a run *)

Section Stepping.

Context {World Mesh : Type}.

Implicit Types s : state World Mesh.

Lemma bind_inv {A B} (c : M World Mesh A) (k : A -> M World Mesh B) s r s' :
  bind c k s = (r, s') ->
  (exists a s1, c s = (Returns a, s1) /\ k a s1 = (r, s')) \/
  (exists e, c s = (Raises e, s') /\ r = Raises e).
Proof.
  unfold bind. destruct (c s) as [[a | e] s1]; intros H.
  - left. exists a, s1. split; [reflexivity | exact H].
  - right. exists e. injection H as <- <-. split; reflexivity.
Qed.

Lemma bind_Returns_inv {A B} (c : M World Mesh A) (k : A -> M World Mesh B)
    s b s' :
  bind c k s = (Returns b, s') ->
  exists a s1, c s = (Returns a, s1) /\ k a s1 = (Returns b, s').
Proof.
  intros H. apply bind_inv in H as [H | (e & _ & H)]; [exact H | discriminate].
Qed.

Lemma bind_Returns {A B} (c : M World Mesh A) (k : A -> M World Mesh B)
    s a s1 :
  c s = (Returns a, s1) -> bind c k s = k a s1.
Proof. unfold bind. intros ->. reflexivity. Qed.

Lemma bind_Raises {A B} (c : M World Mesh A) (k : A -> M World Mesh B)
    s e s1 :
  c s = (Raises e, s1) -> bind c k s = (Raises e, s1).
Proof. unfold bind. intros ->. reflexivity. Qed.

Lemma call_inv {A} (c : libcall Mesh) (f : World -> outcome A * World)
    s r s' :
  call c f s = (r, s') ->
  exists w', f (world s) = (r, w') /\
             s' = {| trace := trace s ++ [Call c]; world := w' |}.
Proof.
  unfold call. destruct (f (world s)) as [r0 w']. intros H.
  injection H as <- <-. exists w'. split; reflexivity.
Qed.

Lemma call_eq {A} (c : libcall Mesh) (f : World -> outcome A * World)
    s r w' :
  f (world s) = (r, w') ->
  call c f s = (r, {| trace := trace s ++ [Call c]; world := w' |}).
Proof. unfold call. intros ->. reflexivity. Qed.

Lemma when_inv (b : bool) (m : message) s r s' :
  when b (print m) s = (r, s') ->
  r = Returns tt /\
  s' = {| trace := trace s ++ (if b then [Stdout m] else []); world := world s |}.
Proof.
  destruct b; cbn; intros H; injection H as <- <-; split; trivial.
  destruct s; cbn. rewrite app_nil_r. reflexivity.
Qed.

Lemma print_inv (m : message) s r s' :
  print m s = (r, s') ->
  r = Returns tt /\
  s' = {| trace := trace s ++ [Stdout m]; world := world s |}.
Proof. cbn. intros H; injection H as <- <-; split; reflexivity. Qed.

Lemma lift_inv {A} (o : outcome A) s r s' :
  lift o s = (r, s') -> r = o /\ s' = s.
Proof. cbn. intros H; injection H as <- <-; split; reflexivity. Qed.

Lemma ret_inv {A} (a : A) s r s' :
  ret a s = (r, s') -> r = Returns a /\ s' = s.
Proof. cbn. intros H; injection H as <- <-; split; reflexivity. Qed.

(** [try]/[except Exception]: the three ways out. *)
Lemma try_except_Returns {A} (body : M World Mesh A) handler s a s1 :
  body s = (Returns a, s1) -> try_except body handler s = (Returns a, s1).
Proof. unfold try_except. intros ->. reflexivity. Qed.

Lemma try_except_caught {A} (body : M World Mesh A) handler s e s1 :
  body s = (Raises e, s1) -> is_Exception e = true ->
  try_except body handler s = handler e s1.
Proof. unfold try_except. intros -> ->. reflexivity. Qed.

Lemma try_except_passes {A} (body : M World Mesh A) handler s e s1 :
  body s = (Raises e, s1) -> is_Exception e = false ->
  try_except body handler s = (Raises e, s1).
Proof. unfold try_except. intros -> ->. reflexivity. Qed.

End Stepping.

(** ** Parameter validation of [simplify_textured_mesh] *)

(** C2. [simplify_textured_mesh] wants exactly one of [target_faces] and
    [reduction_ratio]: with both absent or both given, the first validation
    step raises [ValueError]; the call then only prints the failure (when
    verbose), makes no library call at all, hence no decimation.  With
    exactly one of them the step passes. *)
Theorem C2_target_xor_ratio {World Mesh} (lib : Library World Mesh)
    (input_path output_path : string)
    (target_faces : option Z) (reduction_ratio : option float)
    (texture_weight : float) (preserve_boundary : bool)
    (boundary_weight quality_threshold : float)
    (planar optimal_placement verbose : bool) (w : World) :
  (is_None target_faces = is_None reduction_ratio ->
   exists msg,
     run (Mesh := Mesh) (check_exclusive target_faces reduction_ratio) w
       = (Raises (ValueError msg), {| trace := []; world := w |}) /\
     run (simplify_body lib input_path output_path target_faces
            reduction_ratio texture_weight preserve_boundary boundary_weight
            quality_threshold planar optimal_placement verbose) w
       = (Raises (ValueError msg), {| trace := []; world := w |}) /\
     run (simplify_textured_mesh lib input_path output_path target_faces
            reduction_ratio texture_weight preserve_boundary boundary_weight
            quality_threshold planar optimal_placement verbose) w
       = (Returns PyNone,
          {| trace := if verbose then [Stdout (MsgFailed (ValueError msg))]
                      else [];
             world := w |})) /\
  (is_None target_faces <> is_None reduction_ratio ->
   run (Mesh := Mesh) (check_exclusive target_faces reduction_ratio) w
     = (Returns tt, {| trace := []; world := w |})).
Proof.
  split.
  - intros Hboth.
    assert (Hstep : exists msg,
      run (Mesh := Mesh) (check_exclusive target_faces reduction_ratio) w
        = (Raises (ValueError msg), {| trace := []; world := w |})).
    { destruct target_faces, reduction_ratio; try discriminate;
        eexists; reflexivity. }
    destruct Hstep as (msg & Hstep). exists msg.
    assert (Hbody :
      run (simplify_body lib input_path output_path target_faces
             reduction_ratio texture_weight preserve_boundary boundary_weight
             quality_threshold planar optimal_placement verbose) w
        = (Raises (ValueError msg), {| trace := []; world := w |})).
    { unfold run, simplify_body. apply bind_Raises. exact Hstep. }
    repeat split; trivial.
    unfold run, simplify_textured_mesh.
    erewrite bind_Returns; [reflexivity |].
    erewrite try_except_caught; [| exact Hbody | reflexivity].
    destruct verbose; reflexivity.
  - intros Hone. destruct target_faces, reduction_ratio; try reflexivity;
      exfalso; apply Hone; reflexivity.
Qed.

Lemma C2_target_xor_ratio_witness :
  is_None (@None Z) = is_None (@None float) /\
  exists msg,
    run (simplify_textured_mesh Demo.lib "in.obj" "out.obj" None None
           default_texture_weight true default_boundary_weight
           default_quality_threshold false true true) Demo.disk
      = (Returns PyNone,
         {| trace := [Stdout (MsgFailed (ValueError msg))];
            world := Demo.disk |}).
Proof.
  split; [reflexivity |].
  destruct (proj1 (C2_target_xor_ratio Demo.lib "in.obj" "out.obj" None None
                     default_texture_weight true default_boundary_weight
                     default_quality_threshold false true true Demo.disk)
              eq_refl) as (msg & _ & _ & H).
  exists msg. exact H.
Defined.
(** C3. With a [reduction_ratio] given, the range check raises [ValueError]
    exactly when the ratio lies outside the half-open interval [0, 1)
    (NaN and the infinities included); every ratio with [0 <= r < 1] passes
    it.  The same holds of the three checks of lines 72-83 together when
    the ratio is the only simplification argument: they raise a
    [ValueError] exactly when the ratio is out of range, whether or not the
    input file exists. *)
Theorem C3_ratio_range {World Mesh} (lib : Library World Mesh)
    (input_path : string) (r : float) (w : World) (s : state World Mesh) :
  PyFloat.valid r = true ->
  (check_range (Some r) s
     = (Raises (ValueError "reduction_ratio must be within [0, 1)"), s)
   <-> ~ in_unit_interval r) /\
  (in_unit_interval r -> check_range (Some r) s = (Returns tt, s)) /\
  ((exists msg,
      fst (run (validation lib None (Some r) input_path) w)
        = Raises (ValueError msg))
   <-> ~ in_unit_interval r).
Proof.
  intros Hv. pose proof (FloatFacts.in_range_spec r Hv) as Hspec.
  unfold run, validation, check_exclusive, check_input_exists, check_range,
    bind, call, emit, raise, ret.
  cbn. destruct (in_range r); cbn.
  - assert (Hin : in_unit_interval r) by (apply Hspec; reflexivity).
    split; [split |]; [discriminate | contradiction |].
    split; [reflexivity |].
    split; [| contradiction].
    intros [msg Hm].
    destruct (lib_path_exists lib input_path w); discriminate.
  - assert (Hout : ~ in_unit_interval r).
    { intros Hin. apply Hspec in Hin. discriminate. }
    split; [split; trivial |].
    split; [contradiction |].
    split; [trivial |]. intros _. eexists. reflexivity.
Qed.

Lemma C3_ratio_range_witness :
  PyFloat.valid Demo.half = true /\
  check_range (Some Demo.half) {| trace := []; world := Demo.disk |}
    = (Returns tt, {| trace := @nil (event Demo.mesh); world := Demo.disk |}) /\
  (exists msg,
     fst (run (validation Demo.lib None (Some Demo.two) "in.obj") Demo.disk)
       = Raises (ValueError msg)).
Proof.
  split; [reflexivity |]. split.
  - apply (proj1 (proj2 (C3_ratio_range Demo.lib "in.obj" Demo.half Demo.disk
                           _ eq_refl))).
    eexists. split; [reflexivity |]. split; [discriminate | reflexivity].
  - apply (proj2 (proj2 (C3_ratio_range Demo.lib "in.obj" Demo.two Demo.disk
                           {| trace := []; world := Demo.disk |} eq_refl))).
    intros (q & Hq & _ & Hlt). injection Hq as <-. discriminate.
Defined.

Ltac returns_step H :=
  let a := fresh "a" in
  let s1 := fresh "s" in
  let Hc := fresh "Hc" in
  cbv beta zeta in H;
  apply bind_Returns_inv in H; destruct H as (a & s1 & Hc & H).

(** What [display_mesh] returns, when it returns. *)
Lemma display_mesh_returns {World Mesh} (lib : Library World Mesh)
    (mesh : string + Mesh) (show_bbox : bool) (s s' : state World Mesh) v :
  display_mesh lib mesh show_bbox s = (Returns v, s') -> v = PyNone.
Proof.
  intros H. unfold display_mesh in H. repeat returns_step H.
  apply ret_inv in H as [H _]. congruence.
Qed.

Lemma resize_mesh_returns {World Mesh} (lib : Library World Mesh)
    (args : Namespace) (s s' : state World Mesh) v :
  resize_mesh lib args s = (Returns v, s') -> v = PyNone.
Proof.
  intros H. unfold resize_mesh in H. repeat returns_step H.
  apply ret_inv in H as [H _]. congruence.
Qed.

Lemma dowsample_try_returns {World Mesh} (lib : Library World Mesh)
    (args : Namespace) (s s' : state World Mesh) r :
  dowsample_try lib args s = (Returns r, s') -> r = None.
Proof.
  intros H. unfold dowsample_try in H. repeat returns_step H.
  apply ret_inv in H as [H _]. congruence.
Qed.

(** The two ways [dowsample_mesh] returns once its argument check passed. *)
Lemma dowsample_mesh_completes {World Mesh} (lib : Library World Mesh)
    (p : global_parser) (args : Namespace) (w : World) r
    (st : state World Mesh) :
  truthy_int (target_faces args) || truthy_float (reduction_ratio args) = true ->
  run (dowsample_try lib args) w = (Returns r, st) ->
  run (dowsample_mesh lib p args) w = (Returns (PyInt 0), st).
Proof.
  intros Hguard Htry.
  assert (Hg : negb (truthy_int (target_faces args))
               && negb (truthy_float (reduction_ratio args)) = false).
  { rewrite <- negb_orb, Hguard. reflexivity. }
  pose proof (dowsample_try_returns lib args _ _ _ Htry) as ->.
  unfold run, dowsample_mesh. rewrite Hg.
  rewrite (bind_Returns _ _ _ tt {| trace := []; world := w |})
    by reflexivity.
  rewrite (bind_Returns _ _ _ None st)
    by (apply try_except_Returns; exact Htry).
  reflexivity.
Qed.

Lemma dowsample_mesh_caught {World Mesh} (lib : Library World Mesh)
    (p : global_parser) (args : Namespace) (w : World) e
    (st : state World Mesh) :
  truthy_int (target_faces args) || truthy_float (reduction_ratio args) = true ->
  run (dowsample_try lib args) w = (Raises e, st) ->
  is_Exception e = true ->
  run (dowsample_mesh lib p args) w
    = (Returns (PyInt 1),
       {| trace := trace st ++ [Stdout (MsgError e); Traceback e];
          world := world st |}).
Proof.
  intros Hguard Htry He.
  assert (Hg : negb (truthy_int (target_faces args))
               && negb (truthy_float (reduction_ratio args)) = false).
  { rewrite <- negb_orb, Hguard. reflexivity. }
  unfold run, dowsample_mesh. rewrite Hg.
  rewrite (bind_Returns _ _ _ tt {| trace := []; world := w |})
    by reflexivity.
  assert (Hexc :
    try_except (dowsample_try lib args) dowsample_except
      {| trace := []; world := w |}
    = (Returns (Some (PyInt 1)),
       {| trace := trace st ++ [Stdout (MsgError e); Traceback e];
          world := world st |})).
  { rewrite (try_except_caught _ _ _ _ _ Htry He).
    destruct st as [tr w']. cbn. rewrite <- app_assoc. reflexivity. }
  rewrite (bind_Returns _ _ _ _ _ Hexc). reflexivity.
Qed.

(** ** Exit status *)


(** C6. The downsample path returns 0 when its [try] block completes and 1
    when the block raises an [Exception] (after printing it); the resize
    path has no status: whenever [resize_mesh] returns, it returns
    [None]. *)
Theorem C6_exit_status {World Mesh} (lib : Library World Mesh)
    (p : global_parser) (args : Namespace) (w : World) :
  (truthy_int (target_faces args) || truthy_float (reduction_ratio args) = true ->
   (forall r st,
      run (dowsample_try lib args) w = (Returns r, st) ->
      run (dowsample_mesh lib p args) w = (Returns (PyInt 0), st)) /\
   (forall e st,
      run (dowsample_try lib args) w = (Raises e, st) ->
      is_Exception e = true ->
      run (dowsample_mesh lib p args) w
        = (Returns (PyInt 1),
           {| trace := trace st ++ [Stdout (MsgError e); Traceback e];
              world := world st |}))) /\
  (fst (run (resize_mesh lib args) w) = Returns PyNone \/
   exists e, fst (run (resize_mesh lib args) w) = Raises e).
Proof.
  split.
  - intros Hguard. split.
    + intros r st. apply dowsample_mesh_completes. exact Hguard.
    + intros e st. apply dowsample_mesh_caught. exact Hguard.
  - destruct (run (resize_mesh lib args) w) as [[v | e] st] eqn:Hrun.
    + left. cbn. f_equal. eapply resize_mesh_returns. exact Hrun.
    + right. exists e. reflexivity.
Qed.

Lemma C6_exit_status_witness :
  truthy_int (Some 6) || truthy_float None = true /\
  fst (run (dowsample_mesh Demo.lib parser_of_main
              (Demo.cli "in.obj" "out.obj" true None (Some 6) None))
           Demo.disk)
    = Returns (PyInt 0).
Proof.
  split; [reflexivity |].
  erewrite (proj1 (proj1 (C6_exit_status Demo.lib parser_of_main
                            (Demo.cli "in.obj" "out.obj" true None (Some 6) None)
                            Demo.disk) eq_refl));
    [reflexivity |].
  vm_compute. reflexivity.
Defined.

(** ** The command line *)

(** C10. [dowsample_mesh] tests its two arguments by truthiness: with
    [--target-faces 0] or [--reduction-ratio 0.0] as the only
    simplification argument it stops with the same parser error as when
    neither is given, and nothing else happens, although the validation of
    [simplify_textured_mesh] accepts a ratio of 0.0. *)
Theorem C10_zero_arguments_rejected {World Mesh} (lib : Library World Mesh)
    (i o : string) (d : bool) (sz : option float) (w : World) :
  let rejected :=
    (Raises (SystemExit 2),
     {| trace := [ParserError (Mesh := Mesh)
                    "You must specify either --target-faces or --reduction-ratio"];
        world := w |}) in
  run (dowsample_mesh lib parser_of_main
         {| input := i; output := o; downsample := d; size := sz;
          target_faces := None; reduction_ratio := None |}) w = rejected /\
  run (dowsample_mesh lib parser_of_main
         {| input := i; output := o; downsample := d; size := sz;
          target_faces := Some 0; reduction_ratio := None |}) w = rejected /\
  run (dowsample_mesh lib parser_of_main
         {| input := i; output := o; downsample := d; size := sz;
          target_faces := None; reduction_ratio := Some PyFloat.zero |}) w
    = rejected /\
  run (dowsample_mesh lib parser_of_main
         {| input := i; output := o; downsample := d; size := sz;
          target_faces := None; reduction_ratio := Some PyFloat.neg_zero |}) w
    = rejected /\
  run (Mesh := Mesh) (check_exclusive None (Some PyFloat.zero)) w
    = (Returns tt, {| trace := []; world := w |}) /\
  run (Mesh := Mesh) (check_range (Some PyFloat.zero)) w
    = (Returns tt, {| trace := []; world := w |}) /\
  in_unit_interval PyFloat.zero.
Proof.
  cbv zeta. repeat split; try reflexivity.
  exists 0%Q. split; [reflexivity |]. split; [apply Qle_refl | reflexivity].
Qed.

(** ** Validation comes first *)

Section ValidationFirst.

Context {World Mesh : Type} (lib : Library World Mesh).
Variables (input_path output_path : string).
Variables (target_faces : option Z) (reduction_ratio : option float).
Variables (texture_weight : float) (preserve_boundary : bool).
Variables (boundary_weight quality_threshold : float).
Variables (planar optimal_placement verbose : bool).

(** The body starts with the three checks: when they raise, so does it. *)
Lemma simplify_body_validation_raises (s s' : state World Mesh) (e : exn) :
  validation lib target_faces reduction_ratio input_path s = (Raises e, s') ->
  simplify_body lib input_path output_path target_faces reduction_ratio
    texture_weight preserve_boundary boundary_weight quality_threshold
    planar optimal_placement verbose s = (Raises e, s').
Proof.
  unfold validation, simplify_body. intros H.
  apply bind_inv in H as [(a1 & s1 & H1 & H) | (e1 & H1 & He)].
  - rewrite (bind_Returns _ _ _ _ _ H1).
    apply bind_inv in H as [(a2 & s2 & H2 & H) | (e2 & H2 & He)].
    + rewrite (bind_Returns _ _ _ _ _ H2).
      apply bind_Raises. exact H.
    + injection He as <-. apply bind_Raises. exact H2.
  - injection He as <-. apply bind_Raises. exact H1.
Qed.

(** What a failed validation looks like: an [Exception], an untouched
    world, and at most the [os.path.exists] query in the trace. *)
Lemma validation_raises (w : World) (e : exn) (st : state World Mesh) :
  run (validation lib target_faces reduction_ratio input_path) w
    = (Raises e, st) ->
  is_Exception e = true /\ world st = w /\
  (trace st = [] \/ trace st = [Call (os_path_exists input_path)]).
Proof.
  unfold run, validation, check_exclusive, check_range, check_input_exists,
    bind, call, raise, ret.
  destruct target_faces, reduction_ratio; cbn;
    repeat match goal with
      | |- context [in_range ?r] => destruct (in_range r); cbn
      | |- context [lib_path_exists ?l ?p ?w] =>
          destruct (lib_path_exists l p w); cbn
      end;
    intros H; try discriminate; injection H as <- <-; cbn; auto.
Qed.

End ValidationFirst.

(** C4. The parameter checks and the input-file check come before any call
    into the mesh libraries: a missing input file makes the existence check
    raise [FileNotFoundError] (for a call whose parameters are valid this is
    what the validation raises), and whenever any of the checks fails, the
    call ends with no mesh loaded, no decimation and nothing saved: the
    trace holds no pymeshlab or trimesh call and the world is unchanged. *)
Theorem C4_validation_before_library {World Mesh} (lib : Library World Mesh)
    (input_path output_path : string)
    (target_faces : option Z) (reduction_ratio : option float)
    (texture_weight : float) (preserve_boundary : bool)
    (boundary_weight quality_threshold : float)
    (planar optimal_placement verbose : bool) (w : World) :
  let missing :=
    FileNotFoundError ("Input file " ++ input_path ++ " not found") in
  let body :=
    simplify_body lib input_path output_path target_faces reduction_ratio
      texture_weight preserve_boundary boundary_weight quality_threshold
      planar optimal_placement verbose in
  let whole :=
    simplify_textured_mesh lib input_path output_path target_faces
      reduction_ratio texture_weight preserve_boundary boundary_weight
      quality_threshold planar optimal_placement verbose in
  (lib_path_exists lib input_path w = false ->
   run (check_input_exists lib input_path) w
     = (Raises missing,
        {| trace := [Call (os_path_exists input_path)]; world := w |}) /\
   (is_None target_faces <> is_None reduction_ratio ->
    (forall r, reduction_ratio = Some r -> in_range r = true) ->
    run body w
      = (Raises missing,
         {| trace := [Call (os_path_exists input_path)]; world := w |}))) /\
  (forall e st,
     run (validation lib target_faces reduction_ratio input_path) w
       = (Raises e, st) ->
     run body w = (Raises e, st) /\
     mesh_calls (trace st) = [] /\ world st = w /\
     exists st',
       run whole w = (Returns PyNone, st') /\
       mesh_calls (trace st') = [] /\ decimations (trace st') = [] /\
       world st' = w).
Proof.
  cbv zeta. split.
  - intros Hmissing. split.
    + unfold run, check_input_exists, bind, call. cbn. rewrite Hmissing.
      reflexivity.
    + intros Hone Hrange.
      apply simplify_body_validation_raises.
      unfold validation, check_exclusive, check_range, check_input_exists,
        bind, call, raise, ret.
      destruct target_faces as [n |], reduction_ratio as [r |]; cbn;
        try (exfalso; apply Hone; reflexivity).
      * rewrite Hmissing. reflexivity.
      * rewrite (Hrange r eq_refl). cbn. rewrite Hmissing. reflexivity.
  - intros e st Hval.
    destruct (validation_raises lib _ _ _ _ _ _ Hval) as (He & Hw & Htr).
    pose proof (simplify_body_validation_raises lib input_path output_path
                  target_faces reduction_ratio texture_weight
                  preserve_boundary boundary_weight quality_threshold planar
                  optimal_placement verbose _ _ _ Hval) as Hbody.
    split; [exact Hbody |].
    assert (Hmc : mesh_calls (trace st) = []).
    { destruct Htr as [-> | ->]; reflexivity. }
    assert (Hdc : decimations (trace st) = []).
    { destruct Htr as [-> | ->]; reflexivity. }
    split; [exact Hmc |]. split; [exact Hw |].
    exists {| trace := trace st ++ (if verbose then [Stdout (MsgFailed e)] else []);
              world := world st |}.
    split; [| split; [| split; [| exact Hw]]].
    + unfold run, simplify_textured_mesh.
      erewrite bind_Returns; [reflexivity |].
      rewrite (try_except_caught _ _ _ _ _ Hbody He).
      destruct verbose; cbn; [reflexivity |].
      rewrite app_nil_r. destruct st; reflexivity.
    + cbn [trace]. unfold mesh_calls in *. rewrite filter_app, Hmc.
      destruct verbose; reflexivity.
    + cbn [trace]. unfold decimations in *. rewrite flat_map_app, Hdc.
      destruct verbose; reflexivity.
Qed.

Lemma C4_validation_before_library_witness :
  lib_path_exists Demo.lib "missing.obj" Demo.disk = false /\
  fst (run (simplify_body Demo.lib "missing.obj" "out.obj" (Some 6) None
              default_texture_weight true default_boundary_weight
              default_quality_threshold false true true) Demo.disk)
    = Raises (FileNotFoundError "Input file missing.obj not found").
Proof.
  split; [reflexivity |].
  rewrite (proj2 (proj1 (C4_validation_before_library Demo.lib "missing.obj"
                           "out.obj" (Some 6) None default_texture_weight true
                           default_boundary_weight default_quality_threshold
                           false true true Demo.disk) eq_refl)).
  - reflexivity.
  - discriminate.
  - discriminate.
Defined.

(** ** Exceptions at the top of each operation *)

Lemma try_except_Raises_inv {World Mesh A} (body : M World Mesh A)
    (handler : exn -> M World Mesh A) (s s' : state World Mesh) (e : exn) :
  try_except body handler s = (Raises e, s') ->
  (body s = (Raises e, s') /\ is_Exception e = false) \/
  (exists e0 s0, body s = (Raises e0, s0) /\ is_Exception e0 = true /\
                 handler e0 s0 = (Raises e, s')).
Proof.
  unfold try_except. destruct (body s) as [[a | e0] s0]; [discriminate |].
  destruct (is_Exception e0) eqn:He0; intros H.
  - right. exists e0, s0. auto.
  - left. injection H as <- <-. auto.
Qed.

(** No [Exception] leaves [simplify_textured_mesh]. *)
Lemma simplify_textured_mesh_Raises {World Mesh} (lib : Library World Mesh)
    (input_path output_path : string)
    (target_faces : option Z) (reduction_ratio : option float)
    (texture_weight : float) (preserve_boundary : bool)
    (boundary_weight quality_threshold : float)
    (planar optimal_placement verbose : bool)
    (s s' : state World Mesh) (e : exn) :
  simplify_textured_mesh lib input_path output_path target_faces
    reduction_ratio texture_weight preserve_boundary boundary_weight
    quality_threshold planar optimal_placement verbose s = (Raises e, s') ->
  is_Exception e = false.
Proof.
  unfold simplify_textured_mesh. intros H.
  apply bind_inv in H as [(a & s1 & _ & H) | (e1 & H & He)].
  - discriminate.
  - injection He as <-.
    apply try_except_Raises_inv in H as [[_ He] | (e0 & s0 & _ & _ & H)];
      [exact He |].
    destruct verbose; discriminate.
Qed.

(** What can leave [dowsample_mesh]: no [Exception], save the [NameError]
    of line 161 where [parser] is not bound. *)
Lemma dowsample_mesh_Raises {World Mesh} (lib : Library World Mesh)
    (p : global_parser) (args : Namespace) (s s' : state World Mesh)
    (e : exn) :
  dowsample_mesh lib p args s = (Raises e, s') ->
  is_Exception e = false \/
  (p = parser_unbound /\
   truthy_int (target_faces args) || truthy_float (reduction_ratio args)
     = false /\
   e = NameError "name 'parser' is not defined" /\ s' = s).
Proof.
  unfold dowsample_mesh. intros H.
  apply bind_inv in H as [(a & s1 & _ & H) | (e1 & H & He)].
  - left. apply bind_inv in H as [(r & s2 & _ & H) | (e2 & H & He)].
    + destruct r; discriminate.
    + injection He as <-.
      apply try_except_Raises_inv in H as [[_ He] | (e0 & s0 & _ & _ & H)];
        [exact He | discriminate].
  - injection He as <-. rewrite <- negb_orb in H.
    destruct (truthy_int (target_faces args)
              || truthy_float (reduction_ratio args));
      [discriminate |].
    destruct p; unfold parser_error, bind in H; cbn in H.
    + left. injection H as <- _. reflexivity.
    + right. injection H as <- <-. auto.
Qed.

(** ** What reaches the decimation engine *)

(** The face count computed at lines 96-101 from the caller's arguments and
    the face count [n] of the loaded mesh. *)
Definition requested_target (target_faces : option Z)
    (reduction_ratio : option float) (n : Z) (t : option Z) : Prop :=
  match reduction_ratio with
  | None => t = target_faces
  | Some r =>
      exists x c,
        int_mul_float n (PyFloat.sub PyFloat.one r) = Returns x /\
        py_int x = Returns c /\
        t = Some (Z.max c 4)
  end.

Section Inversion.

Context {World Mesh : Type} (lib : Library World Mesh).

Implicit Types s : state World Mesh.

Lemma check_exclusive_inv tf rr s (r : outcome unit) s' :
  check_exclusive tf rr s = (r, s') -> s' = s.
Proof.
  destruct tf, rr; cbn; intros H; injection H as _ <-; reflexivity.
Qed.

Lemma check_range_inv rr s (r : outcome unit) s' :
  check_range rr s = (r, s') -> s' = s.
Proof.
  unfold check_range. destruct rr as [x |]; [destruct (in_range x) |];
    cbn; intros H; injection H as _ <-; reflexivity.
Qed.

Lemma check_input_exists_inv p s (r : outcome unit) s' :
  check_input_exists lib p s = (r, s') ->
  s' = {| trace := trace s ++ [Call (os_path_exists p)]; world := world s |}.
Proof.
  unfold check_input_exists, bind, call.
  destruct (lib_path_exists lib p (world s)); cbn;
    intros H; injection H as _ <-; reflexivity.
Qed.

Lemma compute_target_inv tf rr n verbose s (r : outcome (option Z)) s' :
  compute_target tf rr n verbose s = (r, s') ->
  world s' = world s /\
  decimations (trace s') = decimations (trace s) /\
  forall t, r = Returns t -> requested_target tf rr n t.
Proof.
  unfold compute_target, requested_target.
  destruct rr as [x |].
  - unfold bind, lift.
    destruct (int_mul_float n (PyFloat.sub PyFloat.one x)) as [y | e] eqn:Hy;
      [| intros H; injection H as <- <-; repeat split; discriminate].
    destruct (py_int y) as [c | e] eqn:Hc;
      [| intros H; injection H as <- <-; repeat split; discriminate].
    destruct verbose; cbn; intros H; injection H as <- <-; cbn.
    + split; [reflexivity |]. split.
      * unfold decimations. rewrite flat_map_app. cbn. apply app_nil_r.
      * intros t Ht. injection Ht as <-. exists y, c.
        repeat split; trivial.
    + split; [reflexivity |]. split; [reflexivity |].
      intros t Ht. injection Ht as <-. exists y, c.
      repeat split; trivial.
  - cbn. intros H; injection H as <- <-. repeat split; trivial.
    intros t Ht. injection Ht as <-. reflexivity.
Qed.

Lemma compute_target_Raises tf rr n verbose s e s' :
  compute_target tf rr n verbose s = (Raises e, s') ->
  exists r,
    rr = Some r /\
    (int_mul_float n (PyFloat.sub PyFloat.one r) = Raises e \/
     exists x, int_mul_float n (PyFloat.sub PyFloat.one r) = Returns x /\
               py_int x = Raises e).
Proof.
  unfold compute_target. destruct rr as [x |]; [| discriminate].
  intros H. exists x. split; [reflexivity |].
  unfold bind, lift in H.
  destruct (int_mul_float n (PyFloat.sub PyFloat.one x)) as [y | e0] eqn:Hy.
  - right. exists y. split; [reflexivity |].
    destruct (py_int y) as [c | e1] eqn:Hc.
    + destruct verbose; discriminate.
    + injection H as <- _. reflexivity.
  - left. injection H as <- _. reflexivity.
Qed.

Lemma decimations_snoc (tr : list (event Mesh)) (ev : event Mesh) :
  decimations (tr ++ [ev])
  = (decimations tr ++ match ev with
                       | Call (ms_decimation a) => [a]
                       | _ => []
                       end)%list.
Proof.
  unfold decimations. rewrite flat_map_app. cbn. rewrite app_nil_r.
  reflexivity.
Qed.

Lemma decimations_when (tr : list (event Mesh)) (b : bool) (m : message) :
  decimations (tr ++ (if b then [Stdout m] else [])) = decimations tr.
Proof.
  unfold decimations. rewrite flat_map_app.
  destruct b; cbn; apply app_nil_r.
Qed.

(** Each kind of step, seen through the world and the decimation calls. *)
Lemma call_step {A} (c : libcall Mesh) (f : World -> outcome A * World)
    s r s' :
  call c f s = (r, s') ->
  f (world s) = (r, world s') /\
  decimations (trace s')
  = (decimations (trace s) ++ match c with
                              | ms_decimation a => [a]
                              | _ => []
                              end)%list.
Proof.
  intros H. apply call_inv in H as (w' & Hf & ->). cbn [world trace].
  split; [exact Hf |]. rewrite decimations_snoc. reflexivity.
Qed.

Lemma when_step (b : bool) (m : message) s r s' :
  when b (print m) s = (r, s') ->
  r = Returns tt /\ world s' = world s /\
  decimations (trace s') = decimations (trace s).
Proof.
  intros H. apply when_inv in H as (-> & ->). cbn [world trace].
  rewrite decimations_when. repeat split.
Qed.

Lemma checks_step tf rr p s (r : outcome unit) s' :
  check_exclusive tf rr s = (r, s') \/
  check_range rr s = (r, s') \/
  check_input_exists lib p s = (r, s') ->
  world s' = world s /\ decimations (trace s') = decimations (trace s).
Proof.
  intros [H | [H | H]].
  - apply check_exclusive_inv in H as ->. split; reflexivity.
  - apply check_range_inv in H as ->. split; reflexivity.
  - apply check_input_exists_inv in H as ->. cbn [world trace].
    rewrite decimations_snoc. rewrite app_nil_r. split; reflexivity.
Qed.

Lemma check_input_exists_Returns p s a s' :
  check_input_exists lib p s = (Returns a, s') ->
  lib_path_exists lib p (world s) = true.
Proof.
  unfold check_input_exists, bind, call.
  destruct (lib_path_exists lib p (world s)); cbn; [reflexivity |].
  discriminate.
Qed.

End Inversion.

Ltac step H Hc a s :=
  cbv beta zeta in H;
  apply bind_inv in H;
  destruct H as [(a & s & Hc & H) | (? & Hc & ->)].

Section Engine.

Context {World Mesh : Type} (lib : Library World Mesh).
Variables (input_path output_path : string).
Variables (target_faces : option Z) (reduction_ratio : option float).
Variables (texture_weight : float) (preserve_boundary : bool).
Variables (boundary_weight quality_threshold : float).
Variables (planar optimal_placement verbose : bool).

(** The keyword arguments of the decimation call for a face count [t]. *)
Definition engine_arguments (t : option Z) : decimation_args :=
  {| targetfacenum := t;
     qualitythr := quality_threshold;
     extratcoordw := texture_weight;
     preserveboundary := preserve_boundary;
     boundaryweight := boundary_weight;
     optimalplacement := optimal_placement;
     planarquadric := planar;
     preservenormal := true |}.

(** Every run of the body either stops before the engine is called, at a
    step that raised, or calls the engine exactly once, on the mesh just
    loaded, with [engine_arguments] of the requested face count. *)
Lemma simplify_body_decimations (w : World) (r : outcome unit)
    (st : state World Mesh) :
  run (simplify_body lib input_path output_path target_faces
         reduction_ratio texture_weight preserve_boundary boundary_weight
         quality_threshold planar optimal_placement verbose) w = (r, st) ->
  (decimations (trace st) = [] /\
   exists e, r = Raises e /\
             stopped_before_engine lib input_path target_faces
               reduction_ratio w e) \/
  (exists w0 w1 w2 n t,
      lib_path_exists lib input_path w = true /\
      lib_MeshSet lib w = (Returns tt, w0) /\
      lib_load_new_mesh lib input_path w0 = (Returns tt, w1) /\
      lib_face_number lib w1 = (Returns n, w2) /\
      requested_target target_faces reduction_ratio n t /\
      decimations (trace st) = [engine_arguments t]).
Proof.
  unfold run, simplify_body. intros H.
  set (s0 := {| trace := []; world := w |}) in H.
  assert (Hw0 : world s0 = w) by reflexivity.
  assert (Hd0 : decimations (trace s0) = []) by reflexivity.
  (* the three checks *)
  step H Hc1 a1 s1.
  2:{ left. destruct (checks_step lib _ _ input_path _ _ _ (or_introl Hc1))
        as [_ ->]. split; [exact Hd0 |]. eexists. split; [reflexivity |].
      apply stopped_by_validation with (st := st).
      unfold run, validation. fold s0. apply bind_Raises. exact Hc1. }
  destruct (checks_step lib _ _ input_path _ _ _ (or_introl Hc1)) as [Hw1 Hd1].
  rewrite Hw0 in Hw1. rewrite Hd0 in Hd1.
  step H Hc2 a2 s2.
  2:{ left. destruct (checks_step lib target_faces _ input_path _ _ _
                        (or_intror (or_introl Hc2))) as [_ ->].
      split; [exact Hd1 |]. eexists. split; [reflexivity |].
      apply stopped_by_validation with (st := st).
      unfold run, validation. fold s0.
      rewrite (bind_Returns _ _ _ _ _ Hc1). apply bind_Raises. exact Hc2. }
  destruct (checks_step lib target_faces _ input_path _ _ _
              (or_intror (or_introl Hc2))) as [Hw2 Hd2].
  rewrite Hw1 in Hw2. rewrite Hd1 in Hd2.
  step H Hc3 a3 s3.
  2:{ left. destruct (checks_step lib target_faces reduction_ratio _ _ _ _
                        (or_intror (or_intror Hc3))) as [_ ->].
      split; [exact Hd2 |]. eexists. split; [reflexivity |].
      apply stopped_by_validation with (st := st).
      unfold run, validation. fold s0.
      rewrite (bind_Returns _ _ _ _ _ Hc1), (bind_Returns _ _ _ _ _ Hc2).
      exact Hc3. }
  destruct (checks_step lib target_faces reduction_ratio _ _ _ _
              (or_intror (or_intror Hc3))) as [Hw3 Hd3].
  apply check_input_exists_Returns in Hc3. rewrite Hw2 in Hc3, Hw3.
  rewrite Hd2 in Hd3. clear Hc1 Hc2. clearbody s0.
  (* MeshSet(), the message, load_new_mesh, face_number *)
  step H Hc4 a4 s4; apply call_step in Hc4 as [Hf4 Hd4];
    rewrite Hd3 in Hd4; rewrite Hw3 in Hf4;
    [| left; split; [exact Hd4 |]; eexists; split; [reflexivity |];
       eapply stopped_by_MeshSet; exact Hf4].
  destruct a4.
  step H Hc5 a5 s5; apply when_step in Hc5 as (E5 & Hw5 & Hd5);
    rewrite Hd4 in Hd5; [| discriminate].
  step H Hc6 a6 s6; apply call_step in Hc6 as [Hf6 Hd6];
    rewrite Hd5 in Hd6; rewrite Hw5 in Hf6;
    [| left; split; [exact Hd6 |]; eexists; split; [reflexivity |];
       eapply stopped_by_load; [exact Hf4 | exact Hf6]].
  destruct a6.
  step H Hc7 n s7; apply call_step in Hc7 as [Hf7 Hd7];
    rewrite Hd6 in Hd7;
    [| left; split; [exact Hd7 |]; eexists; split; [reflexivity |];
       eapply stopped_by_face_number; [exact Hf4 | exact Hf6 | exact Hf7]].
  (* the target and the decimation call *)
  step H Hc8 t s8.
  2:{ left. pose proof Hc8 as Hc8'.
      apply compute_target_inv in Hc8 as (_ & Hd8 & _). rewrite Hd7 in Hd8.
      split; [exact Hd8 |]. eexists. split; [reflexivity |].
      apply compute_target_Raises in Hc8' as (r0 & Hr0 & Hwhy).
      eapply stopped_by_target;
        [exact Hf4 | exact Hf6 | exact Hf7 | exact Hr0 | exact Hwhy]. }
  apply compute_target_inv in Hc8 as (Hw8 & Hd8 & Ht8); rewrite Hd7 in Hd8.
  specialize (Ht8 _ eq_refl).
  step H Hc9 a9 s9; apply when_step in Hc9 as (E9 & Hw9 & Hd9);
    rewrite Hd8 in Hd9; [| discriminate].
  right. exists (world s4), (world s6), (world s7), n, t.
  repeat (split; [assumption |]).
  fold (engine_arguments t) in H.
  step H Hc10 a10 s10; apply call_step in Hc10 as [Hf10 Hd10];
    rewrite Hd9 in Hd10; cbn [app] in Hd10; [| exact Hd10].
  step H Hc11 m s11; apply call_step in Hc11 as [Hf11 Hd11];
    rewrite Hd10 in Hd11; cbn [app] in Hd11; [| exact Hd11].
  step H Hc12 q s12; apply lift_inv in Hc12 as [E12 ->];
    [| exact Hd11].
  step H Hc13 a13 s13; apply when_step in Hc13 as (E13 & Hw13 & Hd13);
    rewrite Hd11 in Hd13; [| exact Hd13].
  step H Hc14 a14 s14; apply call_step in Hc14 as [Hf14 Hd14];
    rewrite Hd13 in Hd14; cbn [app] in Hd14; [| exact Hd14].
  apply when_step in H as (E & Hw & Hd). rewrite Hd. exact Hd14.
Qed.

End Engine.

(** C5. On every successful call the engine is invoked exactly once, and the
    caller's [texture_weight], [boundary_weight], [quality_threshold],
    [preserve_boundary], [optimal_placement] and [planar] arrive unchanged
    as [extratcoordw], [boundaryweight], [qualitythr], [preserveboundary],
    [optimalplacement] and [planarquadric]; a [target_faces] given by the
    caller arrives unchanged as [targetfacenum]. *)
Theorem C5_parameters_forwarded {World Mesh} (lib : Library World Mesh)
    (input_path output_path : string)
    (target_faces : option Z) (reduction_ratio : option float)
    (texture_weight : float) (preserve_boundary : bool)
    (boundary_weight quality_threshold : float)
    (planar optimal_placement verbose : bool)
    (w : World) (st : state World Mesh) :
  run (simplify_body lib input_path output_path target_faces reduction_ratio
         texture_weight preserve_boundary boundary_weight quality_threshold
         planar optimal_placement verbose) w = (Returns tt, st) ->
  run (simplify_textured_mesh lib input_path output_path target_faces
         reduction_ratio texture_weight preserve_boundary boundary_weight
         quality_threshold planar optimal_placement verbose) w
    = (Returns PyNone, st) /\
  exists t,
    decimations (trace st)
    = [ {| targetfacenum := t;
           qualitythr := quality_threshold;
           extratcoordw := texture_weight;
           preserveboundary := preserve_boundary;
           boundaryweight := boundary_weight;
           optimalplacement := optimal_placement;
           planarquadric := planar;
           preservenormal := true |} ] /\
    (forall n, target_faces = Some n -> t = Some n).
Proof.
  intros Hbody. split.
  - unfold run, simplify_textured_mesh.
    erewrite bind_Returns; [reflexivity |].
    apply try_except_Returns. exact Hbody.
  - pose proof Hbody as Hrun.
    apply simplify_body_decimations in Hrun
      as [[_ (e & He & _)] | (w0 & w1 & w2 & n & t & _ & _ & _ & _ & Ht & Hd)];
      [discriminate |].
    exists t. split; [exact Hd |].
    intros k Hk. subst target_faces.
    unfold run, simplify_body in Hbody.
    apply bind_Returns_inv in Hbody as (a & s1 & Hex & _).
    destruct reduction_ratio as [x |]; [discriminate |].
    exact Ht.
Qed.

Lemma C5_parameters_forwarded_witness :
  let body :=
    simplify_body Demo.lib "in.obj" "out.obj" (Some 6) None
      Demo.two false Demo.half default_quality_threshold true false false in
  run body Demo.disk = (Returns tt, snd (run body Demo.disk)) /\
  decimations (trace (snd (run body Demo.disk)))
  = [ {| targetfacenum := Some 6;
         qualitythr := default_quality_threshold;
         extratcoordw := Demo.two;
         preserveboundary := false;
         boundaryweight := Demo.half;
         optimalplacement := false;
         planarquadric := true;
         preservenormal := true |} ].
Proof.
  cbv zeta.
  assert (H : run (simplify_body Demo.lib "in.obj" "out.obj" (Some 6) None
                     Demo.two false Demo.half default_quality_threshold true
                     false false) Demo.disk
              = (Returns tt,
                 snd (run (simplify_body Demo.lib "in.obj" "out.obj" (Some 6)
                             None Demo.two false Demo.half
                             default_quality_threshold true false false)
                          Demo.disk)))
    by (vm_compute; reflexivity).
  split; [exact H |].
  destruct (C5_parameters_forwarded Demo.lib "in.obj" "out.obj" (Some 6) None
              Demo.two false Demo.half default_quality_threshold true false
              false Demo.disk _ H) as (_ & t & Hd & Ht).
  rewrite Hd, (Ht 6 eq_refl). reflexivity.
Defined.

(** ** What [resize_mesh] does to the mesh *)

Section ResizeRun.

Context {World Mesh : Type} (lib : Library World Mesh).

Implicit Types s : state World Mesh.

Lemma mesh_ops_snoc (tr : list (event Mesh)) (ev : event Mesh) :
  mesh_ops (tr ++ [ev]) = (mesh_ops tr ++ mesh_ops [ev])%list.
Proof. unfold mesh_ops. apply flat_map_app. Qed.

Lemma call_ops_step {A} (c : libcall Mesh) (f : World -> outcome A * World)
    s r s' :
  call c f s = (r, s') ->
  f (world s) = (r, world s') /\
  mesh_ops (trace s') = (mesh_ops (trace s) ++ mesh_ops [Call c])%list.
Proof.
  intros H. apply call_inv in H as (w' & Hf & ->). cbn [world trace].
  split; [exact Hf | apply mesh_ops_snoc].
Qed.

Lemma print_ops_step (m : message) s r s' :
  print m s = (r, s') ->
  r = Returns tt /\ world s' = world s /\
  mesh_ops (trace s') = mesh_ops (trace s).
Proof.
  intros H. apply print_inv in H as (-> & ->). cbn [world trace].
  rewrite mesh_ops_snoc. cbn. rewrite app_nil_r. repeat split.
Qed.

(** Showing a mesh neither scales nor exports anything. *)
Lemma display_mesh_ops (m : Mesh) (show_bbox : bool) s r s' :
  display_mesh lib (inr m) show_bbox s = (r, s') ->
  mesh_ops (trace s') = mesh_ops (trace s).
Proof.
  unfold display_mesh. intros H.
  step H Hc0 m0 s0; apply ret_inv in Hc0 as [E0 ->]; [| discriminate].
  step H Hc1 a1 s1; apply call_ops_step in Hc1 as [_ Hd1];
    cbn in Hd1; rewrite app_nil_r in Hd1; [| exact Hd1].
  step H Hc2 a2 s2; apply call_ops_step in Hc2 as [_ Hd2];
    cbn in Hd2; rewrite app_nil_r, Hd1 in Hd2; [| exact Hd2].
  step H Hc3 a3 s3; apply call_ops_step in Hc3 as [_ Hd3];
    cbn in Hd3; rewrite app_nil_r, Hd2 in Hd3; [| exact Hd3].
  step H Hc4 a4 s4; apply call_ops_step in Hc4 as [_ Hd4];
    cbn in Hd4; rewrite app_nil_r, Hd3 in Hd4; [| exact Hd4].
  assert (Hd5 : forall r5 s5,
             when show_bbox
               (bind (call (box_set_face_colors m0)
                        (lib_set_face_colors lib m0))
                  (fun _ => call (scene_add_geometry (GeomBox m0))
                              (lib_add_geometry lib (GeomBox m0)))) s4
             = (r5, s5) ->
             mesh_ops (trace s5) = mesh_ops (trace s)).
  { intros r5 s5 H5. destruct show_bbox; cbn [when] in H5.
    - step H5 Hb1 b1 t1; apply call_ops_step in Hb1 as [_ He1];
        cbn in He1; rewrite app_nil_r, Hd4 in He1; [| exact He1].
      apply call_ops_step in H5 as [_ He2].
      cbn in He2. rewrite app_nil_r, He1 in He2. exact He2.
    - apply ret_inv in H5 as [_ ->]. exact Hd4. }
  step H Hc5 a5 s5; apply Hd5 in Hc5; [| exact Hc5].
  step H Hc6 a6 s6; apply call_ops_step in Hc6 as [_ Hd6];
    cbn in Hd6; rewrite app_nil_r, Hc5 in Hd6; [| exact Hd6].
  apply ret_inv in H as [_ ->]. exact Hd6.
Qed.

(** Every run of [resize_mesh]: nothing is scaled before the mesh and
    its extents are there; the loaded mesh is then scaled once, by
    [resize_scale]; what is exported is what [apply_scale] gave back. *)
Lemma resize_mesh_ops (args : Namespace) (w : World) (r : outcome pyval)
    (st : state World Mesh) :
  run (resize_mesh lib args) w = (r, st) ->
  (mesh_ops (trace st) = [] /\ exists e, r = Raises e) \/
  exists m w1 ext w2,
    lib_trimesh_load lib (input args) w = (Returns m, w1) /\
    lib_extents lib m w1 = (Returns ext, w2) /\
    ((mesh_ops (trace st)
      = [Scaled m (resize_scale (size args) (extents_min ext))] /\
      exists e, r = Raises e) \/
     exists wa m' wb,
       lib_apply_scale lib m (resize_scale (size args) (extents_min ext)) wa
         = (Returns m', wb) /\
       mesh_ops (trace st)
       = [Scaled m (resize_scale (size args) (extents_min ext));
          Exported m' (output args)] /\
       (r = Returns PyNone \/ exists e, r = Raises e)).
Proof.
  unfold run, resize_mesh. intros H.
  set (s0 := {| trace := []; world := w |}) in H.
  assert (Hw0 : world s0 = w) by reflexivity.
  assert (Hd0 : mesh_ops (trace s0) = []) by reflexivity.
  clearbody s0.
  step H Hc1 m s1; apply call_ops_step in Hc1 as [Hf1 Hd1];
    rewrite Hw0 in Hf1; rewrite Hd0 in Hd1; cbn in Hd1;
    [| left; split; [exact Hd1 | eauto]].
  step H Hc2 ext s2; apply call_ops_step in Hc2 as [Hf2 Hd2];
    rewrite Hd1 in Hd2; cbn in Hd2;
    [| left; split; [exact Hd2 | eauto]].
  step H Hc3 a3 s3; apply print_ops_step in Hc3 as (E3 & Hw3 & Hd3);
    rewrite Hd2 in Hd3; [| discriminate].
  step H Hc4 nv s4; apply call_ops_step in Hc4 as [Hf4 Hd4];
    rewrite Hd3 in Hd4; cbn in Hd4;
    [| left; split; [exact Hd4 | eauto]].
  step H Hc5 a5 s5; apply print_ops_step in Hc5 as (E5 & Hw5 & Hd5);
    rewrite Hd4 in Hd5; [| discriminate].
  step H Hc6 nf s6; apply call_ops_step in Hc6 as [Hf6 Hd6];
    rewrite Hd5 in Hd6; cbn in Hd6;
    [| left; split; [exact Hd6 | eauto]].
  step H Hc7 a7 s7; apply print_ops_step in Hc7 as (E7 & Hw7 & Hd7);
    rewrite Hd6 in Hd7; [| discriminate].
  step H Hc8 a8 s8; apply print_ops_step in Hc8 as (E8 & Hw8 & Hd8);
    rewrite Hd7 in Hd8; [| discriminate].
  (* from here on the mesh and its extents are known *)
  right. exists m, (world s1), ext, (world s2).
  split; [exact Hf1 |]. split; [exact Hf2 |].
  step H Hc9 m' s9; apply call_ops_step in Hc9 as [Hf9 Hd9];
    rewrite Hd8 in Hd9; cbn in Hd9;
    [| left; split; [exact Hd9 | eauto]].
  step H Hc10 a10 s10; apply print_ops_step in Hc10 as (E10 & Hw10 & Hd10);
    rewrite Hd9 in Hd10; [| discriminate].
  step H Hc11 nv' s11; apply call_ops_step in Hc11 as [Hf11 Hd11];
    rewrite Hd10 in Hd11; cbn in Hd11;
    [| left; split; [exact Hd11 | eauto]].
  step H Hc12 a12 s12; apply print_ops_step in Hc12 as (E12 & Hw12 & Hd12);
    rewrite Hd11 in Hd12; [| discriminate].
  step H Hc13 nf' s13; apply call_ops_step in Hc13 as [Hf13 Hd13];
    rewrite Hd12 in Hd13; cbn in Hd13;
    [| left; split; [exact Hd13 | eauto]].
  step H Hc14 a14 s14; apply print_ops_step in Hc14 as (E14 & Hw14 & Hd14);
    rewrite Hd13 in Hd14; [| discriminate].
  step H Hc15 ext' s15; apply call_ops_step in Hc15 as [Hf15 Hd15];
    rewrite Hd14 in Hd15; cbn in Hd15;
    [| left; split; [exact Hd15 | eauto]].
  step H Hc16 a16 s16; apply print_ops_step in Hc16 as (E16 & Hw16 & Hd16);
    rewrite Hd15 in Hd16; [| discriminate].
  step H Hc17 a17 s17; apply display_mesh_ops in Hc17;
    rewrite Hd16 in Hc17;
    [| left; split; [exact Hc17 | eauto]].
  right. exists (world s8), m', (world s9). split; [exact Hf9 |].
  step H Hc18 a18 s18; apply call_ops_step in Hc18 as [Hf18 Hd18];
    rewrite Hc17 in Hd18; cbn in Hd18;
    [| split; [exact Hd18 | eauto]].
  apply ret_inv in H as [-> ->]. split; [exact Hd18 | left; reflexivity].
Qed.

End ResizeRun.

(** C9. When [args.size] is absent or is a zero (0.0 or -0.0), the factor
    handed to [apply_scale] is 1.0, not 0: provided scaling the loaded mesh
    by 1.0 gives the mesh back unchanged, the mesh that is exported is the
    mesh that was loaded. *)
Theorem C9_size_zero_keeps_mesh {World Mesh} (lib : Library World Mesh)
    (args : Namespace) (w : World) (r : outcome pyval)
    (st : state World Mesh) :
  size args = None \/ (exists sign, size args = Some (S754_zero sign)) ->
  run (resize_mesh lib args) w = (r, st) ->
  (forall m s, In (Scaled m s) (mesh_ops (trace st)) -> s = PyFloat.one) /\
  (forall m w1,
     lib_trimesh_load lib (input args) w = (Returns m, w1) ->
     (forall wa m' wb,
        lib_apply_scale lib m PyFloat.one wa = (Returns m', wb) -> m' = m) ->
     forall m' p,
       In (Exported m' p) (mesh_ops (trace st)) ->
       m' = m /\ p = output args).
Proof.
  intros Hsize Hrun.
  assert (Hscale : forall x, resize_scale (size args) x = PyFloat.one).
  { intros x. unfold resize_scale.
    destruct Hsize as [-> | [sign ->]]; [reflexivity |].
    destruct sign; reflexivity. }
  apply resize_mesh_ops in Hrun
    as [[Hops (e & He)]
       | (m & w1 & ext & w2 & Hload & Hext &
          [[Hops (e & He)] | (wa & m' & wb & Hscaled & Hops & Hr)])];
    rewrite ?Hscale in *; rewrite Hops; split.
  - intros m s [].
  - intros m w1 _ _ m' p [].
  - intros m0 s [Hin | []]. injection Hin as _ <-. reflexivity.
  - intros m0 w0 _ _ m1 p [Hin | []]. discriminate.
  - intros m0 s [Hin | [Hin | []]]; [| discriminate].
    injection Hin as _ <-. reflexivity.
  - intros m0 w0 Hload0 Hid m1 p [Hin | [Hin | []]]; [discriminate |].
    injection Hin as <- <-.
    rewrite Hload in Hload0. injection Hload0 as <- _.
    split; [| reflexivity].
    apply (Hid _ _ _ Hscaled).
Qed.

Lemma C9_size_zero_keeps_mesh_witness :
  let args := Demo.cli "in.obj" "out.obj" false (Some PyFloat.zero) None None in
  let run0 := run (resize_mesh Demo.lib args) Demo.disk in
  (exists sign, size args = Some (S754_zero sign)) /\
  run0 = (Returns PyNone, snd run0) /\
  lib_trimesh_load Demo.lib "in.obj" Demo.disk = (Returns Demo.box, Demo.disk) /\
  (forall wa m' wb,
     lib_apply_scale Demo.lib Demo.box PyFloat.one wa = (Returns m', wb) ->
     m' = Demo.box) /\
  In (Exported Demo.box "out.obj") (mesh_ops (trace (snd run0))) /\
  (forall m' p,
     In (Exported m' p) (mesh_ops (trace (snd run0))) ->
     m' = Demo.box /\ p = "out.obj").
Proof.
  cbv zeta.
  assert (Hz : exists sign,
             size (Demo.cli "in.obj" "out.obj" false (Some PyFloat.zero)
                     None None) = Some (S754_zero sign))
    by (exists false; reflexivity).
  assert (Hrun : run (resize_mesh Demo.lib
                        (Demo.cli "in.obj" "out.obj" false (Some PyFloat.zero)
                           None None)) Demo.disk
                 = (Returns PyNone,
                    snd (run (resize_mesh Demo.lib
                                (Demo.cli "in.obj" "out.obj" false
                                   (Some PyFloat.zero) None None)) Demo.disk)))
    by (vm_compute; reflexivity).
  assert (Hid : forall wa m' wb,
             lib_apply_scale Demo.lib Demo.box PyFloat.one wa = (Returns m', wb) ->
             m' = Demo.box).
  { intros wa m' wb H. injection H as <- _. vm_compute. reflexivity. }
  split; [exact Hz |]. split; [exact Hrun |]. split; [reflexivity |].
  split; [exact Hid |].
  assert (Hin : In (Exported Demo.box "out.obj")
                  (mesh_ops (trace (snd (run (resize_mesh Demo.lib
                     (Demo.cli "in.obj" "out.obj" false (Some PyFloat.zero)
                        None None)) Demo.disk)))))
    by (vm_compute; auto).
  split; [exact Hin |].
  exact (proj2 (C9_size_zero_keeps_mesh Demo.lib
                  (Demo.cli "in.obj" "out.obj" false (Some PyFloat.zero)
                     None None) Demo.disk _ _ (or_intror Hz) Hrun)
           Demo.box Demo.disk eq_refl Hid).
Defined.

(** ** The face count computed from a reduction ratio *)

(** With a ratio in range and an existing input file, the three checks of
    lines 72-83 pass. *)
Lemma validation_passes {World Mesh} (lib : Library World Mesh)
    (input_path : string) (r : float) (w : World) :
  in_range r = true ->
  lib_path_exists lib input_path w = true ->
  exists st,
    run (validation lib None (Some r) input_path) w = (Returns tt, st).
Proof.
  intros Hr Hp. eexists.
  unfold run, validation, check_exclusive, check_range, check_input_exists,
    bind, call, emit, ret.
  cbn. rewrite Hr. cbn. rewrite Hp. cbn. reflexivity.
Qed.

(** C8. With a [reduction_ratio] [r] in [0, 1) and no [target_faces], every
    face count the engine is asked for is [max (floor (n * (1 - r))) 4],
    where [n] is the face count of the mesh just loaded, the product and
    the difference are the binary64 ones, and [int()] truncates: the count
    is the floor of the exact value of the float product, never its
    rounding, and it is never below 4.  And the engine is asked: when the
    input file exists and the mesh loads with a face count below [2 ^ 63],
    lines 97-98 raise nothing and the run makes exactly one decimation
    call, with that count. *)
Theorem C8_target_from_ratio {World Mesh} (lib : Library World Mesh)
    (input_path output_path : string) (r : float)
    (texture_weight : float) (preserve_boundary : bool)
    (boundary_weight quality_threshold : float)
    (planar optimal_placement verbose : bool)
    (w : World) (res : outcome unit) (st : state World Mesh) :
  PyFloat.valid r = true ->
  in_unit_interval r ->
  (forall w0 w1 n w2,
     lib_MeshSet lib w = (Returns tt, w0) ->
     lib_load_new_mesh lib input_path w0 = (Returns tt, w1) ->
     lib_face_number lib w1 = (Returns n, w2) -> 0 <= n) ->
  run (simplify_body lib input_path output_path None (Some r)
         texture_weight preserve_boundary boundary_weight quality_threshold
         planar optimal_placement verbose) w = (res, st) ->
  (forall a,
     In a (decimations (trace st)) ->
     exists w0 w1 w2 n x q,
       lib_MeshSet lib w = (Returns tt, w0) /\
       lib_load_new_mesh lib input_path w0 = (Returns tt, w1) /\
       lib_face_number lib w1 = (Returns n, w2) /\
       int_mul_float n (PyFloat.sub PyFloat.one r) = Returns x /\
       PyFloat.to_Q x = Some q /\
       py_int x = Returns (Qfloor q) /\
       targetfacenum a = Some (Z.max (Qfloor q) 4) /\
       4 <= Z.max (Qfloor q) 4) /\
  (forall w0 w1 w2 n,
     lib_path_exists lib input_path w = true ->
     lib_MeshSet lib w = (Returns tt, w0) ->
     lib_load_new_mesh lib input_path w0 = (Returns tt, w1) ->
     lib_face_number lib w1 = (Returns n, w2) ->
     n < 2 ^ 63 ->
     exists x q,
       int_mul_float n (PyFloat.sub PyFloat.one r) = Returns x /\
       PyFloat.to_Q x = Some q /\
       map targetfacenum (decimations (trace st))
         = [Some (Z.max (Qfloor q) 4)]).
Proof.
  intros Hv Hin Hfaces Hrun.
  apply (FloatFacts.in_range_spec r Hv) in Hin.
  apply simplify_body_decimations in Hrun
    as [[Hd (e & _ & Hstop)]
       | (w0 & w1 & w2 & n & t & _ & Hms & Hload & Hfn & Ht & Hd)].
  - split; [intros a Ha; rewrite Hd in Ha; destruct Ha |].
    intros v0 v1 v2 n Hp Hms Hload Hfn Hn. exfalso.
    destruct Hstop as [st' Hval | w' H0 | u0 w' H0 H1 | u0 u1 w' H0 H1 H2
                      | u0 u1 u2 m r0 H0 H1 H2 Hr0 Hwhy].
    + destruct (validation_passes lib input_path r w Hin Hp) as [st'' Hok].
      rewrite Hok in Hval. discriminate.
    + rewrite Hms in H0. discriminate.
    + rewrite Hms in H0. injection H0 as <-.
      rewrite Hload in H1. discriminate.
    + rewrite Hms in H0. injection H0 as <-.
      rewrite Hload in H1. injection H1 as <-.
      rewrite Hfn in H2. discriminate.
    + rewrite Hms in H0. injection H0 as <-.
      rewrite Hload in H1. injection H1 as <-.
      rewrite Hfn in H2. injection H2 as <- _.
      injection Hr0 as <-.
      destruct (FloatFacts.calculated_target_exists n r
                  (conj (Hfaces _ _ _ _ Hms Hload Hfn) Hn) Hv Hin)
        as (x & c & Hx & Hc).
      destruct Hwhy as [Hx' | (x' & Hx' & Hc')].
      * rewrite Hx in Hx'. discriminate.
      * rewrite Hx in Hx'. injection Hx' as <-.
        rewrite Hc in Hc'. discriminate.
  - destruct Ht as (x & c & Hx & Hc & ->).
    destruct (FloatFacts.calculated_target_floor n r x c
                (Hfaces _ _ _ _ Hms Hload Hfn) Hv Hin Hx Hc)
      as (q & Hq & -> & _).
    split.
    + intros a Ha. rewrite Hd in Ha. destruct Ha as [<- | []].
      exists w0, w1, w2, n, x, q. repeat split; trivial. lia.
    + intros v0 v1 v2 m _ H0 H1 H2 _.
      rewrite Hms in H0. injection H0 as <-.
      rewrite Hload in H1. injection H1 as <-.
      rewrite Hfn in H2. injection H2 as <- _.
      exists x, q. rewrite Hd. repeat split; trivial.
Qed.

Lemma C8_target_from_ratio_witness :
  let body :=
    simplify_body Demo.lib "in.obj" "out.obj" None (Some Demo.half)
      default_texture_weight true default_boundary_weight
      default_quality_threshold false true true in
  let a :=
    engine_arguments default_texture_weight true default_boundary_weight
      default_quality_threshold false true (Some 6) in
  PyFloat.valid Demo.half = true /\
  in_unit_interval Demo.half /\
  In a (decimations (trace (snd (run body Demo.disk)))) /\
  (exists q, Some (Z.max (Qfloor q) 4) = Some 6) /\
  (exists q,
     map targetfacenum (decimations (trace (snd (run body Demo.disk))))
       = [Some (Z.max (Qfloor q) 4)]).
Proof.
  cbv zeta.
  assert (Hin : in_unit_interval Demo.half).
  { eexists. split; [reflexivity |]. split; [discriminate | reflexivity]. }
  assert (Hfaces : forall w0 w1 n w2,
             lib_MeshSet Demo.lib Demo.disk = (Returns tt, w0) ->
             lib_load_new_mesh Demo.lib "in.obj" w0 = (Returns tt, w1) ->
             lib_face_number Demo.lib w1 = (Returns n, w2) -> 0 <= n).
  { intros w0 w1 n w2 H0 H1 H2.
    injection H0 as <-. injection H1 as <-. injection H2 as <- _.
    discriminate. }
  assert (Ha : In (engine_arguments default_texture_weight true
                     default_boundary_weight default_quality_threshold false
                     true (Some 6))
                 (decimations (trace (snd (run
                    (simplify_body Demo.lib "in.obj" "out.obj" None
                       (Some Demo.half) default_texture_weight true
                       default_boundary_weight default_quality_threshold false
                       true true) Demo.disk)))))
    by (vm_compute; auto).
  split; [reflexivity |]. split; [exact Hin |]. split; [exact Ha |].
  destruct (C8_target_from_ratio Demo.lib "in.obj" "out.obj" Demo.half
              default_texture_weight true default_boundary_weight
              default_quality_threshold false true true Demo.disk _ _
              eq_refl Hin Hfaces (surjective_pairing _))
    as [Hsafe Hlive].
  split.
  - destruct (Hsafe _ Ha)
      as (w0 & w1 & w2 & n & x & q & _ & _ & _ & _ & _ & _ & Ht & _).
    exists q. rewrite <- Ht. reflexivity.
  - destruct (Hlive (snd (lib_MeshSet Demo.lib Demo.disk))
                (snd (lib_load_new_mesh Demo.lib "in.obj"
                        (snd (lib_MeshSet Demo.lib Demo.disk))))
                (snd (lib_face_number Demo.lib
                        (snd (lib_load_new_mesh Demo.lib "in.obj"
                                (snd (lib_MeshSet Demo.lib Demo.disk))))))
                12 eq_refl eq_refl eq_refl eq_refl eq_refl)
      as (x & q & _ & _ & Hm).
    exists q. exact Hm.
Defined.

(** * Further properties of the script *)

(** ** What a computation may write to the trace *)

Section Emits.

Context {World Mesh : Type}.

Implicit Types P : event Mesh -> Prop.

(** Every event a computation appends to the trace satisfies [P], and it
    only appends. *)
Definition emits P {A} (c : M World Mesh A) : Prop :=
  forall s, exists tr,
    trace (snd (c s)) = (trace s ++ tr)%list /\ Forall P tr.

Lemma emits_ret P {A} (a : A) : emits P (ret (World := World) a).
Proof. intros s. exists []. cbn. rewrite app_nil_r. auto. Qed.

Lemma emits_raise P {A} (e : exn) : emits P (raise (World := World) (A := A) e).
Proof. intros s. exists []. cbn. rewrite app_nil_r. auto. Qed.

Lemma emits_lift P {A} (o : outcome A) : emits P (lift (World := World) o).
Proof. intros s. exists []. cbn. rewrite app_nil_r. auto. Qed.

Lemma emits_emit P (ev : event Mesh) :
  P ev -> emits P (emit (World := World) ev).
Proof. intros H s. exists [ev]. cbn. auto. Qed.

Lemma emits_print P (m : message) :
  P (Stdout m) -> emits P (print (World := World) m).
Proof. apply emits_emit. Qed.

Lemma emits_call P {A} (c : libcall Mesh) (f : World -> outcome A * World) :
  P (Call c) -> emits P (call c f).
Proof.
  intros H s. exists [Call c]. unfold call.
  destruct (f (world s)) as [r w']. cbn. auto.
Qed.

Lemma emits_bind P {A B} (c : M World Mesh A) (k : A -> M World Mesh B) :
  emits P c -> (forall a, emits P (k a)) -> emits P (bind c k).
Proof.
  intros Hc Hk s. unfold bind.
  destruct (Hc s) as (tr1 & E1 & F1).
  destruct (c s) as [[a | e] s1]; cbn [snd] in *.
  - destruct (Hk a s1) as (tr2 & E2 & F2).
    exists (tr1 ++ tr2)%list. rewrite E2, E1, app_assoc.
    split; [reflexivity |]. apply Forall_app. auto.
  - exists tr1. auto.
Qed.

Lemma emits_when P (b : bool) (c : M World Mesh unit) :
  (b = true -> emits P c) -> emits P (when b c).
Proof.
  destruct b; cbn [when]; intros H; [auto | apply emits_ret].
Qed.

Lemma emits_try_except P {A} (body : M World Mesh A)
    (handler : exn -> M World Mesh A) :
  emits P body -> (forall e, emits P (handler e)) ->
  emits P (try_except body handler).
Proof.
  intros Hb Hh s. unfold try_except.
  destruct (Hb s) as (tr1 & E1 & F1).
  destruct (body s) as [[a | e] s1]; cbn [snd] in *.
  - exists tr1. auto.
  - destruct (is_Exception e); [| exists tr1; auto].
    destruct (Hh e s1) as (tr2 & E2 & F2).
    exists (tr1 ++ tr2)%list. rewrite E2, E1, app_assoc.
    split; [reflexivity |]. apply Forall_app. auto.
Qed.

Lemma emits_run P {A} (c : M World Mesh A) (w : World) :
  emits P c -> Forall P (trace (snd (run c w))).
Proof.
  intros H. destruct (H {| trace := []; world := w |}) as (tr & E & F).
  unfold run. rewrite E. exact F.
Qed.

End Emits.

(** Breaks a script into its primitive steps, leaving what [P] must hold
    of. *)
Ltac emits_steps :=
  repeat first
    [ apply emits_ret | apply emits_raise | apply emits_lift
    | apply emits_print | apply emits_emit | apply emits_call
    | apply emits_bind; [| intros ?]
    | apply emits_when; intros ?
    | apply emits_try_except; [| intros ?] ].

Section EmitsScript.

Context {World Mesh : Type} (lib : Library World Mesh).

Implicit Types P : event Mesh -> Prop.

(** The events of the three operations, by kind. *)
Definition is_print (ev : event Mesh) : Prop :=
  match ev with Stdout _ => True | _ => False end.

Definition is_validation_call (ev : event Mesh) : Prop :=
  match ev with Call (os_path_exists _) => True | _ => False end.

Definition is_pymeshlab_call (ev : event Mesh) : Prop :=
  match ev with
  | Call ml_MeshSet | Call (ms_load_new_mesh _)
  | Call ms_current_mesh_face_number
  | Call (ms_decimation _) | Call (ms_save_current_mesh _ _) => True
  | _ => False
  end.

(** The pymeshlab calls a simplification with these arguments can make:
    it loads [input_path], saves to [output_path] with textures, and hands
    the engine the six tuning values it was given. *)
Definition is_simplify_call (input_path output_path : string)
    (texture_weight : float) (preserve_boundary : bool)
    (boundary_weight quality_threshold : float)
    (planar optimal_placement : bool) (ev : event Mesh) : Prop :=
  match ev with
  | Call ml_MeshSet | Call ms_current_mesh_face_number => True
  | Call (ms_load_new_mesh p) => p = input_path
  | Call (ms_decimation a) =>
      qualitythr a = quality_threshold /\
      extratcoordw a = texture_weight /\
      preserveboundary a = preserve_boundary /\
      boundaryweight a = boundary_weight /\
      optimalplacement a = optimal_placement /\
      planarquadric a = planar /\
      preservenormal a = true
  | Call (ms_save_current_mesh p textures) =>
      p = output_path /\ textures = true
  | _ => False
  end.

Definition is_viewer_call (ev : event Mesh) : Prop :=
  match ev with
  | Call (trimesh_load _) | Call trimesh_Scene | Call trimesh_creation_axis
  | Call (box_set_face_colors _) | Call (scene_add_geometry _)
  | Call scene_show => True
  | _ => False
  end.

Definition is_measure_call (ev : event Mesh) : Prop :=
  match ev with
  | Call (mesh_bounding_box_extents _) | Call (mesh_len_vertices _)
  | Call (mesh_len_faces _) => True
  | _ => False
  end.

Definition is_mesh_op (ev : event Mesh) : Prop :=
  match ev with
  | Call (mesh_apply_scale _ _) | Call (mesh_export _ _) => True
  | _ => False
  end.

Lemma simplify_body_emits P input_path output_path target_faces
    reduction_ratio texture_weight preserve_boundary boundary_weight
    quality_threshold planar optimal_placement verbose :
  (forall ev, is_validation_call ev \/
              is_simplify_call input_path output_path texture_weight
                preserve_boundary boundary_weight quality_threshold planar
                optimal_placement ev \/
              (verbose = true /\ is_print ev) -> P ev) ->
  emits P (simplify_body lib input_path output_path target_faces
             reduction_ratio texture_weight preserve_boundary boundary_weight
             quality_threshold planar optimal_placement verbose).
Proof.
  intros HP. unfold simplify_body, check_exclusive, check_range,
    check_input_exists, compute_target.
  destruct target_faces, reduction_ratio; cbn [is_None andb negb];
    repeat match goal with
      | |- context [if negb ?b then _ else _] => destruct b; cbn [negb]
      end;
    cbv zeta; emits_steps;
    repeat match goal with
      | |- emits _ (if ?b then _ else _) => destruct b; emits_steps
      end;
    apply HP; cbn; tauto.
Qed.

Lemma simplify_textured_mesh_emits P input_path output_path target_faces
    reduction_ratio texture_weight preserve_boundary boundary_weight
    quality_threshold planar optimal_placement verbose :
  (forall ev, is_validation_call ev \/
              is_simplify_call input_path output_path texture_weight
                preserve_boundary boundary_weight quality_threshold planar
                optimal_placement ev \/
              (verbose = true /\ is_print ev) -> P ev) ->
  emits P (simplify_textured_mesh lib input_path output_path target_faces
             reduction_ratio texture_weight preserve_boundary boundary_weight
             quality_threshold planar optimal_placement verbose).
Proof.
  intros HP. unfold simplify_textured_mesh.
  apply emits_bind; [| intros ?; apply emits_ret].
  apply emits_try_except; [apply simplify_body_emits; exact HP |].
  intros e. apply emits_when. intros ->. apply emits_print.
  apply HP. cbn. auto.
Qed.

Lemma display_mesh_emits P (mesh : string + Mesh) (show_bbox : bool) :
  (forall ev, is_viewer_call ev -> P ev) ->
  emits P (display_mesh lib mesh show_bbox).
Proof.
  intros HP. unfold display_mesh. destruct mesh; emits_steps;
    apply HP; exact I.
Qed.

Lemma dowsample_mesh_emits P (p : global_parser) (args : Namespace) :
  (forall ev, is_validation_call ev \/
              is_simplify_call (input args) (output args)
                default_texture_weight true default_boundary_weight
                default_quality_threshold false true ev \/
              is_viewer_call ev \/ is_print ev \/
              (exists msg, ev = ParserError msg) \/
              (exists e, ev = Traceback e) -> P ev) ->
  emits P (dowsample_mesh lib p args).
Proof.
  intros HP. unfold dowsample_mesh.
  apply emits_bind; [| intros _; apply emits_bind].
  - destruct (_ && _); [| apply emits_ret].
    unfold parser_error. destruct p; emits_steps. apply HP. eauto 10.
  - apply emits_try_except.
    + unfold dowsample_try.
      apply emits_bind; [| intros _; apply emits_bind;
                           [| intros _; apply emits_ret]].
      * apply simplify_textured_mesh_emits. intros ev H. apply HP.
        cbn in H. tauto.
      * apply display_mesh_emits. intros ev H. apply HP. tauto.
    + intros e. unfold dowsample_except. emits_steps; apply HP; cbn; eauto 10.
  - intros [v |]; apply emits_ret.
Qed.

Lemma resize_mesh_emits P (args : Namespace) :
  (forall ev, is_viewer_call ev \/ is_measure_call ev \/ is_mesh_op ev \/
              is_print ev -> P ev) ->
  emits P (resize_mesh lib args).
Proof.
  intros HP. unfold resize_mesh. cbv zeta.
  repeat first
    [ apply emits_ret
    | apply emits_print; apply HP; cbn; tauto
    | apply emits_call; apply HP; cbn; tauto
    | apply display_mesh_emits; intros ev H; apply HP; tauto
    | apply emits_bind; [| intros ?] ].
Qed.

End EmitsScript.

Lemma is_simplify_call_pymeshlab {Mesh} ip op tw pb bw qt pl opl
    (ev : event Mesh) :
  is_simplify_call ip op tw pb bw qt pl opl ev -> is_pymeshlab_call ev.
Proof. destruct ev as [| | | []]; cbn; tauto. Qed.

(** Reading the projections off a trace that avoids a kind of event. *)
Lemma printed_none {Mesh} (tr : list (event Mesh)) :
  Forall (fun ev => ~ is_print ev) tr -> printed tr = [].
Proof.
  unfold printed. induction 1 as [| ev tr H _ IH]; [reflexivity |].
  cbn [flat_map]. rewrite IH. destruct ev; cbn in *; tauto.
Qed.

Lemma mesh_ops_none {Mesh} (tr : list (event Mesh)) :
  Forall (fun ev => ~ is_mesh_op ev) tr -> mesh_ops tr = [].
Proof.
  unfold mesh_ops. induction 1 as [| ev tr H _ IH]; [reflexivity |].
  cbn [flat_map]. rewrite IH. destruct ev as [| | | []]; cbn in *; tauto.
Qed.

Lemma decimations_none {Mesh} (tr : list (event Mesh)) :
  Forall (fun ev => ~ is_pymeshlab_call ev) tr -> decimations tr = [].
Proof.
  unfold decimations. induction 1 as [| ev tr H _ IH]; [reflexivity |].
  cbn [flat_map]. rewrite IH. destruct ev as [| | | []]; cbn in *; tauto.
Qed.

(** ** What the operations never do *)

(** X1. With [verbose=False], [simplify_textured_mesh] writes nothing to
    stdout, whatever its arguments and whatever the libraries do: success,
    rejected arguments and library failures are equally silent. *)
Theorem quiet_simplify_prints_nothing {World Mesh} (lib : Library World Mesh)
    (input_path output_path : string)
    (target_faces : option Z) (reduction_ratio : option float)
    (texture_weight : float) (preserve_boundary : bool)
    (boundary_weight quality_threshold : float)
    (planar optimal_placement : bool) (w : World) :
  printed
    (trace (snd (run (simplify_textured_mesh lib input_path output_path
                        target_faces reduction_ratio texture_weight
                        preserve_boundary boundary_weight quality_threshold
                        planar optimal_placement false) w))) = [].
Proof.
  apply printed_none, emits_run, simplify_textured_mesh_emits.
  intros ev [H | [H | [H _]]]; [| | discriminate];
    destruct ev as [| | | []]; cbn in *; tauto.
Qed.

(** Decimation arguments read off the events of a trace. *)
Lemma decimations_Forall {Mesh} (Q : decimation_args -> Prop)
    (tr : list (event Mesh)) :
  Forall (fun ev => match ev with
                    | Call (ms_decimation a) => Q a
                    | _ => True
                    end) tr ->
  Forall Q (decimations tr).
Proof.
  unfold decimations. induction 1 as [| ev tr H _ IH]; [constructor |].
  cbn [flat_map]. destruct ev as [| | | []]; cbn [app]; auto.
Qed.

(** X2. The command line offers no way to tune the engine: whatever the parsed
    arguments, every decimation a run of the script performs uses the
    defaults of [simplify_textured_mesh] (quality threshold 0.3, texture
    weight 1.5, boundary weight 1.0, boundaries preserved, optimal
    placement on, planar quadric off) and [preservenormal=True]. *)
Theorem cli_decimation_uses_defaults {World Mesh} (lib : Library World Mesh)
    (args : Namespace) (w : World) :
  Forall (fun a =>
            qualitythr a = default_quality_threshold /\
            extratcoordw a = default_texture_weight /\
            preserveboundary a = true /\
            boundaryweight a = default_boundary_weight /\
            optimalplacement a = true /\
            planarquadric a = false /\
            preservenormal a = true)
    (decimations (trace (snd (run (main lib args) w)))).
Proof.
  apply decimations_Forall, emits_run. unfold main.
  destruct (downsample args).
  - apply dowsample_mesh_emits.
    intros ev [H | [H | [H | [H | [[msg ->] | [e ->]]]]]]; try exact I;
      destruct ev as [| | | []]; cbn in *; tauto.
  - apply resize_mesh_emits.
    intros ev [H | [H | [H | H]]];
      destruct ev as [| | | []]; cbn in *; tauto.
Qed.

(** X3. The two modes of the script are disjoint.  With [--downsample] the run
    consists of the [os.path.exists] query, pymeshlab calls on [--input]
    and [--output], viewer calls, prints, the parser error and the
    traceback: it never scales or exports a trimesh mesh, and [--size] is
    not read.  Without it the run consists of trimesh calls and prints
    only: no pymeshlab call, no file-existence check, no parser error, and
    [--target-faces] and [--reduction-ratio] are not read. *)
Theorem main_modes_are_disjoint {World Mesh} (lib : Library World Mesh)
    (i o : string) (sz : option float) (tf : option Z) (rr : option float)
    (w : World) :
  let down d s :=
    {| input := i; output := o; downsample := d; size := s;
       target_faces := tf; reduction_ratio := rr |} in
  let resize t r :=
    {| input := i; output := o; downsample := false; size := sz;
       target_faces := t; reduction_ratio := r |} in
  (* --downsample *)
  Forall (fun ev => is_validation_call ev \/ is_pymeshlab_call ev \/
                    is_viewer_call ev \/ is_print ev \/
                    (exists msg, ev = ParserError msg) \/
                    (exists e, ev = Traceback e))
    (trace (snd (run (main lib (down true sz)) w))) /\
  mesh_ops (trace (snd (run (main lib (down true sz)) w))) = [] /\
  run (main lib (down true sz)) w = run (main lib (down true None)) w /\
  (* resize *)
  Forall (fun ev => is_viewer_call ev \/ is_measure_call ev \/
                    is_mesh_op ev \/ is_print ev)
    (trace (snd (run (main lib (resize tf rr)) w))) /\
  decimations (trace (snd (run (main lib (resize tf rr)) w))) = [] /\
  run (main lib (resize tf rr)) w = run (main lib (resize None None)) w.
Proof.
  cbv zeta. unfold main. cbn [downsample]. repeat split.
  - apply emits_run, dowsample_mesh_emits.
    intros ev H. pose proof (is_simplify_call_pymeshlab (Mesh := Mesh)) as Hs.
    intuition eauto.
  - apply mesh_ops_none, emits_run, dowsample_mesh_emits.
    intros ev [H | [H | [H | [H | [[msg ->] | [e ->]]]]]]; try (intros []);
      destruct ev as [| | | []]; cbn in *; tauto.
  - apply emits_run, resize_mesh_emits. tauto.
  - apply decimations_none, emits_run, resize_mesh_emits.
    intros ev [H | [H | [H | H]]];
      destruct ev as [| | | []]; cbn in *; tauto.
Qed.

(** ** The exit status of the downsample path *)

(** How a run of [dowsample_mesh] ends once [simplify_textured_mesh] has
    returned in state [s1]: as [display_mesh] on [args.output] does. *)
Definition downsample_after_simplify {World Mesh} (lib : Library World Mesh)
    (args : Namespace) (s1 : state World Mesh)
    : outcome pyval * state World Mesh :=
  match display_mesh lib (inl (output args)) true s1 with
  | (Returns _, s2) => (Returns (PyInt 0), s2)
  | (Raises e, s2) =>
      if is_Exception e
      then (Returns (PyInt 1),
            {| trace := (trace s2 ++ [Stdout (MsgError e); Traceback e])%list;
               world := world s2 |})
      else (Raises e, s2)
  end.

Lemma dowsample_mesh_after_simplify {World Mesh} (lib : Library World Mesh)
    (p : global_parser) (args : Namespace) (w : World) (v : pyval)
    (s1 : state World Mesh) :
  truthy_int (target_faces args) || truthy_float (reduction_ratio args) = true ->
  run (simplify_textured_mesh lib (input args) (output args)
         (target_faces args) (reduction_ratio args)
         default_texture_weight true default_boundary_weight
         default_quality_threshold false true true) w = (Returns v, s1) ->
  run (dowsample_mesh lib p args) w = downsample_after_simplify lib args s1.
Proof.
  intros Hguard Hs.
  assert (Hg : negb (truthy_int (target_faces args))
               && negb (truthy_float (reduction_ratio args)) = false).
  { rewrite <- negb_orb, Hguard. reflexivity. }
  unfold run, dowsample_mesh, downsample_after_simplify. rewrite Hg.
  rewrite (bind_Returns _ _ _ tt {| trace := []; world := w |})
    by reflexivity.
  unfold bind at 1, try_except, dowsample_try.
  rewrite (bind_Returns _ _ _ _ _ Hs).
  unfold bind at 1.
  destruct (display_mesh lib (inl (output args)) true s1) as [[v2 | e] s2].
  - reflexivity.
  - destruct (is_Exception e); [| reflexivity].
    cbn. rewrite <- app_assoc. reflexivity.
Qed.

(** X4. The status of the downsample path is decided by the viewer alone.
    [simplify_textured_mesh] swallows its own failures, so once it has
    returned, [dowsample_mesh] goes on to [display_mesh(args.output)] and
    returns 0 if that returns, 1 (after printing the error and the
    traceback) if it raises an [Exception], whether or not anything was
    simplified. *)
Theorem downsample_status_is_the_viewers {World Mesh}
    (lib : Library World Mesh) (p : global_parser) (args : Namespace)
    (w : World) (v : pyval)
    (s1 : state World Mesh) :
  truthy_int (target_faces args) || truthy_float (reduction_ratio args) = true ->
  run (simplify_textured_mesh lib (input args) (output args)
         (target_faces args) (reduction_ratio args)
         default_texture_weight true default_boundary_weight
         default_quality_threshold false true true) w = (Returns v, s1) ->
  (forall v2 s2,
     display_mesh lib (inl (output args)) true s1 = (Returns v2, s2) ->
     run (dowsample_mesh lib p args) w = (Returns (PyInt 0), s2)) /\
  (forall e s2,
     display_mesh lib (inl (output args)) true s1 = (Raises e, s2) ->
     is_Exception e = true ->
     run (dowsample_mesh lib p args) w
       = (Returns (PyInt 1),
          {| trace := (trace s2 ++ [Stdout (MsgError e); Traceback e])%list;
             world := world s2 |})) /\
  (forall st,
     run (dowsample_mesh lib p args) w = (Returns (PyInt 0), st) ->
     exists v2,
       display_mesh lib (inl (output args)) true s1 = (Returns v2, st)) /\
  (forall st,
     run (dowsample_mesh lib p args) w = (Returns (PyInt 1), st) ->
     exists e s2,
       display_mesh lib (inl (output args)) true s1 = (Raises e, s2) /\
       is_Exception e = true).
Proof.
  intros Hguard Hs.
  rewrite (dowsample_mesh_after_simplify lib p args w v s1 Hguard Hs).
  unfold downsample_after_simplify.
  destruct (display_mesh lib (inl (output args)) true s1) as [[v2 | e] s2].
  - repeat split; intros; try discriminate.
    + congruence.
    + exists v2. congruence.
  - repeat split.
    + intros; discriminate.
    + intros e' s2' H He. injection H as <- <-. rewrite He. reflexivity.
    + intros st H. destruct (is_Exception e); discriminate.
    + intros st H. exists e, s2. split; [reflexivity |].
      destruct (is_Exception e); [reflexivity | discriminate].
Qed.

(** A disk that holds an older result but not the input. *)
Definition stale_disk : Demo.world :=
  {| Demo.files := [("out.obj", Demo.box)]; Demo.current := None |}.

Lemma downsample_status_is_the_viewers_witness :
  let args := Demo.cli "missing.obj" "out.obj" true None (Some 6) None in
  truthy_int (target_faces args) || truthy_float (reduction_ratio args) = true /\
  decimations
    (trace (snd (run (dowsample_mesh Demo.lib parser_of_main args)
                   stale_disk))) = [] /\
  fst (run (dowsample_mesh Demo.lib parser_of_main args) stale_disk)
  = Returns (PyInt 0).
Proof.
  cbv zeta. split; [reflexivity |]. split; [reflexivity |].
  erewrite (proj1 (downsample_status_is_the_viewers Demo.lib parser_of_main
                     (Demo.cli "missing.obj" "out.obj" true None (Some 6) None)
                     stale_disk PyNone _ eq_refl eq_refl));
    [reflexivity |].
  vm_compute. reflexivity.
Defined.

(** X5. A call whose arguments pass the command-line check but fail the
    validation of [simplify_textured_mesh] (both values given, a ratio out
    of range, a missing input file) is not stopped: the failure is printed,
    the world is untouched, and the run goes on to open [args.output] in
    the viewer, whose outcome alone decides the status. *)
Theorem failed_validation_still_opens_viewer {World Mesh}
    (lib : Library World Mesh) (p : global_parser) (args : Namespace)
    (w : World) (e : exn)
    (st : state World Mesh) :
  truthy_int (target_faces args) || truthy_float (reduction_ratio args) = true ->
  run (validation lib (target_faces args) (reduction_ratio args) (input args)) w
    = (Raises e, st) ->
  run (dowsample_mesh lib p args) w
    = downsample_after_simplify lib args
        {| trace := (trace st ++ [Stdout (MsgFailed e)])%list; world := w |}.
Proof.
  intros Hguard Hval.
  destruct (validation_raises lib _ _ _ _ _ _ Hval) as (He & Hw & _).
  apply (dowsample_mesh_after_simplify lib p args w PyNone); [exact Hguard |].
  unfold run, simplify_textured_mesh.
  erewrite bind_Returns; [reflexivity |].
  erewrite try_except_caught;
    [| apply simplify_body_validation_raises; exact Hval | exact He].
  destruct st as [tr w']. cbn in Hw. subst w'. reflexivity.
Qed.

Lemma failed_validation_still_opens_viewer_witness :
  let args :=
    Demo.cli "in.obj" "out.obj" true None (Some 6) (Some Demo.half) in
  let e := ValueError "target_faces and reduction_ratio are mutually exclusive" in
  truthy_int (target_faces args) || truthy_float (reduction_ratio args) = true /\
  run (dowsample_mesh Demo.lib parser_of_main args) Demo.disk
    = (Returns (PyInt 1),
       {| trace := [Stdout (MsgFailed e);
                    Call (trimesh_load "out.obj");
                    Stdout (MsgError (LibraryError "cannot load file"));
                    Traceback (LibraryError "cannot load file")];
          world := Demo.disk |}).
Proof.
  cbv zeta. split; [reflexivity |].
  rewrite (failed_validation_still_opens_viewer Demo.lib parser_of_main
             (Demo.cli "in.obj" "out.obj" true None (Some 6) (Some Demo.half))
             Demo.disk
             (ValueError "target_faces and reduction_ratio are mutually exclusive")
             {| trace := []; world := Demo.disk |} eq_refl eq_refl).
  reflexivity.
Defined.

(** ** Exceptions that are not [Exception]s *)

(** X6. The handlers are [except Exception]: a [KeyboardInterrupt] or a
    [SystemExit] raised while the body of [simplify_textured_mesh] runs
    (Ctrl-C during a long decimation, say) is caught by neither handler.
    It leaves [simplify_textured_mesh], and [dowsample_mesh] around it,
    with nothing printed for it, no status returned and the viewer never
    opened. *)
Theorem interrupts_are_not_caught {World Mesh} (lib : Library World Mesh)
    (w : World) (e : exn) (st : state World Mesh) :
  is_Exception e = false ->
  (forall input_path output_path target_faces reduction_ratio texture_weight
          preserve_boundary boundary_weight quality_threshold planar
          optimal_placement verbose,
     run (simplify_body lib input_path output_path target_faces
            reduction_ratio texture_weight preserve_boundary boundary_weight
            quality_threshold planar optimal_placement verbose) w
       = (Raises e, st) ->
     run (simplify_textured_mesh lib input_path output_path target_faces
            reduction_ratio texture_weight preserve_boundary boundary_weight
            quality_threshold planar optimal_placement verbose) w
       = (Raises e, st)) /\
  (forall p args,
     truthy_int (target_faces args)
       || truthy_float (reduction_ratio args) = true ->
     run (simplify_body lib (input args) (output args) (target_faces args)
            (reduction_ratio args) default_texture_weight true
            default_boundary_weight default_quality_threshold false true
            true) w = (Raises e, st) ->
     run (dowsample_mesh lib p args) w = (Raises e, st)).
Proof.
  intros He.
  assert (Hwhole : forall input_path output_path target_faces reduction_ratio
            texture_weight preserve_boundary boundary_weight quality_threshold
            planar optimal_placement verbose,
     run (simplify_body lib input_path output_path target_faces
            reduction_ratio texture_weight preserve_boundary boundary_weight
            quality_threshold planar optimal_placement verbose) w
       = (Raises e, st) ->
     run (simplify_textured_mesh lib input_path output_path target_faces
            reduction_ratio texture_weight preserve_boundary boundary_weight
            quality_threshold planar optimal_placement verbose) w
       = (Raises e, st)).
  { intros ip op tf rr tw pb bw qt pl opl vb Hbody.
    unfold run, simplify_textured_mesh. apply bind_Raises.
    apply try_except_passes; assumption. }
  split; [exact Hwhole |].
  intros p args Hguard Hbody.
  assert (Hg : negb (truthy_int (target_faces args))
               && negb (truthy_float (reduction_ratio args)) = false).
  { rewrite <- negb_orb, Hguard. reflexivity. }
  unfold run, dowsample_mesh. rewrite Hg.
  rewrite (bind_Returns _ _ _ tt {| trace := []; world := w |})
    by reflexivity.
  apply bind_Raises. apply try_except_passes; [| exact He].
  unfold dowsample_try. apply bind_Raises. apply Hwhole. exact Hbody.
Qed.

(** The demo libraries, with a user who interrupts the loading. *)
Definition interrupted_lib : Library Demo.world Demo.mesh :=
  {| lib_path_exists := lib_path_exists Demo.lib;
     lib_MeshSet := lib_MeshSet Demo.lib;
     lib_load_new_mesh := fun _ w => (Raises KeyboardInterrupt, w);
     lib_face_number := lib_face_number Demo.lib;
     lib_decimation := lib_decimation Demo.lib;
     lib_save_current_mesh := lib_save_current_mesh Demo.lib;
     lib_trimesh_load := lib_trimesh_load Demo.lib;
     lib_extents := lib_extents Demo.lib;
     lib_len_vertices := lib_len_vertices Demo.lib;
     lib_len_faces := lib_len_faces Demo.lib;
     lib_apply_scale := lib_apply_scale Demo.lib;
     lib_export := lib_export Demo.lib;
     lib_Scene := lib_Scene Demo.lib;
     lib_creation_axis := lib_creation_axis Demo.lib;
     lib_set_face_colors := lib_set_face_colors Demo.lib;
     lib_add_geometry := lib_add_geometry Demo.lib;
     lib_show := lib_show Demo.lib |}.

Lemma interrupts_are_not_caught_witness :
  is_Exception KeyboardInterrupt = false /\
  run (dowsample_mesh interrupted_lib parser_of_main
         (Demo.cli "in.obj" "out.obj" true None (Some 6) None)) Demo.disk
    = (Raises KeyboardInterrupt,
       {| trace := [Call (os_path_exists "in.obj"); Call ml_MeshSet;
                    Stdout (MsgLoading "in.obj");
                    Call (ms_load_new_mesh "in.obj")];
          world := {| Demo.files := [("in.obj", Demo.box)];
                      Demo.current := None |} |}).
Proof.
  split; [reflexivity |].
  apply (proj2 (interrupts_are_not_caught interrupted_lib Demo.disk
                  KeyboardInterrupt _ eq_refl) parser_of_main
           (Demo.cli "in.obj" "out.obj" true None (Some 6) None));
    reflexivity.
Defined.

(** ** A simplification from start to end *)

(** All library calls of a run, in order. *)
Definition calls {Mesh} (tr : list (event Mesh)) : list (libcall Mesh) :=
  flat_map (fun ev => match ev with Call c => [c] | _ => [] end) tr.

(** The files a run asked pymeshlab to write, with the [save_textures]
    flag. *)
Definition saves {Mesh} (tr : list (event Mesh)) : list (string * bool) :=
  flat_map (fun ev => match ev with
                      | Call (ms_save_current_mesh p textures) => [(p, textures)]
                      | _ => []
                      end) tr.

(** A line printed under [if verbose]. *)
Definition say {Mesh} (verbose : bool) (m : message) : list (event Mesh) :=
  if verbose then [Stdout m] else [].

Section BodyRun.

Context {World Mesh : Type} (lib : Library World Mesh).
Variables (input_path output_path : string).
Variables (target_faces : option Z) (reduction_ratio : option float).
Variables (texture_weight : float) (preserve_boundary : bool).
Variables (boundary_weight quality_threshold : float).
Variables (planar optimal_placement verbose : bool).

Implicit Types s : state World Mesh.

Let engine (t : option Z) : decimation_args :=
  engine_arguments texture_weight preserve_boundary boundary_weight
    quality_threshold planar optimal_placement t.

(** The line of line 101, printed on the ratio path only. *)
Definition target_line (t : option Z) : list (event Mesh) :=
  match reduction_ratio with
  | Some r => say verbose (MsgTargetFromRatio r t)
  | None => []
  end.

(** The trace of a run that reaches the engine, up to the decimation
    call; then up to the save; then to the end. *)
Definition trace_to_engine (t : option Z) : list (event Mesh) :=
  ([Call (os_path_exists input_path); Call ml_MeshSet]
   ++ say verbose (MsgLoading (basename input_path))
   ++ [Call (ms_load_new_mesh input_path); Call ms_current_mesh_face_number]
   ++ target_line t
   ++ say verbose (MsgStartDecimation t texture_weight)
   ++ [Call (ms_decimation (engine t))])%list.

Definition trace_to_save (t : option Z) : list (event Mesh) :=
  (trace_to_engine t
   ++ [Call ms_current_mesh_face_number]
   ++ say verbose (MsgSaving output_path)
   ++ [Call (ms_save_current_mesh output_path true)])%list.

Definition trace_completed (n : Z) (t : option Z) (m : Z) (q : float)
    : list (event Mesh) :=
  (trace_to_save t
   ++ say verbose (MsgDone n m (PyFloat.sub PyFloat.one q)))%list.

Lemma call_trace {A} (c : libcall Mesh) (f : World -> outcome A * World)
    s r s' :
  call c f s = (r, s') ->
  f (world s) = (r, world s') /\ trace s' = (trace s ++ [Call c])%list.
Proof.
  intros H. apply call_inv in H as (w' & Hf & ->). split; [exact Hf |].
  reflexivity.
Qed.

Lemma when_trace (b : bool) (m : message) s r s' :
  when b (print m) s = (r, s') ->
  r = Returns tt /\ world s' = world s /\
  trace s' = (trace s ++ say b m)%list.
Proof.
  intros H. apply when_inv in H as (-> & ->). repeat split.
Qed.

Lemma compute_target_trace n s (r : outcome (option Z)) s' :
  compute_target target_faces reduction_ratio n verbose s = (r, s') ->
  world s' = world s /\
  trace s' = (trace s ++ match r with
                         | Returns t => target_line t
                         | Raises _ => []
                         end)%list.
Proof.
  unfold compute_target, target_line.
  destruct reduction_ratio as [x |].
  - unfold bind, lift.
    destruct (int_mul_float n (PyFloat.sub PyFloat.one x)) as [y | e];
      [| intros H; injection H as <- <-; rewrite app_nil_r; split; reflexivity].
    destruct (py_int y) as [c | e];
      [| intros H; injection H as <- <-; rewrite app_nil_r; split; reflexivity].
    destruct verbose; cbn; intros H; injection H as <- <-; cbn;
      [| rewrite app_nil_r]; split; reflexivity.
  - cbn. intros H; injection H as <- <-. rewrite app_nil_r.
    split; reflexivity.
Qed.

Lemma saves_app (tr1 tr2 : list (event Mesh)) :
  saves (tr1 ++ tr2) = (saves tr1 ++ saves tr2)%list.
Proof. apply flat_map_app. Qed.

Lemma saves_say (b : bool) (m : message) : saves (say (Mesh := Mesh) b m) = [].
Proof. destruct b; reflexivity. Qed.

Lemma saves_target_line (t : option Z) : saves (target_line t) = [].
Proof.
  unfold target_line.
  destruct reduction_ratio; [apply saves_say | reflexivity].
Qed.

Lemma decimations_app (tr1 tr2 : list (event Mesh)) :
  decimations (tr1 ++ tr2) = (decimations tr1 ++ decimations tr2)%list.
Proof. apply flat_map_app. Qed.

Lemma decimations_say (b : bool) (m : message) :
  decimations (say (Mesh := Mesh) b m) = [].
Proof. destruct b; reflexivity. Qed.

Lemma decimations_target_line (t : option Z) :
  decimations (target_line t) = [].
Proof.
  unfold target_line.
  destruct reduction_ratio; [apply decimations_say | reflexivity].
Qed.

(** Where a run that has called the engine stops short of saving. *)
Inductive stopped_before_save (w2 : World) (n : Z) (t : option Z) (e : exn)
    : Prop :=
| stopped_by_engine (w' : World) :
    lib_decimation lib (engine t) w2 = (Raises e, w') ->
    stopped_before_save w2 n t e
| stopped_by_recount (w3 w' : World) :
    lib_decimation lib (engine t) w2 = (Returns tt, w3) ->
    lib_face_number lib w3 = (Raises e, w') ->
    stopped_before_save w2 n t e
| stopped_by_statistics (w3 w4 : World) (m : Z) :
    lib_decimation lib (engine t) w2 = (Returns tt, w3) ->
    lib_face_number lib w3 = (Returns m, w4) ->
    int_truediv m n = Raises e ->
    stopped_before_save w2 n t e.

(** Every run of the body, from the first check to the last line. *)
Lemma simplify_body_run (w : World) (r : outcome unit)
    (st : state World Mesh) :
  run (simplify_body lib input_path output_path target_faces
         reduction_ratio texture_weight preserve_boundary boundary_weight
         quality_threshold planar optimal_placement verbose) w = (r, st) ->
  (exists e,
     r = Raises e /\ saves (trace st) = [] /\ decimations (trace st) = [] /\
     stopped_before_engine lib input_path target_faces reduction_ratio w e) \/
  (exists w0 w1 w2 n t,
     lib_path_exists lib input_path w = true /\
     lib_MeshSet lib w = (Returns tt, w0) /\
     lib_load_new_mesh lib input_path w0 = (Returns tt, w1) /\
     lib_face_number lib w1 = (Returns n, w2) /\
     requested_target target_faces reduction_ratio n t /\
     ((exists e,
         r = Raises e /\ saves (trace st) = [] /\
         stopped_before_save w2 n t e) \/
      (exists w3 w4 m q o,
         lib_decimation lib (engine t) w2 = (Returns tt, w3) /\
         lib_face_number lib w3 = (Returns m, w4) /\
         int_truediv m n = Returns q /\
         lib_save_current_mesh lib output_path true w4 = (o, world st) /\
         match o with
         | Returns _ => r = Returns tt /\ trace st = trace_completed n t m q
         | Raises e => r = Raises e /\ trace st = trace_to_save t
         end))).
Proof.
  unfold run, simplify_body. intros H.
  set (s0 := {| trace := []; world := w |}) in H.
  (* the three checks *)
  step H Hc1 a1 s1.
  2:{ left. eexists. split; [reflexivity |].
      pose proof (check_exclusive_inv _ _ _ _ _ Hc1) as ->.
      repeat split.
      apply stopped_by_validation with (st := s0).
      unfold run, validation. fold s0. apply bind_Raises. exact Hc1. }
  pose proof (check_exclusive_inv _ _ _ _ _ Hc1) as ->.
  step H Hc2 a2 s2.
  2:{ left. eexists. split; [reflexivity |].
      pose proof (check_range_inv _ _ _ _ Hc2) as ->.
      repeat split.
      apply stopped_by_validation with (st := s0).
      unfold run, validation. fold s0.
      rewrite (bind_Returns _ _ _ _ _ Hc1). apply bind_Raises. exact Hc2. }
  pose proof (check_range_inv _ _ _ _ Hc2) as ->.
  step H Hc3 a3 s3.
  2:{ left. eexists. split; [reflexivity |].
      pose proof (check_input_exists_inv lib _ _ _ _ Hc3) as ->.
      repeat split.
      eapply stopped_by_validation.
      unfold run, validation. fold s0.
      rewrite (bind_Returns _ _ _ _ _ Hc1), (bind_Returns _ _ _ _ _ Hc2).
      exact Hc3. }
  pose proof (check_input_exists_Returns lib _ _ _ _ Hc3) as Hexists.
  pose proof (check_input_exists_inv lib _ _ _ _ Hc3) as ->.
  cbn [world trace s0 app] in *. clear Hc1 Hc2 Hc3.
  (* MeshSet(), the message, load_new_mesh, face_number *)
  step H Hc4 a4 s4; apply call_trace in Hc4 as [Hf4 Ht4];
    cbn [world trace app] in Hf4, Ht4.
  2:{ left. eexists. split; [reflexivity |]. rewrite Ht4.
      repeat split. eapply stopped_by_MeshSet. exact Hf4. }
  destruct a4.
  step H Hc5 a5 s5; apply when_trace in Hc5 as (E5 & Hw5 & Ht5);
    [| discriminate].
  rewrite Ht4 in Ht5.
  step H Hc6 a6 s6; apply call_trace in Hc6 as [Hf6 Ht6];
    rewrite Hw5 in Hf6; rewrite Ht5 in Ht6.
  2:{ left. eexists. split; [reflexivity |]. rewrite Ht6.
      rewrite !saves_app, !decimations_app, saves_say, decimations_say.
      repeat split. eapply stopped_by_load; eassumption. }
  destruct a6.
  step H Hc7 n s7; apply call_trace in Hc7 as [Hf7 Ht7];
    rewrite Ht6 in Ht7.
  2:{ left. eexists. split; [reflexivity |]. rewrite Ht7.
      rewrite !saves_app, !decimations_app, saves_say, decimations_say.
      repeat split. eapply stopped_by_face_number; eassumption. }
  (* the target *)
  step H Hc8 t s8.
  2:{ left. eexists. split; [reflexivity |].
      pose proof (compute_target_trace _ _ _ _ Hc8) as [_ Ht8].
      rewrite Ht7, app_nil_r in Ht8. rewrite Ht8.
      rewrite !saves_app, !decimations_app, saves_say, decimations_say.
      repeat split.
      apply compute_target_Raises in Hc8 as (r0 & Hr0 & Hwhy).
      eapply stopped_by_target; eassumption. }
  pose proof (compute_target_trace _ _ _ _ Hc8) as [Hw8 Ht8].
  rewrite Ht7 in Ht8.
  apply compute_target_inv in Hc8 as (_ & _ & Hreq).
  specialize (Hreq _ eq_refl).
  step H Hc9 a9 s9; apply when_trace in Hc9 as (E9 & Hw9 & Ht9);
    [| discriminate].
  rewrite Ht8 in Ht9. rewrite Hw8 in Hw9.
  right. exists (world s4), (world s6), (world s7), n, t.
  repeat (split; [assumption |]).
  (* the engine *)
  fold (engine_arguments texture_weight preserve_boundary boundary_weight
          quality_threshold planar optimal_placement t) in H.
  fold (engine t) in H.
  step H Hc10 a10 s10; apply call_trace in Hc10 as [Hf10 Ht10];
    rewrite Hw9 in Hf10; rewrite Ht9 in Ht10.
  2:{ left. eexists. split; [reflexivity |]. rewrite Ht10.
      rewrite !saves_app, !saves_say, saves_target_line.
      split; [reflexivity |]. eapply stopped_by_engine. exact Hf10. }
  destruct a10.
  step H Hc11 m s11; apply call_trace in Hc11 as [Hf11 Ht11];
    rewrite Ht10 in Ht11.
  2:{ left. eexists. split; [reflexivity |]. rewrite Ht11.
      rewrite !saves_app, !saves_say, saves_target_line.
      split; [reflexivity |]. eapply stopped_by_recount; eassumption. }
  step H Hc12 q s12; apply lift_inv in Hc12 as [E12 ->].
  2:{ left. eexists. split; [reflexivity |]. rewrite Ht11.
      rewrite !saves_app, !saves_say, saves_target_line.
      split; [reflexivity |].
      eapply stopped_by_statistics; eauto. }
  step H Hc13 a13 s13; apply when_trace in Hc13 as (E13 & Hw13 & Ht13);
    [| discriminate].
  rewrite Ht11 in Ht13.
  right. exists (world s10), (world s11), m, q.
  step H Hc14 a14 s14; apply call_trace in Hc14 as [Hf14 Ht14];
    rewrite Hw13 in Hf14; rewrite Ht13 in Ht14.
  2:{ match type of Hf14 with _ = (?o, _) => exists o end.
      repeat (split; [eauto; fail |]). rewrite Ht14.
      unfold trace_to_save, trace_to_engine.
      rewrite <- !app_assoc. reflexivity. }
  destruct a14.
  apply when_trace in H as (-> & Hw & Ht). rewrite Ht14 in Ht.
  exists (Returns tt). rewrite Hw.
  repeat (split; [eauto; fail |]). rewrite Ht.
  unfold trace_completed, trace_to_save, trace_to_engine.
  rewrite <- !app_assoc. reflexivity.
Qed.

End BodyRun.

Lemma calls_app {Mesh} (tr1 tr2 : list (event Mesh)) :
  calls (tr1 ++ tr2) = (calls tr1 ++ calls tr2)%list.
Proof. apply flat_map_app. Qed.

Lemma calls_say {Mesh} (b : bool) (m : message) :
  calls (say (Mesh := Mesh) b m) = [].
Proof. destruct b; reflexivity. Qed.

Lemma calls_target_line {Mesh} (rr : option float) (verbose : bool)
    (t : option Z) :
  calls (target_line (Mesh := Mesh) rr verbose t) = [].
Proof. destruct rr; [apply calls_say | reflexivity]. Qed.

(** X7. A simplification that completes goes through these steps into
    [os.path] and pymeshlab, in this order: the existence check,
    [MeshSet()], [load_new_mesh(input_path)], the face count
    [ms.current_mesh().face_number()] (lines 92-93, the two calls being the
    one event [ms_current_mesh_face_number]), one decimation, the face
    count [ms.current_mesh().face_number()] again (lines 119-120), and
    [save_current_mesh(output_path, save_textures=True)] as the last one;
    with [verbose] the five progress lines are interleaved as in
    [trace_completed], the last one reporting the two face counts and
    [1 - output_faces / input_faces].  [os.path.basename] in the first
    progress line is the pure function [basename] and has no event. *)
Theorem completed_simplification_trace {World Mesh}
    (lib : Library World Mesh) (input_path output_path : string)
    (target_faces : option Z) (reduction_ratio : option float)
    (texture_weight : float) (preserve_boundary : bool)
    (boundary_weight quality_threshold : float)
    (planar optimal_placement verbose : bool)
    (w : World) (st : state World Mesh) :
  run (simplify_body lib input_path output_path target_faces reduction_ratio
         texture_weight preserve_boundary boundary_weight quality_threshold
         planar optimal_placement verbose) w = (Returns tt, st) ->
  exists w0 w1 w2 n t w3 w4 m q,
    let a := engine_arguments texture_weight preserve_boundary
               boundary_weight quality_threshold planar optimal_placement t in
    lib_path_exists lib input_path w = true /\
    lib_MeshSet lib w = (Returns tt, w0) /\
    lib_load_new_mesh lib input_path w0 = (Returns tt, w1) /\
    lib_face_number lib w1 = (Returns n, w2) /\
    requested_target target_faces reduction_ratio n t /\
    lib_decimation lib a w2 = (Returns tt, w3) /\
    lib_face_number lib w3 = (Returns m, w4) /\
    int_truediv m n = Returns q /\
    lib_save_current_mesh lib output_path true w4 = (Returns tt, world st) /\
    trace st
    = trace_completed input_path output_path reduction_ratio texture_weight
        preserve_boundary boundary_weight quality_threshold planar
        optimal_placement verbose n t m q /\
    calls (trace st)
    = [os_path_exists input_path; ml_MeshSet; ms_load_new_mesh input_path;
       ms_current_mesh_face_number; ms_decimation a; ms_current_mesh_face_number;
       ms_save_current_mesh output_path true].
Proof.
  intros H. apply simplify_body_run in H
    as [(e & He & _)
       | (w0 & w1 & w2 & n & t & Hp & H0 & H1 & H2 & Ht &
          [(e & He & _)
          | (w3 & w4 & m & q & o & H3 & H4 & Hq & H5 & Ho)])];
    try discriminate.
  destruct o as [[] | e]; destruct Ho as [Hr Htr]; [| discriminate].
  exists w0, w1, w2, n, t, w3, w4, m, q. cbv zeta.
  repeat (split; [assumption |]). rewrite Htr.
  unfold trace_completed, trace_to_save, trace_to_engine.
  rewrite !calls_app, !calls_say, calls_target_line. reflexivity.
Qed.

Lemma completed_simplification_trace_witness :
  let st := snd (run (simplify_body Demo.lib "in.obj" "out.obj" (Some 6) None
                        default_texture_weight true default_boundary_weight
                        default_quality_threshold false true false)
                   Demo.disk) in
  calls (trace st)
  = [os_path_exists "in.obj"; ml_MeshSet; ms_load_new_mesh "in.obj";
     ms_current_mesh_face_number;
     ms_decimation
       (engine_arguments default_texture_weight true default_boundary_weight
          default_quality_threshold false true (Some 6));
     ms_current_mesh_face_number; ms_save_current_mesh "out.obj" true] /\
  Demo.lookup "out.obj" (Demo.files (world st))
  = Some {| Demo.vertices := Demo.vertices Demo.box; Demo.faces := 6 |}.
Proof.
  cbv zeta. split; [| reflexivity].
  assert (Hrun :
    run (simplify_body Demo.lib "in.obj" "out.obj" (Some 6) None
           default_texture_weight true default_boundary_weight
           default_quality_threshold false true false) Demo.disk
    = (Returns tt,
       snd (run (simplify_body Demo.lib "in.obj" "out.obj" (Some 6) None
                   default_texture_weight true default_boundary_weight
                   default_quality_threshold false true false) Demo.disk)))
    by (vm_compute; reflexivity).
  destruct (completed_simplification_trace Demo.lib "in.obj" "out.obj"
              (Some 6) None default_texture_weight true default_boundary_weight
              default_quality_threshold false true false Demo.disk _ Hrun)
    as (w0 & w1 & w2 & n & t & w3 & w4 & m & q & Hall).
  cbv zeta in Hall.
  destruct Hall as (_ & _ & _ & _ & Ht & _ & _ & _ & _ & _ & Hcalls).
  cbn in Ht. subst t. exact Hcalls.
Defined.

(** X8. The output file is written at most once, to [output_path] with
    [save_textures=True], and only by a run in which the decimation
    returned, the second face count was read and the reduction statistic
    [output_faces / input_faces] could be computed.  A run that fails
    anywhere before that writes nothing. *)
Theorem output_written_only_after_decimation {World Mesh}
    (lib : Library World Mesh) (input_path output_path : string)
    (target_faces : option Z) (reduction_ratio : option float)
    (texture_weight : float) (preserve_boundary : bool)
    (boundary_weight quality_threshold : float)
    (planar optimal_placement verbose : bool)
    (w : World) (r : outcome unit) (st : state World Mesh) :
  run (simplify_body lib input_path output_path target_faces reduction_ratio
         texture_weight preserve_boundary boundary_weight quality_threshold
         planar optimal_placement verbose) w = (r, st) ->
  (saves (trace st) = [] /\ exists e, r = Raises e) \/
  (saves (trace st) = [(output_path, true)] /\
   exists w0 w1 w2 n t w3 w4 m q,
     lib_MeshSet lib w = (Returns tt, w0) /\
     lib_load_new_mesh lib input_path w0 = (Returns tt, w1) /\
     lib_face_number lib w1 = (Returns n, w2) /\
     decimations (trace st)
     = [engine_arguments texture_weight preserve_boundary boundary_weight
          quality_threshold planar optimal_placement t] /\
     lib_decimation lib
       (engine_arguments texture_weight preserve_boundary boundary_weight
          quality_threshold planar optimal_placement t) w2
       = (Returns tt, w3) /\
     lib_face_number lib w3 = (Returns m, w4) /\
     int_truediv m n = Returns q).
Proof.
  intros H. apply simplify_body_run in H
    as [(e & He & Hs & _)
       | (w0 & w1 & w2 & n & t & Hp & H0 & H1 & H2 & Ht &
          [(e & He & Hs & _)
          | (w3 & w4 & m & q & o & H3 & H4 & Hq & H5 & Ho)])];
    [left; eauto | left; eauto |].
  right.
  assert (Htr : trace st
                = trace_to_save input_path output_path reduction_ratio
                    texture_weight preserve_boundary boundary_weight
                    quality_threshold planar optimal_placement verbose t
                \/ trace st
                   = trace_completed input_path output_path reduction_ratio
                       texture_weight preserve_boundary boundary_weight
                       quality_threshold planar optimal_placement verbose
                       n t m q).
  { destruct o; destruct Ho; auto. }
  split.
  - destruct Htr as [-> | ->];
      unfold trace_completed, trace_to_save, trace_to_engine;
      rewrite !saves_app, !saves_say, saves_target_line; reflexivity.
  - exists w0, w1, w2, n, t, w3, w4, m, q.
    repeat (split; [assumption |]). split; [| auto].
    destruct Htr as [-> | ->];
      unfold trace_completed, trace_to_save, trace_to_engine;
      rewrite !decimations_app, !decimations_say, decimations_target_line;
      reflexivity.
Qed.

Lemma output_written_only_after_decimation_witness :
  saves (trace (snd (run (simplify_body Demo.lib "in.obj" "out.obj" (Some 6)
                            None default_texture_weight true
                            default_boundary_weight default_quality_threshold
                            false true true) Demo.disk)))
  = [("out.obj", true)] /\
  saves (trace (snd (run (simplify_body Demo.lib "in.obj" "out.obj" None
                            None default_texture_weight true
                            default_boundary_weight default_quality_threshold
                            false true true) Demo.disk)))
  = [].
Proof.
  split.
  - destruct (output_written_only_after_decimation Demo.lib "in.obj"
                "out.obj" (Some 6) None default_texture_weight true
                default_boundary_weight default_quality_threshold false true
                true Demo.disk _ _ (surjective_pairing _))
      as [[_ (e & He)] | [Hs _]]; [discriminate He | exact Hs].
  - destruct (output_written_only_after_decimation Demo.lib "in.obj"
                "out.obj" None None default_texture_weight true
                default_boundary_weight default_quality_threshold false true
                true Demo.disk _ _ (surjective_pairing _))
      as [[Hs _] | [Hs _]]; [exact Hs | discriminate Hs].
Defined.

(** X9. A mesh without faces cannot be simplified.  Line 121 divides by the
    input face count, so when the loaded mesh has zero faces the run never
    reaches [save_current_mesh]: it always raises, and if nothing else
    failed first the engine has already run and the exception is the
    [ZeroDivisionError] of the statistics. *)
Theorem empty_mesh_is_never_saved {World Mesh}
    (lib : Library World Mesh) (input_path output_path : string)
    (target_faces : option Z) (reduction_ratio : option float)
    (texture_weight : float) (preserve_boundary : bool)
    (boundary_weight quality_threshold : float)
    (planar optimal_placement verbose : bool)
    (w w0 w1 w2 : World) (r : outcome unit) (st : state World Mesh) :
  lib_MeshSet lib w = (Returns tt, w0) ->
  lib_load_new_mesh lib input_path w0 = (Returns tt, w1) ->
  lib_face_number lib w1 = (Returns 0, w2) ->
  run (simplify_body lib input_path output_path target_faces reduction_ratio
         texture_weight preserve_boundary boundary_weight quality_threshold
         planar optimal_placement verbose) w = (r, st) ->
  saves (trace st) = [] /\
  exists e,
    r = Raises e /\
    (stopped_before_engine lib input_path target_faces reduction_ratio w e \/
     exists t,
       let a := engine_arguments texture_weight preserve_boundary
                  boundary_weight quality_threshold planar
                  optimal_placement t in
       requested_target target_faces reduction_ratio 0 t /\
       ((exists w', lib_decimation lib a w2 = (Raises e, w')) \/
        (exists w3 w',
           lib_decimation lib a w2 = (Returns tt, w3) /\
           lib_face_number lib w3 = (Raises e, w')) \/
        (exists w3 w4 m,
           lib_decimation lib a w2 = (Returns tt, w3) /\
           lib_face_number lib w3 = (Returns m, w4) /\
           e = ZeroDivisionError "division by zero"))).
Proof.
  intros H0 H1 H2 H. apply simplify_body_run in H
    as [(e & He & Hs & _ & Hstop)
       | (v0 & v1 & v2 & n & t & Hp & G0 & G1 & G2 & Ht & Hrest)].
  { split; [exact Hs |]. exists e. auto. }
  rewrite H0 in G0. injection G0 as <-.
  rewrite H1 in G1. injection G1 as <-.
  rewrite H2 in G2. injection G2 as <- <-.
  destruct Hrest as [(e & He & Hs & Hstop)
                    | (w3 & w4 & m & q & o & _ & _ & Hq & _)].
  - split; [exact Hs |]. exists e. split; [exact He |]. right.
    exists t. cbv zeta. split; [exact Ht |].
    destruct Hstop as [w' E | w3 w' E3 E4 | w3 w4 m E3 E4 Eq].
    + left. eauto.
    + right. left. eauto.
    + right. right. exists w3, w4, m. repeat split; trivial.
      unfold int_truediv in Eq. cbn in Eq. congruence.
  - unfold int_truediv in Hq. cbn in Hq. discriminate.
Qed.

(** A disk whose input file is a mesh with no faces. *)
Definition empty_mesh : Demo.mesh := {| Demo.vertices := []; Demo.faces := 0 |}.

Definition disk_with_empty_mesh : Demo.world :=
  {| Demo.files := [("in.obj", empty_mesh)]; Demo.current := None |}.

Lemma empty_mesh_is_never_saved_witness :
  let body :=
    simplify_body Demo.lib "in.obj" "out.obj" (Some 6) None
      default_texture_weight true default_boundary_weight
      default_quality_threshold false true true in
  fst (run body disk_with_empty_mesh)
    = Raises (ZeroDivisionError "division by zero") /\
  List.length (decimations (trace (snd (run body disk_with_empty_mesh))))
    = 1%nat /\
  saves (trace (snd (run body disk_with_empty_mesh))) = [].
Proof.
  cbv zeta. split; [reflexivity |]. split; [reflexivity |].
  apply (empty_mesh_is_never_saved Demo.lib "in.obj" "out.obj" (Some 6) None
           default_texture_weight true default_boundary_weight
           default_quality_threshold false true true disk_with_empty_mesh
           _ _ _ _ _ eq_refl eq_refl eq_refl (surjective_pairing _)).
Defined.

(** ** The viewer *)

(** What [display_mesh] asks of trimesh once it has the mesh [m]. *)
Definition viewer_calls {Mesh} (m : Mesh) (show_bbox : bool)
    : list (libcall Mesh) :=
  ([trimesh_Scene; scene_add_geometry (GeomMesh m);
    trimesh_creation_axis; scene_add_geometry GeomAxis]
   ++ (if show_bbox
       then [box_set_face_colors m; scene_add_geometry (GeomBox m)]
       else [])
   ++ [scene_show])%list.

Section Viewer.

Context {World Mesh : Type} (lib : Library World Mesh).

Implicit Types s : state World Mesh.

Lemma call_Returns_trace {A} (c : libcall Mesh)
    (f : World -> outcome A * World) s a s' :
  call c f s = (Returns a, s') ->
  f (world s) = (Returns a, world s') /\
  trace s' = (trace s ++ [Call c])%list.
Proof. apply call_trace. Qed.

Lemma print_trace (m : message) s r s' :
  print m s = (r, s') ->
  r = Returns tt /\ world s' = world s /\
  trace s' = (trace s ++ [Stdout m])%list.
Proof. intros H. apply print_inv in H as (-> & ->). repeat split. Qed.

(** A [display_mesh] that returns has made exactly the calls of
    [viewer_calls], after loading the file when given a path. *)
Lemma display_mesh_completed (mesh : string + Mesh) (show_bbox : bool)
    s v s' :
  display_mesh lib mesh show_bbox s = (Returns v, s') ->
  v = PyNone /\
  exists m,
    match mesh with
    | inl p => exists w', lib_trimesh_load lib p (world s) = (Returns m, w')
    | inr m0 => m = m0
    end /\
    trace s'
    = (trace s
       ++ map Call (match mesh with
                    | inl p => [trimesh_load p]
                    | inr _ => []
                    end ++ viewer_calls m show_bbox))%list.
Proof.
  unfold display_mesh. intros H.
  apply bind_Returns_inv in H as (m & s0 & Hc0 & H).
  assert (Hm : match mesh with
               | inl p => exists w',
                   lib_trimesh_load lib p (world s) = (Returns m, w')
               | inr m0 => m = m0
               end /\
               trace s0
               = (trace s ++ map Call (match mesh with
                                       | inl p => [trimesh_load p]
                                       | inr _ => []
                                       end))%list).
  { destruct mesh as [p | m0].
    - apply call_Returns_trace in Hc0 as [Hf Ht]. split; [eauto | exact Ht].
    - apply ret_inv in Hc0 as [E ->]. injection E as <-.
      split; [reflexivity |]. cbn. rewrite app_nil_r. reflexivity. }
  destruct Hm as [Hm Ht0]. clear Hc0.
  apply bind_Returns_inv in H as (a1 & s1 & Hc1 & H).
  apply call_Returns_trace in Hc1 as [_ Ht1]. rewrite Ht0 in Ht1.
  apply bind_Returns_inv in H as (a2 & s2 & Hc2 & H).
  apply call_Returns_trace in Hc2 as [_ Ht2]. rewrite Ht1 in Ht2.
  apply bind_Returns_inv in H as (a3 & s3 & Hc3 & H).
  apply call_Returns_trace in Hc3 as [_ Ht3]. rewrite Ht2 in Ht3.
  apply bind_Returns_inv in H as (a4 & s4 & Hc4 & H).
  apply call_Returns_trace in Hc4 as [_ Ht4]. rewrite Ht3 in Ht4.
  apply bind_Returns_inv in H as (a5 & s5 & Hc5 & H).
  assert (Ht5 : trace s5
                = (trace s4
                   ++ map Call (if show_bbox
                                then [box_set_face_colors m;
                                      scene_add_geometry (GeomBox m)]
                                else []))%list).
  { destruct show_bbox; cbn [when] in Hc5.
    - apply bind_Returns_inv in Hc5 as (b1 & t1 & Hb1 & Hb2).
      apply call_Returns_trace in Hb1 as [_ Hu1].
      apply call_Returns_trace in Hb2 as [_ Hu2].
      rewrite Hu2, Hu1, <- app_assoc. reflexivity.
    - apply ret_inv in Hc5 as [_ ->]. cbn. rewrite app_nil_r. reflexivity. }
  rewrite Ht4 in Ht5. clear Hc5.
  apply bind_Returns_inv in H as (a6 & s6 & Hc6 & H).
  apply call_Returns_trace in Hc6 as [_ Ht6]. rewrite Ht5 in Ht6.
  apply ret_inv in H as [E ->]. injection E as <-.
  split; [reflexivity |]. exists m. split; [exact Hm |].
  rewrite Ht6. unfold viewer_calls.
  rewrite !map_app, <- !app_assoc. reflexivity.
Qed.

End Viewer.

Lemma calls_map_Call {Mesh} (cs : list (libcall Mesh)) :
  calls (map Call cs) = cs.
Proof.
  unfold calls. induction cs as [| c cs IH]; [reflexivity |].
  cbn. f_equal. exact IH.
Qed.

Lemma printed_map_Call {Mesh} (cs : list (libcall Mesh)) :
  printed (map Call cs) = [].
Proof.
  unfold printed. induction cs as [| c cs IH]; [reflexivity | exact IH].
Qed.

(** X10. [display_mesh] shows the mesh, a small axis helper and, only when
    [show_bbox] is set, the red bounding box, and calls [scene.show()]
    last.  Given a mesh object it reads no file; given a path it loads
    that file first, exactly once.  It returns [None]. *)
Theorem viewer_scene_contents {World Mesh} (lib : Library World Mesh)
    (mesh : string + Mesh) (show_bbox : bool) (w : World) (v : pyval)
    (st : state World Mesh) :
  run (display_mesh lib mesh show_bbox) w = (Returns v, st) ->
  v = PyNone /\
  exists m,
    match mesh with
    | inl p => exists w', lib_trimesh_load lib p w = (Returns m, w')
    | inr m0 => m = m0
    end /\
    calls (trace st)
    = (match mesh with inl p => [trimesh_load p] | inr _ => [] end
       ++ [trimesh_Scene; scene_add_geometry (GeomMesh m);
           trimesh_creation_axis; scene_add_geometry GeomAxis]
       ++ (if show_bbox
           then [box_set_face_colors m; scene_add_geometry (GeomBox m)]
           else [])
       ++ [scene_show])%list /\
    printed (trace st) = [].
Proof.
  intros H. apply display_mesh_completed in H as (-> & m & Hm & Ht).
  split; [reflexivity |]. exists m. split; [exact Hm |].
  cbn [trace app] in Ht. rewrite Ht. split.
  - apply calls_map_Call.
  - apply printed_map_Call.
Qed.

Lemma viewer_scene_contents_witness :
  calls (trace (snd (run (display_mesh Demo.lib (inr Demo.box) false)
                       Demo.empty_disk)))
  = [trimesh_Scene; scene_add_geometry (GeomMesh Demo.box);
     trimesh_creation_axis; scene_add_geometry GeomAxis; scene_show].
Proof.
  destruct (viewer_scene_contents Demo.lib (inr Demo.box) false
              Demo.empty_disk PyNone _ eq_refl)
    as (_ & m & Hm & Hc & _).
  subst m. exact Hc.
Defined.

(** ** A resize from start to end *)

(** The meshes a run exported, with their paths. *)
Definition exports {Mesh} (tr : list (event Mesh)) : list (Mesh * string) :=
  flat_map (fun ev => match ev with
                      | Call (mesh_export m p) => [(m, p)]
                      | _ => []
                      end) tr.

(** The trace of [resize_mesh] from the load to the last line of the
    second report: mesh [m] with extents [ext] is measured, scaled by [s]
    into [m'], and [m'] is measured again. *)
Definition resize_report {Mesh} (path : string) (m : Mesh)
    (ext : float * float * float) (nv nf : Z) (s : float) (m' : Mesh)
    (nv' nf' : Z) (ext' : float * float * float) : list (event Mesh) :=
  [Call (trimesh_load path); Call (mesh_bounding_box_extents m);
   Stdout MsgOriginalInfo;
   Call (mesh_len_vertices m); Stdout (MsgVertices nv);
   Call (mesh_len_faces m); Stdout (MsgFaces nf);
   Stdout (MsgExtents ext);
   Call (mesh_apply_scale m s);
   Stdout MsgResizedInfo;
   Call (mesh_len_vertices m'); Stdout (MsgVertices nv');
   Call (mesh_len_faces m'); Stdout (MsgFaces nf');
   Call (mesh_bounding_box_extents m'); Stdout (MsgExtents ext')].

Section ResizeTrace.

Context {World Mesh : Type} (lib : Library World Mesh).

Implicit Types s : state World Mesh.

Lemma exports_app (tr1 tr2 : list (event Mesh)) :
  exports (tr1 ++ tr2) = (exports tr1 ++ exports tr2)%list.
Proof. apply flat_map_app. Qed.

Lemma exports_viewer (tr : list (event Mesh)) :
  Forall is_viewer_call tr -> exports tr = [].
Proof.
  unfold exports. induction 1 as [| ev tr H _ IH]; [reflexivity |].
  cbn [flat_map]. rewrite IH.
  destruct ev as [| | | []]; cbn in *; tauto.
Qed.

(** What [display_mesh] appends to the trace, whether it returns or not. *)
Lemma display_mesh_appends (mesh : string + Mesh) (show_bbox : bool)
    s r s' :
  display_mesh lib mesh show_bbox s = (r, s') ->
  exists tr, trace s' = (trace s ++ tr)%list /\ Forall is_viewer_call tr.
Proof.
  intros H.
  destruct (display_mesh_emits lib is_viewer_call mesh show_bbox
              (fun ev Hev => Hev) s) as (tr & Ht & Hf).
  rewrite H in Ht. eauto.
Qed.

(** Every run of [resize_mesh]: either it raises before the export call,
    with nothing exported, or it has printed both reports, shown the
    scaled mesh in the viewer, and ends with the export call. *)
Lemma resize_mesh_run (args : Namespace) (w : World) (r : outcome pyval)
    (st : state World Mesh) :
  run (resize_mesh lib args) w = (r, st) ->
  (exists e, r = Raises e /\ exports (trace st) = []) \/
  (exists m w1 ext w2 nv w3 nf w4 m' w5 nv' w6 nf' w7 ext' sd se o,
     lib_trimesh_load lib (input args) w = (Returns m, w1) /\
     lib_extents lib m w1 = (Returns ext, w2) /\
     lib_len_vertices lib m w2 = (Returns nv, w3) /\
     lib_len_faces lib m w3 = (Returns nf, w4) /\
     lib_apply_scale lib m (resize_scale (size args) (extents_min ext)) w4
       = (Returns m', w5) /\
     lib_len_vertices lib m' w5 = (Returns nv', w6) /\
     lib_len_faces lib m' w6 = (Returns nf', w7) /\
     lib_extents lib m' w7 = (Returns ext', world sd) /\
     trace sd
     = resize_report (input args) m ext nv nf
         (resize_scale (size args) (extents_min ext)) m' nv' nf' ext' /\
     display_mesh lib (inr m') true sd = (Returns PyNone, se) /\
     lib_export lib m' (output args) (world se) = (o, world st) /\
     trace st = (trace se ++ [Call (mesh_export m' (output args))])%list /\
     match o with
     | Returns _ => r = Returns PyNone
     | Raises e => r = Raises e
     end).
Proof.
  unfold run, resize_mesh. intros H.
  set (s0 := {| trace := []; world := w |}) in H.
  step H Hc1 m s1; apply call_trace in Hc1 as [Hf1 Ht1];
    cbn [s0 world trace app] in Hf1, Ht1;
    [| left; eexists; split; [reflexivity | rewrite Ht1; reflexivity]].
  step H Hc2 ext s2; apply call_trace in Hc2 as [Hf2 Ht2];
    rewrite Ht1 in Ht2; cbn [app] in Ht2;
    [| left; eexists; split; [reflexivity | rewrite Ht2; reflexivity]].
  step H Hc3 a3 s3; apply print_trace in Hc3 as (E3 & Hw3 & Ht3);
    rewrite Ht2 in Ht3; cbn [app] in Ht3; [| discriminate].
  step H Hc4 nv s4; apply call_trace in Hc4 as [Hf4 Ht4];
    rewrite Hw3 in Hf4; rewrite Ht3 in Ht4; cbn [app] in Ht4;
    [| left; eexists; split; [reflexivity | rewrite Ht4; reflexivity]].
  step H Hc5 a5 s5; apply print_trace in Hc5 as (E5 & Hw5 & Ht5);
    rewrite Ht4 in Ht5; cbn [app] in Ht5; [| discriminate].
  step H Hc6 nf s6; apply call_trace in Hc6 as [Hf6 Ht6];
    rewrite Hw5 in Hf6; rewrite Ht5 in Ht6; cbn [app] in Ht6;
    [| left; eexists; split; [reflexivity | rewrite Ht6; reflexivity]].
  step H Hc7 a7 s7; apply print_trace in Hc7 as (E7 & Hw7 & Ht7);
    rewrite Ht6 in Ht7; cbn [app] in Ht7; [| discriminate].
  step H Hc8 a8 s8; apply print_trace in Hc8 as (E8 & Hw8 & Ht8);
    rewrite Ht7 in Ht8; cbn [app] in Ht8; rewrite Hw7 in Hw8;
    [| discriminate].
  step H Hc9 m' s9; apply call_trace in Hc9 as [Hf9 Ht9];
    rewrite Hw8 in Hf9; rewrite Ht8 in Ht9; cbn [app] in Ht9;
    [| left; eexists; split; [reflexivity | rewrite Ht9; reflexivity]].
  step H Hc10 a10 s10; apply print_trace in Hc10 as (E10 & Hw10 & Ht10);
    rewrite Ht9 in Ht10; cbn [app] in Ht10; [| discriminate].
  step H Hc11 nv' s11; apply call_trace in Hc11 as [Hf11 Ht11];
    rewrite Hw10 in Hf11; rewrite Ht10 in Ht11; cbn [app] in Ht11;
    [| left; eexists; split; [reflexivity | rewrite Ht11; reflexivity]].
  step H Hc12 a12 s12; apply print_trace in Hc12 as (E12 & Hw12 & Ht12);
    rewrite Ht11 in Ht12; cbn [app] in Ht12; [| discriminate].
  step H Hc13 nf' s13; apply call_trace in Hc13 as [Hf13 Ht13];
    rewrite Hw12 in Hf13; rewrite Ht12 in Ht13; cbn [app] in Ht13;
    [| left; eexists; split; [reflexivity | rewrite Ht13; reflexivity]].
  step H Hc14 a14 s14; apply print_trace in Hc14 as (E14 & Hw14 & Ht14);
    rewrite Ht13 in Ht14; cbn [app] in Ht14; [| discriminate].
  step H Hc15 ext' s15; apply call_trace in Hc15 as [Hf15 Ht15];
    rewrite Hw14 in Hf15; rewrite Ht14 in Ht15; cbn [app] in Ht15;
    [| left; eexists; split; [reflexivity | rewrite Ht15; reflexivity]].
  step H Hc16 a16 s16; apply print_trace in Hc16 as (E16 & Hw16 & Ht16);
    rewrite Ht15 in Ht16; cbn [app] in Ht16; [| discriminate].
  rewrite <- Hw16 in Hf15.
  step H Hc17 a17 s17.
  2:{ left. eexists. split; [reflexivity |].
      apply display_mesh_appends in Hc17 as (tr & Ht & Hv).
      rewrite Ht, exports_app, (exports_viewer tr Hv), Ht16. reflexivity. }
  pose proof (display_mesh_completed lib _ _ _ _ _ Hc17) as [-> _].
  right.
  exists m, (world s1), ext, (world s2), nv, (world s4), nf, (world s6),
    m', (world s9), nv', (world s11), nf', (world s13), ext', s16, s17.
  step H Hc18 a18 s18; apply call_trace in Hc18 as [Hf18 Ht18].
  2:{ match type of Hf18 with _ = (?o, _) => exists o end.
      repeat (split; [assumption |]). reflexivity. }
  apply ret_inv in H as [-> ->].
  exists (Returns a18). repeat (split; [assumption |]). reflexivity.
Qed.

End ResizeTrace.

(** ** Exceptions in [resize_mesh] *)

Section ResizeRaises.

Context {World Mesh : Type} (lib : Library World Mesh) (args : Namespace).

Implicit Types (w : World) (m : Mesh) (ext : float * float * float).

(** The loaded mesh has been read and measured, lines 183-189. *)
Definition measured w m ext (nv nf : Z) (w4 : World) : Prop :=
  exists w1 w2 w3,
    lib_trimesh_load lib (input args) w = (Returns m, w1) /\
    lib_extents lib m w1 = (Returns ext, w2) /\
    lib_len_vertices lib m w2 = (Returns nv, w3) /\
    lib_len_faces lib m w3 = (Returns nf, w4).

(** It has then been scaled and measured again, lines 190-195. *)
Definition rescaled m ext (w4 : World) (m' : Mesh) (nv' nf' : Z) ext'
    (w8 : World) : Prop :=
  exists w5 w6 w7,
    lib_apply_scale lib m (resize_scale (size args) (extents_min ext)) w4
      = (Returns m', w5) /\
    lib_len_vertices lib m' w5 = (Returns nv', w6) /\
    lib_len_faces lib m' w6 = (Returns nf', w7) /\
    lib_extents lib m' w7 = (Returns ext', w8).

(** The state in which [display_mesh] is entered, line 196. *)
Definition before_viewer m ext (nv nf : Z) (m' : Mesh) (nv' nf' : Z) ext'
    (w8 : World) : state World Mesh :=
  {| trace := resize_report (input args) m ext nv nf
                (resize_scale (size args) (extents_min ext)) m' nv' nf' ext';
     world := w8 |}.

(** A library call made by [resize_mesh] raises [e]: each constructor
    names the call, all the calls before it having returned.  The calls
    of the viewer are those of [display_mesh]. *)
Inductive resize_raises (w : World) (e : exn) : Prop :=
| raised_by_load w' :
    lib_trimesh_load lib (input args) w = (Raises e, w') ->
    resize_raises w e
| raised_by_extents m w1 w' :
    lib_trimesh_load lib (input args) w = (Returns m, w1) ->
    lib_extents lib m w1 = (Raises e, w') ->
    resize_raises w e
| raised_by_len_vertices m w1 ext w2 w' :
    lib_trimesh_load lib (input args) w = (Returns m, w1) ->
    lib_extents lib m w1 = (Returns ext, w2) ->
    lib_len_vertices lib m w2 = (Raises e, w') ->
    resize_raises w e
| raised_by_len_faces m w1 ext w2 nv w3 w' :
    lib_trimesh_load lib (input args) w = (Returns m, w1) ->
    lib_extents lib m w1 = (Returns ext, w2) ->
    lib_len_vertices lib m w2 = (Returns nv, w3) ->
    lib_len_faces lib m w3 = (Raises e, w') ->
    resize_raises w e
| raised_by_apply_scale m ext nv nf w4 w' :
    measured w m ext nv nf w4 ->
    lib_apply_scale lib m (resize_scale (size args) (extents_min ext)) w4
      = (Raises e, w') ->
    resize_raises w e
| raised_by_len_vertices_after m ext nv nf w4 m' w5 w' :
    measured w m ext nv nf w4 ->
    lib_apply_scale lib m (resize_scale (size args) (extents_min ext)) w4
      = (Returns m', w5) ->
    lib_len_vertices lib m' w5 = (Raises e, w') ->
    resize_raises w e
| raised_by_len_faces_after m ext nv nf w4 m' w5 nv' w6 w' :
    measured w m ext nv nf w4 ->
    lib_apply_scale lib m (resize_scale (size args) (extents_min ext)) w4
      = (Returns m', w5) ->
    lib_len_vertices lib m' w5 = (Returns nv', w6) ->
    lib_len_faces lib m' w6 = (Raises e, w') ->
    resize_raises w e
| raised_by_extents_after m ext nv nf w4 m' w5 nv' w6 nf' w7 w' :
    measured w m ext nv nf w4 ->
    lib_apply_scale lib m (resize_scale (size args) (extents_min ext)) w4
      = (Returns m', w5) ->
    lib_len_vertices lib m' w5 = (Returns nv', w6) ->
    lib_len_faces lib m' w6 = (Returns nf', w7) ->
    lib_extents lib m' w7 = (Raises e, w') ->
    resize_raises w e
| raised_by_viewer m ext nv nf w4 m' nv' nf' ext' w8 se :
    measured w m ext nv nf w4 ->
    rescaled m ext w4 m' nv' nf' ext' w8 ->
    display_mesh lib (inr m') true
      (before_viewer m ext nv nf m' nv' nf' ext' w8) = (Raises e, se) ->
    resize_raises w e
| raised_by_export m ext nv nf w4 m' nv' nf' ext' w8 se w' :
    measured w m ext nv nf w4 ->
    rescaled m ext w4 m' nv' nf' ext' w8 ->
    display_mesh lib (inr m') true
      (before_viewer m ext nv nf m' nv' nf' ext' w8) = (Returns PyNone, se) ->
    lib_export lib m' (output args) (world se) = (Raises e, w') ->
    resize_raises w e.

End ResizeRaises.

(** Running a script forward over calls that are known to return. *)
Ltac run_call H :=
  erewrite bind_Returns by (apply call_eq; exact H); cbv beta zeta.
Ltac run_print :=
  erewrite bind_Returns by reflexivity; cbv beta zeta.
Ltac run_raise H :=
  eexists; apply bind_Raises; apply call_eq; exact H.

Section ResizePropagates.

Context {World Mesh : Type} (lib : Library World Mesh) (args : Namespace).

(** [resize_mesh] has no handler: whichever of its library calls raises,
    that exception is what the run raises. *)
Lemma resize_raises_run (w : World) (e : exn) :
  resize_raises lib args w e ->
  exists st, run (resize_mesh lib args) w = (Raises e, st).
Proof.
  unfold run, resize_mesh, measured, rescaled, before_viewer.
  intros [w' H1
         | m w1 w' H1 H2
         | m w1 ext w2 w' H1 H2 H3
         | m w1 ext w2 nv w3 w' H1 H2 H3 H4
         | m ext nv nf w4 w' (w1 & w2 & w3 & H1 & H2 & H3 & H4) H5
         | m ext nv nf w4 m' w5 w' (w1 & w2 & w3 & H1 & H2 & H3 & H4) H5 H6
         | m ext nv nf w4 m' w5 nv' w6 w'
             (w1 & w2 & w3 & H1 & H2 & H3 & H4) H5 H6 H7
         | m ext nv nf w4 m' w5 nv' w6 nf' w7 w'
             (w1 & w2 & w3 & H1 & H2 & H3 & H4) H5 H6 H7 H8
         | m ext nv nf w4 m' nv' nf' ext' w8 se
             (w1 & w2 & w3 & H1 & H2 & H3 & H4)
             (w5 & w6 & w7 & H5 & H6 & H7 & H8) H9
         | m ext nv nf w4 m' nv' nf' ext' w8 se w'
             (w1 & w2 & w3 & H1 & H2 & H3 & H4)
             (w5 & w6 & w7 & H5 & H6 & H7 & H8) H9 H10].
  - run_raise H1.
  - run_call H1. run_raise H2.
  - run_call H1. run_call H2. run_print. run_raise H3.
  - run_call H1. run_call H2. run_print. run_call H3. run_print.
    run_raise H4.
  - run_call H1. run_call H2. run_print. run_call H3. run_print.
    run_call H4. run_print. run_print. run_raise H5.
  - run_call H1. run_call H2. run_print. run_call H3. run_print.
    run_call H4. run_print. run_print. run_call H5. run_print.
    run_raise H6.
  - run_call H1. run_call H2. run_print. run_call H3. run_print.
    run_call H4. run_print. run_print. run_call H5. run_print.
    run_call H6. run_print. run_raise H7.
  - run_call H1. run_call H2. run_print. run_call H3. run_print.
    run_call H4. run_print. run_print. run_call H5. run_print.
    run_call H6. run_print. run_call H7. run_print. run_raise H8.
  - run_call H1. run_call H2. run_print. run_call H3. run_print.
    run_call H4. run_print. run_print. run_call H5. run_print.
    run_call H6. run_print. run_call H7. run_print. run_call H8.
    run_print. eexists. apply bind_Raises. exact H9.
  - run_call H1. run_call H2. run_print. run_call H3. run_print.
    run_call H4. run_print. run_print. run_call H5. run_print.
    run_call H6. run_print. run_call H7. run_print. run_call H8.
    run_print. erewrite bind_Returns by exact H9. run_raise H10.
Qed.

End ResizePropagates.

(** One step of a run that is known to end with an exception. *)
Ltac step_raising H Hc a s :=
  cbv beta zeta in H;
  apply bind_inv in H;
  destruct H as [(a & s & Hc & H) | (? & Hc & H)];
  [| injection H as <-].

Section ResizeOutcome.

Context {World Mesh : Type} (lib : Library World Mesh) (args : Namespace).

Lemma state_eq (s : state World Mesh) (tr : list (event Mesh)) (w : World) :
  trace s = tr -> world s = w -> s = {| trace := tr; world := w |}.
Proof. destruct s. cbn. intros -> ->. reflexivity. Qed.

(** Conversely, every exception that leaves [resize_mesh] was raised by one
    of its library calls. *)
Lemma resize_run_raises (w : World) (e : exn) (st : state World Mesh) :
  run (resize_mesh lib args) w = (Raises e, st) ->
  resize_raises lib args w e.
Proof.
  unfold run, resize_mesh. intros H.
  set (s0 := {| trace := []; world := w |}) in H.
  step_raising H Hc1 m s1; apply call_trace in Hc1 as [Hf1 Ht1];
    cbn [s0 world trace app] in Hf1, Ht1;
    [| eapply raised_by_load; eassumption].
  step_raising H Hc2 ext s2; apply call_trace in Hc2 as [Hf2 Ht2];
    rewrite Ht1 in Ht2; cbn [app] in Ht2;
    [| eapply raised_by_extents; eassumption].
  step_raising H Hc3 a3 s3; apply print_trace in Hc3 as (E3 & Hw3 & Ht3);
    rewrite Ht2 in Ht3; cbn [app] in Ht3; [| discriminate].
  step_raising H Hc4 nv s4; apply call_trace in Hc4 as [Hf4 Ht4];
    rewrite Hw3 in Hf4; rewrite Ht3 in Ht4; cbn [app] in Ht4;
    [| eapply raised_by_len_vertices; eassumption].
  step_raising H Hc5 a5 s5; apply print_trace in Hc5 as (E5 & Hw5 & Ht5);
    rewrite Ht4 in Ht5; cbn [app] in Ht5; [| discriminate].
  step_raising H Hc6 nf s6; apply call_trace in Hc6 as [Hf6 Ht6];
    rewrite Hw5 in Hf6; rewrite Ht5 in Ht6; cbn [app] in Ht6;
    [| eapply raised_by_len_faces; eassumption].
  assert (Hmeasured : measured lib args w m ext nv nf (world s6)).
  { exists (world s1), (world s2), (world s4). auto. }
  step_raising H Hc7 a7 s7; apply print_trace in Hc7 as (E7 & Hw7 & Ht7);
    rewrite Ht6 in Ht7; cbn [app] in Ht7; [| discriminate].
  step_raising H Hc8 a8 s8; apply print_trace in Hc8 as (E8 & Hw8 & Ht8);
    rewrite Ht7 in Ht8; cbn [app] in Ht8; rewrite Hw7 in Hw8;
    [| discriminate].
  step_raising H Hc9 m' s9; apply call_trace in Hc9 as [Hf9 Ht9];
    rewrite Hw8 in Hf9; rewrite Ht8 in Ht9; cbn [app] in Ht9;
    [| eapply raised_by_apply_scale; eassumption].
  step_raising H Hc10 a10 s10; apply print_trace in Hc10 as (E10 & Hw10 & Ht10);
    rewrite Ht9 in Ht10; cbn [app] in Ht10; [| discriminate].
  step_raising H Hc11 nv' s11; apply call_trace in Hc11 as [Hf11 Ht11];
    rewrite Hw10 in Hf11; rewrite Ht10 in Ht11; cbn [app] in Ht11;
    [| eapply raised_by_len_vertices_after; eassumption].
  step_raising H Hc12 a12 s12; apply print_trace in Hc12 as (E12 & Hw12 & Ht12);
    rewrite Ht11 in Ht12; cbn [app] in Ht12; [| discriminate].
  step_raising H Hc13 nf' s13; apply call_trace in Hc13 as [Hf13 Ht13];
    rewrite Hw12 in Hf13; rewrite Ht12 in Ht13; cbn [app] in Ht13;
    [| eapply raised_by_len_faces_after; eassumption].
  step_raising H Hc14 a14 s14; apply print_trace in Hc14 as (E14 & Hw14 & Ht14);
    rewrite Ht13 in Ht14; cbn [app] in Ht14; [| discriminate].
  step_raising H Hc15 ext' s15; apply call_trace in Hc15 as [Hf15 Ht15];
    rewrite Hw14 in Hf15; rewrite Ht14 in Ht15; cbn [app] in Ht15;
    [| eapply raised_by_extents_after; eassumption].
  assert (Hrescaled :
            rescaled lib args m ext (world s6) m' nv' nf' ext' (world s15)).
  { exists (world s9), (world s11), (world s13). auto. }
  step_raising H Hc16 a16 s16; apply print_trace in Hc16 as (E16 & Hw16 & Ht16);
    rewrite Ht15 in Ht16; cbn [app] in Ht16; [| discriminate].
  assert (E : s16 = before_viewer args m ext nv nf m' nv' nf' ext' (world s15))
    by (apply state_eq; assumption).
  rewrite E in H. clear E.
  step_raising H Hc17 a17 s17; [| eapply raised_by_viewer; eassumption].
  pose proof (display_mesh_completed lib _ _ _ _ _ Hc17) as [-> _].
  step_raising H Hc18 a18 s18; apply call_trace in Hc18 as [Hf18 Ht18].
  - apply ret_inv in H as [H _]. discriminate.
  - eapply raised_by_export; eassumption.
Qed.

End ResizeOutcome.

(** What [resize_mesh] writes: the lines of its two reports, nothing
    else, and no traceback. *)
Definition is_report (m : message) : Prop :=
  match m with
  | MsgOriginalInfo | MsgResizedInfo
  | MsgVertices _ | MsgFaces _ | MsgExtents _ => True
  | _ => False
  end.

Definition call_or_report {Mesh} (ev : event Mesh) : Prop :=
  match ev with
  | Call _ => True
  | Stdout m => is_report m
  | _ => False
  end.

Lemma resize_mesh_reports_only {World Mesh} (lib : Library World Mesh)
    (args : Namespace) :
  emits call_or_report (resize_mesh lib args).
Proof.
  unfold resize_mesh. cbv zeta.
  repeat first
    [ apply emits_ret
    | apply emits_print; exact I
    | apply emits_call; exact I
    | apply display_mesh_emits;
      let ev := fresh "ev" in
      intros ev; destruct ev as [| | | []]; cbn; tauto
    | apply emits_bind; [| intros ?] ].
Qed.

(** C1 (as amended). [simplify_textured_mesh] catches every [Exception]
    raised in its body, prints it when [verbose] is set (and prints nothing
    otherwise), and returns [None]; no [Exception] leaves it.
    [dowsample_mesh] catches every [Exception] raised in its [try] block,
    prints it (message and traceback) and returns 1.  Its argument check is
    outside the [try]: with the parser of the [__main__] block it exits
    through [parser.error] ([SystemExit] 2); where the global [parser] is
    not bound, line 161 raises [NameError], which reaches the caller, and
    that is the only [Exception] that can leave [dowsample_mesh].
    [resize_mesh] has no handler: the exceptions that leave it are exactly
    those its library calls raise, the calls of the viewer included, and
    it prints nothing but its two reports. *)
Theorem C1_exception_handling {World Mesh} (lib : Library World Mesh)
    (input_path output_path : string)
    (faces : option Z) (ratio : option float)
    (texture_weight : float) (preserve_boundary : bool)
    (boundary_weight quality_threshold : float)
    (planar optimal_placement verbose : bool)
    (args : Namespace) (w : World) :
  let body :=
    simplify_body lib input_path output_path faces ratio
      texture_weight preserve_boundary boundary_weight quality_threshold
      planar optimal_placement verbose in
  let whole :=
    simplify_textured_mesh lib input_path output_path faces
      ratio texture_weight preserve_boundary boundary_weight
      quality_threshold planar optimal_placement verbose in
  let checked :=
    truthy_int (target_faces args) || truthy_float (reduction_ratio args) in
  (* simplify_textured_mesh *)
  (forall e st,
     run body w = (Raises e, st) -> is_Exception e = true ->
     run whole w
       = (Returns PyNone,
          {| trace := trace st ++ (if verbose then [Stdout (MsgFailed e)] else []);
             world := world st |})) /\
  (forall e st, run whole w = (Raises e, st) -> is_Exception e = false) /\
  (* dowsample_mesh *)
  (forall p e st,
     checked = true ->
     run (dowsample_try lib args) w = (Raises e, st) ->
     is_Exception e = true ->
     run (dowsample_mesh lib p args) w
       = (Returns (PyInt 1),
          {| trace := trace st ++ [Stdout (MsgError e); Traceback e];
             world := world st |})) /\
  (checked = false ->
   run (dowsample_mesh lib parser_of_main args) w
     = (Raises (SystemExit 2),
        {| trace := [ParserError
                       "You must specify either --target-faces or --reduction-ratio"];
           world := w |}) /\
   run (dowsample_mesh lib parser_unbound args) w
     = (Raises (NameError "name 'parser' is not defined"),
        {| trace := []; world := w |})) /\
  (forall p e st,
     run (dowsample_mesh lib p args) w = (Raises e, st) ->
     is_Exception e = true ->
     p = parser_unbound /\ checked = false /\
     e = NameError "name 'parser' is not defined") /\
  (* resize_mesh *)
  (forall e,
     resize_raises lib args w e <->
     exists st, run (resize_mesh lib args) w = (Raises e, st)) /\
  Forall call_or_report (trace (snd (run (resize_mesh lib args) w))).
Proof.
  cbv zeta. repeat split.
  - intros e st Hbody He.
    unfold run, simplify_textured_mesh.
    erewrite bind_Returns; [reflexivity |].
    rewrite (try_except_caught _ _ _ _ _ Hbody He).
    destruct verbose; cbn; [reflexivity |].
    rewrite app_nil_r. destruct st; reflexivity.
  - intros e st. apply simplify_textured_mesh_Raises.
  - intros p e st Hguard Htry He.
    apply dowsample_mesh_caught; assumption.
  - unfold run, dowsample_mesh.
    rewrite <- negb_orb, H. reflexivity.
  - unfold run, dowsample_mesh.
    rewrite <- negb_orb, H. reflexivity.
  - apply dowsample_mesh_Raises in H as [He | (Hp & _)];
      [congruence | exact Hp].
  - apply dowsample_mesh_Raises in H as [He | (_ & Hg & _)];
      [congruence | exact Hg].
  - apply dowsample_mesh_Raises in H as [He | (_ & _ & He & _)];
      [congruence | exact He].
  - apply resize_raises_run.
  - intros [st H]. eapply resize_run_raises. exact H.
  - apply emits_run, resize_mesh_reports_only.
Qed.

Lemma C1_exception_handling_witness :
  let st := {| trace := [Call (os_path_exists "missing.obj")];
               world := Demo.disk |} in
  let e := FileNotFoundError "Input file missing.obj not found" in
  run (simplify_body Demo.lib "missing.obj" "out.obj" (Some 6) None
         default_texture_weight true default_boundary_weight
         default_quality_threshold false true true) Demo.disk = (Raises e, st) /\
  is_Exception e = true /\
  run (simplify_textured_mesh Demo.lib "missing.obj" "out.obj" (Some 6) None
         default_texture_weight true default_boundary_weight
         default_quality_threshold false true true) Demo.disk
    = (Returns PyNone,
       {| trace := [Call (os_path_exists "missing.obj"); Stdout (MsgFailed e)];
          world := Demo.disk |}) /\
  resize_raises Demo.lib
    (Demo.cli "missing.obj" "out.obj" false None None None) Demo.disk
    (LibraryError "cannot load file").
Proof.
  cbv zeta. split; [reflexivity |]. split; [reflexivity |]. split.
  - apply (proj1 (C1_exception_handling Demo.lib "missing.obj" "out.obj"
                    (Some 6) None default_texture_weight true
                    default_boundary_weight default_quality_threshold false
                    true true
                    (Demo.cli "missing.obj" "out.obj" false None None None)
                    Demo.disk)
             (FileNotFoundError "Input file missing.obj not found")
             {| trace := [Call (os_path_exists "missing.obj")];
                world := Demo.disk |});
      reflexivity.
  - apply (proj2 (C1_exception_handling Demo.lib "missing.obj" "out.obj"
                    (Some 6) None default_texture_weight true
                    default_boundary_weight default_quality_threshold false
                    true true
                    (Demo.cli "missing.obj" "out.obj" false None None None)
                    Demo.disk)).
    eexists. reflexivity.
Defined.

(** The claim as written fails three times: [resize_mesh] lets the
    exception of a failed load through with nothing printed; a non-verbose
    [simplify_textured_mesh] swallows its exception silently; and
    [dowsample_mesh], called where [parser] is not bound, lets a
    [NameError] through. *)
Lemma C1_counterexample :
  run (resize_mesh Demo.lib
         (Demo.cli "missing.obj" "out.obj" false None None None)) Demo.disk
    = (Raises (LibraryError "cannot load file"),
       {| trace := [Call (trimesh_load "missing.obj")]; world := Demo.disk |}) /\
  run (simplify_textured_mesh Demo.lib "missing.obj" "out.obj" (Some 6) None
         default_texture_weight true default_boundary_weight
         default_quality_threshold false true false) Demo.disk
    = (Returns PyNone,
       {| trace := [Call (os_path_exists "missing.obj")]; world := Demo.disk |}) /\
  run (dowsample_mesh Demo.lib parser_unbound
         (Demo.cli "in.obj" "out.obj" true None None None)) Demo.disk
    = (Raises (NameError "name 'parser' is not defined"),
       {| trace := []; world := Demo.disk |}).
Proof. repeat split. Qed.

Lemma printed_app {Mesh} (tr1 tr2 : list (event Mesh)) :
  printed (tr1 ++ tr2) = (printed tr1 ++ printed tr2)%list.
Proof. apply flat_map_app. Qed.

(** X11. A resize that completes measures the loaded mesh, scales it once,
    measures the mesh [apply_scale] gave back, shows that mesh with its
    bounding box, and exports it as the very last call.  The first report
    is about the mesh as loaded, the second about the scaled one. *)
Theorem completed_resize_trace {World Mesh} (lib : Library World Mesh)
    (args : Namespace) (w : World) (v : pyval) (st : state World Mesh) :
  run (resize_mesh lib args) w = (Returns v, st) ->
  exists m w1 ext w2 nv w3 nf w4 m' w5 nv' w6 nf' w7 ext' w8,
    let s := resize_scale (size args) (extents_min ext) in
    lib_trimesh_load lib (input args) w = (Returns m, w1) /\
    lib_extents lib m w1 = (Returns ext, w2) /\
    lib_len_vertices lib m w2 = (Returns nv, w3) /\
    lib_len_faces lib m w3 = (Returns nf, w4) /\
    lib_apply_scale lib m s w4 = (Returns m', w5) /\
    lib_len_vertices lib m' w5 = (Returns nv', w6) /\
    lib_len_faces lib m' w6 = (Returns nf', w7) /\
    lib_extents lib m' w7 = (Returns ext', w8) /\
    trace st
    = (resize_report (input args) m ext nv nf s m' nv' nf' ext'
       ++ map Call (viewer_calls m' true)
       ++ [Call (mesh_export m' (output args))])%list /\
    printed (trace st)
    = [MsgOriginalInfo; MsgVertices nv; MsgFaces nf; MsgExtents ext;
       MsgResizedInfo; MsgVertices nv'; MsgFaces nf'; MsgExtents ext'].
Proof.
  intros H. apply resize_mesh_run in H as [(e & He & _) | H];
    [discriminate |].
  destruct H as (m & w1 & ext & w2 & nv & w3 & nf & w4 & m' & w5 & nv' & w6
                 & nf' & w7 & ext' & sd & se & o & H1 & H2 & H3 & H4 & H5
                 & H6 & H7 & H8 & Hsd & Hdisp & Hexp & Htr & Ho).
  exists m, w1, ext, w2, nv, w3, nf, w4, m', w5, nv', w6, nf', w7, ext',
    (world sd).
  cbv zeta. repeat (split; [assumption |]).
  apply display_mesh_completed in Hdisp as (_ & m0 & -> & Hse).
  cbn [app] in Hse. rewrite Hsd in Hse.
  assert (Hst : trace st
                = (resize_report (input args) m ext nv nf
                     (resize_scale (size args) (extents_min ext)) m' nv' nf'
                     ext'
                   ++ map Call (viewer_calls m' true)
                   ++ [Call (mesh_export m' (output args))])%list).
  { rewrite Htr, Hse, <- app_assoc. reflexivity. }
  split; [exact Hst |].
  rewrite Hst, !printed_app, printed_map_Call. reflexivity.
Qed.

Lemma completed_resize_trace_witness :
  printed (trace (snd (run (resize_mesh Demo.lib
                              (Demo.cli "in.obj" "out.obj" false
                                 (Some Demo.two) None None)) Demo.disk)))
  = [MsgOriginalInfo; MsgVertices 2; MsgFaces 12;
     MsgExtents (PyFloat.one, Demo.two, Demo.two);
     MsgResizedInfo; MsgVertices 2; MsgFaces 12;
     MsgExtents (Demo.two, S754_finite false 4503599627370496 (-50),
                 S754_finite false 4503599627370496 (-50))].
Proof.
  assert (Hrun :
    run (resize_mesh Demo.lib
           (Demo.cli "in.obj" "out.obj" false (Some Demo.two) None None))
        Demo.disk
    = (Returns PyNone,
       snd (run (resize_mesh Demo.lib
                   (Demo.cli "in.obj" "out.obj" false (Some Demo.two)
                      None None)) Demo.disk)))
    by (vm_compute; reflexivity).
  destruct (completed_resize_trace Demo.lib
              (Demo.cli "in.obj" "out.obj" false (Some Demo.two) None None)
              Demo.disk PyNone _ Hrun)
    as (m & w1 & ext & w2 & nv & w3 & nf & w4 & m' & w5 & nv' & w6 & nf'
        & w7 & ext' & w8 & Hall).
  cbv zeta in Hall.
  destruct Hall as (H1 & H2 & H3 & H4 & H5 & H6 & H7 & H8 & _ & Hp).
  rewrite Hp. clear Hp Hrun.
  injection H1 as <- <-. injection H2 as <- <-. injection H3 as <- <-.
  injection H4 as <- <-. injection H5 as <- <-. injection H6 as <- <-.
  injection H7 as <- <-. injection H8 as <- <-.
  vm_compute. reflexivity.
Defined.

(** X12. The export is the last step of [resize_mesh] and comes after the
    viewer.  Whatever a run exports, it exports the scaled mesh to
    [args.output], once, after [display_mesh] has returned on that mesh;
    and when the viewer raises (no display, say), the exception leaves
    [resize_mesh] and the scaled mesh is never written. *)
Theorem resize_exports_after_viewer {World Mesh} (lib : Library World Mesh)
    (args : Namespace) (w : World) (r : outcome pyval)
    (st : state World Mesh) :
  run (resize_mesh lib args) w = (r, st) ->
  ((exists e, r = Raises e) /\ exports (trace st) = []) \/
  (exists m' sd se,
     exports (trace st) = [(m', output args)] /\
     display_mesh lib (inr m') true sd = (Returns PyNone, se) /\
     trace st = (trace se ++ [Call (mesh_export m' (output args))])%list /\
     In (Call scene_show) (trace se) /\
     exports (trace se) = []).
Proof.
  intros H. apply resize_mesh_run in H as [(e & He & Hx) | H];
    [left; eauto |].
  destruct H as (m & w1 & ext & w2 & nv & w3 & nf & w4 & m' & w5 & nv' & w6
                 & nf' & w7 & ext' & sd & se & o & H1 & H2 & H3 & H4 & H5
                 & H6 & H7 & H8 & Hsd & Hdisp & Hexp & Htr & Ho).
  right. exists m', sd, se.
  pose proof (display_mesh_appends lib _ _ _ _ _ Hdisp) as (tr & Hse & Hv).
  assert (Hx : exports (trace se) = []).
  { rewrite Hse, exports_app, (exports_viewer tr Hv), Hsd. reflexivity. }
  split; [rewrite Htr, exports_app, Hx; reflexivity |].
  split; [exact Hdisp |]. split; [exact Htr |]. split; [| exact Hx].
  apply display_mesh_completed in Hdisp as (_ & m0 & -> & ->).
  apply in_or_app. right. cbn. auto 10.
Qed.

(** The demo libraries on a machine without a display. *)
Definition headless_lib : Library Demo.world Demo.mesh :=
  {| lib_path_exists := lib_path_exists Demo.lib;
     lib_MeshSet := lib_MeshSet Demo.lib;
     lib_load_new_mesh := lib_load_new_mesh Demo.lib;
     lib_face_number := lib_face_number Demo.lib;
     lib_decimation := lib_decimation Demo.lib;
     lib_save_current_mesh := lib_save_current_mesh Demo.lib;
     lib_trimesh_load := lib_trimesh_load Demo.lib;
     lib_extents := lib_extents Demo.lib;
     lib_len_vertices := lib_len_vertices Demo.lib;
     lib_len_faces := lib_len_faces Demo.lib;
     lib_apply_scale := lib_apply_scale Demo.lib;
     lib_export := lib_export Demo.lib;
     lib_Scene := lib_Scene Demo.lib;
     lib_creation_axis := lib_creation_axis Demo.lib;
     lib_set_face_colors := lib_set_face_colors Demo.lib;
     lib_add_geometry := lib_add_geometry Demo.lib;
     lib_show := fun w => (Raises (LibraryError "no display"), w) |}.

Lemma resize_exports_after_viewer_witness :
  let args := Demo.cli "in.obj" "out.obj" false (Some Demo.two) None None in
  fst (run (resize_mesh headless_lib args) Demo.disk)
    = Raises (LibraryError "no display") /\
  exports (trace (snd (run (resize_mesh headless_lib args) Demo.disk))) = [] /\
  exists m',
    exports (trace (snd (run (resize_mesh Demo.lib args) Demo.disk)))
      = [(m', "out.obj")] /\
    In (Call scene_show)
       (trace (snd (run (resize_mesh Demo.lib args) Demo.disk))).
Proof.
  cbv zeta.
  assert (E1 : fst (run (resize_mesh headless_lib
                           (Demo.cli "in.obj" "out.obj" false (Some Demo.two)
                              None None)) Demo.disk)
               = Raises (LibraryError "no display"))
    by (vm_compute; reflexivity).
  assert (E2 : fst (run (resize_mesh Demo.lib
                           (Demo.cli "in.obj" "out.obj" false (Some Demo.two)
                              None None)) Demo.disk)
               = Returns PyNone)
    by (vm_compute; reflexivity).
  split; [exact E1 |]. split.
  - destruct (resize_exports_after_viewer headless_lib
                (Demo.cli "in.obj" "out.obj" false (Some Demo.two) None None)
                Demo.disk _ _ (surjective_pairing _))
      as [[_ Hx] | (m' & sd & se & Hx & Hd & Ht & _)]; [exact Hx |].
    exfalso.
    assert (E3 : In (Call (mesh_export m' "out.obj"))
                   (trace (snd (run (resize_mesh headless_lib
                      (Demo.cli "in.obj" "out.obj" false (Some Demo.two)
                         None None)) Demo.disk))))
      by (rewrite Ht; apply in_or_app; right; left; reflexivity).
    revert E3. vm_compute. intuition discriminate.
  - destruct (resize_exports_after_viewer Demo.lib
                (Demo.cli "in.obj" "out.obj" false (Some Demo.two) None None)
                Demo.disk _ _ (surjective_pairing _))
      as [[[e He] _] | (m' & sd & se & Hx & _ & Ht & Hshow & _)].
    + rewrite E2 in He. discriminate He.
    + exists m'. split; [exact Hx |]. rewrite Ht. apply in_or_app. auto.
Defined.

(** ** A mesh without thickness *)

(** The smallest of three extents none of which is negative or NaN is a
    zero as soon as one of them is. *)
Lemma extents_min_zero (x y z : float) :
  nonneg x -> nonneg y -> nonneg z ->
  (exists s, x = S754_zero s) \/ (exists s, y = S754_zero s) \/
  (exists s, z = S754_zero s) ->
  exists s, extents_min (x, y, z) = S754_zero s.
Proof.
  unfold extents_min, PyFloat.np_min2, PyFloat.ltb, SFltb.
  destruct x as [sx | sx | | sx mx ex], y as [sy | sy | | sy my ey],
    z as [sz | sz | | sz mz ez]; cbn [nonneg];
    try contradiction; intros Hx Hy Hz; subst;
    intros [[s E] | [[s E] | [s E]]]; try discriminate E;
    cbn [PyFloat.is_nan SFcompare];
    repeat match goal with
      | |- context [match ?c with Eq => _ | Lt => _ | Gt => _ end] =>
          destruct c; cbn [PyFloat.is_nan SFcompare]
      end;
    eauto.
Qed.

(** X13. [resize_mesh] has no guard against a mesh without thickness.  When the
    smallest extent of the bounding box is zero and [--size] is a finite
    non-zero number, line 190 divides by zero in floating point: no
    exception is raised, and the factor handed to [apply_scale] is an
    infinity. *)
Theorem flat_mesh_gets_infinite_scale {World Mesh} (lib : Library World Mesh)
    (args : Namespace) (sign : bool) (mant : positive) (expo : Z)
    (w w1 w2 : World) (m : Mesh) (x y z : float) (r : outcome pyval)
    (st : state World Mesh) :
  size args = Some (S754_finite sign mant expo) ->
  lib_trimesh_load lib (input args) w = (Returns m, w1) ->
  lib_extents lib m w1 = (Returns (x, y, z), w2) ->
  nonneg x -> nonneg y -> nonneg z ->
  (exists s, x = S754_zero s) \/ (exists s, y = S754_zero s) \/
  (exists s, z = S754_zero s) ->
  run (resize_mesh lib args) w = (r, st) ->
  (exists s, resize_scale (size args) (extents_min (x, y, z))
             = S754_infinity s) /\
  forall m0 factor,
    In (Scaled m0 factor) (mesh_ops (trace st)) ->
    m0 = m /\ exists s, factor = S754_infinity s.
Proof.
  intros Hsize Hload Hext Hx Hy Hz Hzero Hrun.
  destruct (extents_min_zero x y z Hx Hy Hz Hzero) as [s0 Hmin].
  assert (Hscale : resize_scale (size args) (extents_min (x, y, z))
                   = S754_infinity (xorb sign s0)).
  { rewrite Hsize, Hmin. destruct sign; reflexivity. }
  split; [eauto |].
  intros m0 factor Hin.
  apply resize_mesh_ops in Hrun
    as [[Hops _] | (m1 & v1 & ext & v2 & G1 & G2 & Hrest)].
  { rewrite Hops in Hin. destruct Hin. }
  rewrite Hload in G1. injection G1 as <- <-.
  rewrite Hext in G2. injection G2 as <- <-.
  rewrite Hscale in Hrest.
  destruct Hrest as [[Hops _] | (wa & m' & wb & _ & Hops & _)];
    rewrite Hops in Hin; cbn in Hin.
  - destruct Hin as [E | []]. injection E as <- <-. eauto.
  - destruct Hin as [E | [E | []]]; [| discriminate E].
    injection E as <- <-. eauto.
Qed.

(** A rectangle in the plane z = 0. *)
Definition sheet : Demo.mesh :=
  {| Demo.vertices := [ (PyFloat.zero, PyFloat.zero, PyFloat.zero);
                        (PyFloat.one, Demo.two, PyFloat.zero) ];
     Demo.faces := 2 |}.

Definition disk_with_sheet : Demo.world :=
  {| Demo.files := [("in.obj", sheet)]; Demo.current := None |}.

Lemma flat_mesh_gets_infinite_scale_witness :
  mesh_ops (trace (snd (run (resize_mesh Demo.lib
                               (Demo.cli "in.obj" "out.obj" false
                                  (Some Demo.two) None None))
                          disk_with_sheet)))
  = [Scaled sheet (S754_infinity false);
     Exported (Demo.scaled sheet (S754_infinity false)) "out.obj"] /\
  exists s,
    resize_scale (Some Demo.two) (extents_min (Demo.extents sheet))
    = S754_infinity s.
Proof.
  split; [vm_compute; reflexivity |].
  apply (flat_mesh_gets_infinite_scale Demo.lib
           (Demo.cli "in.obj" "out.obj" false (Some Demo.two) None None)
           false 4503599627370496 (-51) disk_with_sheet disk_with_sheet
           disk_with_sheet sheet PyFloat.one Demo.two PyFloat.zero _ _
           eq_refl eq_refl eq_refl eq_refl eq_refl eq_refl
           (or_intror (or_intror (ex_intro _ false eq_refl)))
           (surjective_pairing _)).
Defined.

(** ** The order of the checks *)

(** X14. The three checks of lines 72-83 run in a fixed order and the first
    failure wins.  With neither value, or with both, the call is rejected
    before the ratio is looked at or the file system is queried, so a call
    with both values reports "mutually exclusive" even when the ratio is
    also out of range.  With a ratio only, an out-of-range ratio is
    reported without asking whether the input exists.  With a face count
    only, nothing but the existence of the input is checked: zero and
    negative counts pass. *)
Theorem validation_order {World Mesh} (lib : Library World Mesh)
    (input_path : string) (n : Z) (r : float) (w : World) :
  let untouched := {| trace := @nil (event Mesh); world := w |} in
  run (validation lib None None input_path) w
    = (Raises (ValueError "You must specify either target_faces or reduction_ratio"),
       untouched) /\
  run (validation lib (Some n) (Some r) input_path) w
    = (Raises (ValueError "target_faces and reduction_ratio are mutually exclusive"),
       untouched) /\
  run (validation lib None (Some r) input_path) w
    = (if in_range r
       then run (check_input_exists lib input_path) w
       else (Raises (ValueError "reduction_ratio must be within [0, 1)"),
             untouched)) /\
  run (validation lib (Some n) None input_path) w
    = run (check_input_exists lib input_path) w.
Proof.
  cbv zeta. unfold run, validation, check_exclusive, check_range.
  repeat split. cbn. destruct (in_range r); reflexivity.
Qed.

(** ** Rounding never goes past a representable bound *)

Module FloatBounds.

Local Open Scope Z_scope.

Import FloatFacts.

(** Shifting out zero bits is exact. *)
Lemma shr_1_exact (a : Z) :
  0 <= a ->
  shr_1 {| shr_m := a * 2; shr_r := false; shr_s := false |}
  = {| shr_m := a; shr_r := false; shr_s := false |}.
Proof.
  intros Ha. destruct a as [| q | q]; [reflexivity | | lia].
  replace (Zpos q * 2) with (Zpos q~0) by lia. reflexivity.
Qed.

Lemma iter_shr_1_exact (p : positive) (a : Z) :
  0 <= a ->
  iter_pos shr_1 p {| shr_m := a * 2 ^ Zpos p; shr_r := false; shr_s := false |}
  = {| shr_m := a; shr_r := false; shr_s := false |}.
Proof.
  revert a. induction p as [p IH | p IH |]; intros a Ha; cbn [iter_pos].
  - assert (Hp : 0 < 2 ^ Zpos p) by (apply Z.pow_pos_nonneg; lia).
    replace (a * 2 ^ Zpos p~1) with (a * 2 ^ Zpos p * 2 ^ Zpos p * 2).
    2:{ replace (Zpos p~1) with (Zpos p + Zpos p + 1) by lia.
        rewrite !Z.pow_add_r by lia. change (2 ^ 1) with 2. ring. }
    rewrite shr_1_exact by (apply Z.mul_nonneg_nonneg; nia).
    rewrite IH by nia. apply IH. exact Ha.
  - assert (Hp : 0 < 2 ^ Zpos p) by (apply Z.pow_pos_nonneg; lia).
    replace (a * 2 ^ Zpos p~0) with (a * 2 ^ Zpos p * 2 ^ Zpos p).
    2:{ replace (Zpos p~0) with (Zpos p + Zpos p) by lia.
        rewrite Z.pow_add_r by lia. ring. }
    rewrite IH by nia. apply IH. exact Ha.
  - change (2 ^ 1) with 2. apply shr_1_exact. exact Ha.
Qed.

(** [shr_fexp] divides the mantissa by a power of two, exactly when the
    bits shifted out are zero. *)
Lemma shr_fexp_div (m e : Z) (l : location) (mrs' : shr_record) (e' : Z) :
  0 <= m ->
  shr_fexp PyFloat.prec PyFloat.emax m e l = (mrs', e') ->
  e' = Z.max e (fexp PyFloat.prec PyFloat.emax (Zdigits2 m + e)) /\
  shr_m mrs' = m / 2 ^ (e' - e) /\
  (l = loc_Exact -> m mod 2 ^ (e' - e) = 0 ->
   loc_of_shr_record mrs' = loc_Exact).
Proof.
  intros Hm. unfold shr_fexp, shr.
  set (n := fexp PyFloat.prec PyFloat.emax (Zdigits2 m + e) - e).
  assert (Hn : fexp PyFloat.prec PyFloat.emax (Zdigits2 m + e) = e + n)
    by (unfold n; lia).
  rewrite Hn. clearbody n.
  destruct n as [| p | p]; intros H; injection H as <- <-.
  - rewrite shr_record_of_loc_m, Z.sub_diag, Z.pow_0_r, Z.div_1_r.
    repeat split; [lia |]. intros -> _. reflexivity.
  - replace (e + Zpos p - e) with (Zpos p) by lia.
    rewrite iter_shr_1_m by (rewrite shr_record_of_loc_m; exact Hm).
    rewrite shr_record_of_loc_m. repeat split; [lia |].
    intros -> Hmod.
    assert (Hp : 0 < 2 ^ Zpos p) by (apply Z.pow_pos_nonneg; lia).
    assert (E : m = m / 2 ^ Zpos p * 2 ^ Zpos p).
    { pose proof (Z.div_mod m (2 ^ Zpos p)). lia. }
    cbn [shr_record_of_loc]. rewrite E at 1.
    rewrite iter_shr_1_exact by (apply Z.div_pos; lia). reflexivity.
  - rewrite shr_record_of_loc_m, Z.sub_diag, Z.pow_0_r, Z.div_1_r.
    repeat split; [lia |]. intros -> _. reflexivity.
Qed.

(** Rounding an exact positive value never goes past a bound [b * 2 ^ e']
    on the grid it rounds to. *)
Lemma binary_round_aux_le (s : bool) (mx ex b : Z) :
  0 < mx ->
  let e' := Z.max ex (fexp PyFloat.prec PyFloat.emax (Zdigits2 mx + ex)) in
  mx <= b * 2 ^ (e' - ex) ->
  match binary_round_aux PyFloat.prec PyFloat.emax s mx ex loc_Exact with
  | S754_finite _ m e => e' <= e /\ Zpos m * 2 ^ (e - e') <= b
  | S754_nan => False
  | _ => True
  end.
Proof.
  intros Hmx e' Hb. unfold binary_round_aux.
  destruct (shr_fexp _ _ mx ex loc_Exact) as [mrs1 e1] eqn:H1.
  apply shr_fexp_div in H1 as (He1 & Hm1 & Hexact); [| lia].
  fold e' in He1. subst e1.
  assert (Hk : 0 <= e' - ex) by (unfold e'; lia).
  assert (Hp : 0 < 2 ^ (e' - ex)) by (apply Z.pow_pos_nonneg; lia).
  pose proof (round_nearest_even_bounds (shr_m mrs1) (loc_of_shr_record mrs1))
    as Hr.
  set (m2 := round_nearest_even (shr_m mrs1) (loc_of_shr_record mrs1)) in *.
  assert (Hm1' : 0 <= shr_m mrs1) by (rewrite Hm1; apply Z.div_pos; lia).
  assert (Hm2 : m2 <= b).
  { assert (Hle : shr_m mrs1 <= b).
    { rewrite Hm1. apply Z.div_le_upper_bound; lia. }
    destruct (Z.eq_dec (shr_m mrs1) b) as [Eb | Nb]; [| lia].
    assert (Hmod : mx mod 2 ^ (e' - ex) = 0).
    { pose proof (Z.div_mod mx (2 ^ (e' - ex))).
      pose proof (Z.mod_pos_bound mx (2 ^ (e' - ex))). nia. }
    specialize (Hexact eq_refl Hmod). unfold m2. rewrite Hexact.
    cbn [round_nearest_even]. lia. }
  destruct (shr_fexp _ _ m2 e' loc_Exact) as [mrs2 e2] eqn:H2.
  apply shr_fexp_div in H2 as (He2 & Hm3 & _); [| lia].
  destruct (shr_m mrs2) as [| q | q] eqn:Eq; trivial.
  - destruct (e2 <=? _)%Z; trivial.
    assert (Hk2 : 0 <= e2 - e') by lia.
    assert (Hp2 : 0 < 2 ^ (e2 - e')) by (apply Z.pow_pos_nonneg; lia).
    split; [lia |].
    pose proof (Z.div_mod m2 (2 ^ (e2 - e'))).
    pose proof (Z.mod_pos_bound m2 (2 ^ (e2 - e'))). nia.
  - assert (0 <= m2 / 2 ^ (e2 - e')).
    { apply Z.div_pos; [lia |]. apply Z.pow_pos_nonneg; lia. }
    lia.
Qed.

(** A mantissa already on the grid comes back unchanged. *)
Lemma binary_round_aux_canonical (s : bool) (m : positive) (e : Z) :
  fexp PyFloat.prec PyFloat.emax (Zpos (digits2_pos m) + e) = e ->
  e <= PyFloat.emax - PyFloat.prec ->
  binary_round_aux PyFloat.prec PyFloat.emax s (Zpos m) e loc_Exact
  = S754_finite s m e.
Proof.
  intros Hc He. unfold binary_round_aux, shr_fexp.
  cbn [Zdigits2]. rewrite Hc, Z.sub_diag. cbn [shr shr_record_of_loc].
  cbn [loc_of_shr_record round_nearest_even shr_m Zdigits2].
  rewrite Hc, Z.sub_diag. cbn [shr shr_record_of_loc shr_m].
  apply Z.leb_le in He. rewrite He. reflexivity.
Qed.

Lemma digits2_iter_xO (m d : positive) :
  Zpos (digits2_pos (Pos.iter xO m d)) = Zpos (digits2_pos m) + Zpos d.
Proof.
  induction d as [| d IH] using Pos.peano_ind.
  - cbn [Pos.iter digits2_pos]. lia.
  - rewrite Pos.iter_succ. cbn [digits2_pos]. lia.
Qed.

(** [float(n)] is exact below [2 ^ 53]: a valid float whose value is [n]. *)
Lemma of_int_exact (n : Z) :
  0 < n < 2 ^ 53 ->
  exists m e,
    PyFloat.of_int n = S754_finite false m e /\
    e <= 0 /\ Zpos m = n * 2 ^ (- e) /\
    PyFloat.valid (S754_finite false m e) = true.
Proof.
  intros [Hpos Hlt]. destruct n as [| p | p]; try lia.
  unfold PyFloat.of_int, binary_normalize, binary_round.
  pose proof (Zdigits2_le (Zpos p) 53 ltac:(lia) ltac:(lia) Hlt) as Hd.
  cbn [Zdigits2] in Hd.
  assert (Hd1 : 1 <= Zpos (digits2_pos p)) by lia.
  assert (Hf : fexp PyFloat.prec PyFloat.emax (Zpos (digits2_pos p) + 0)
               = Zpos (digits2_pos p) - 53).
  { unfold fexp, emin, PyFloat.prec, PyFloat.emax. lia. }
  rewrite Hf. unfold shl_align.
  destruct (Zpos (digits2_pos p) - 53 - 0) as [| d | d] eqn:Hsh; try lia.
  - (* 53 digits already *)
    exists p, 0. rewrite Z.mul_1_r.
    assert (Hc : fexp PyFloat.prec PyFloat.emax (Zpos (digits2_pos p) + 0) = 0)
      by (rewrite Hf; lia).
    split; [apply binary_round_aux_canonical;
            [exact Hc | unfold PyFloat.emax, PyFloat.prec; lia] |].
    split; [lia |]. split; [reflexivity |].
    unfold PyFloat.valid, valid_binary, bounded, canonical_mantissa.
    rewrite Hc. reflexivity.
  - (* shifted left to 53 digits *)
    exists (Pos.iter xO p d), (Zpos (digits2_pos p) - 53).
    assert (Hc : fexp PyFloat.prec PyFloat.emax
                   (Zpos (digits2_pos (Pos.iter xO p d))
                    + (Zpos (digits2_pos p) - 53))
                 = Zpos (digits2_pos p) - 53).
    { rewrite digits2_iter_xO.
      unfold fexp, emin, PyFloat.prec, PyFloat.emax. lia. }
    split; [apply binary_round_aux_canonical;
            [exact Hc | unfold PyFloat.emax, PyFloat.prec; lia] |].
    split; [lia |]. split.
    + rewrite iter_xO. f_equal. f_equal. lia.
    + unfold PyFloat.valid, valid_binary, bounded, canonical_mantissa.
      rewrite Hc, Z.eqb_refl.
      apply Z.leb_le. unfold PyFloat.emax, PyFloat.prec. lia.
Qed.

(** Floats of value at most 1 that are not negative. *)
Definition at_most_one (y : float) : Prop :=
  match y with
  | S754_zero _ => True
  | S754_finite false m e => e <= 0 /\ Zpos m <= 2 ^ (- e)
  | _ => False
  end.

(** For [r] in range, [1 - r] has a value of at most 1. *)
Lemma sub_one_at_most_one (r : float) :
  PyFloat.valid r = true -> in_range r = true ->
  at_most_one (PyFloat.sub PyFloat.one r).
Proof.
  intros Hv Hr.
  pose proof (sub_one_below r Hv Hr) as Hbelow.
  pose proof (sub_one_nonneg r Hv Hr (below_pow2_finite _ _ Hbelow)) as Hnn.
  destruct r as [s | s | | s m e].
  - cbn. split; [lia |]. reflexivity.
  - destruct s; discriminate.
  - discriminate.
  - destruct (in_range_finite m e s Hv Hr) as [-> He].
    apply valid_finite in Hv as (Hemin & Hd & _).
    pose proof (digits2_upper m) as Hu.
    revert Hbelow Hnn.
    unfold PyFloat.sub, PyFloat.one, SFsub.
    rewrite Z.min_r by lia.
    unfold shl_align. rewrite Z.sub_diag.
    destruct (e - -52) as [| d | d] eqn:Hed; try lia.
    cbn [fst cond_Zopp].
    assert (Hiter : Zpos (Pos.iter xO 4503599627370496%positive d)
                    = 2 ^ (52 + Zpos d)).
    { rewrite iter_xO, Z.pow_add_r by lia. reflexivity. }
    assert (Hm53 : Zpos m < 2 ^ 53).
    { assert (2 ^ Zpos (digits2_pos m) <= 2 ^ 53)
        by (apply Z.pow_le_mono_r; lia). lia. }
    assert (H53 : 2 ^ 53 <= 2 ^ (52 + Zpos d))
      by (apply Z.pow_le_mono_r; lia).
    destruct (Zpos (Pos.iter xO 4503599627370496%positive d) - Zpos m)
      as [| p | p] eqn:Hdiff; try lia.
    (* the exact difference is p * 2 ^ e, below 1 *)
    assert (Hp : Zpos p < 2 ^ (- e)).
    { replace (- e) with (52 + Zpos d) by lia. lia. }
    unfold binary_normalize, binary_round, shl_align.
    set (ex' := fexp PyFloat.prec PyFloat.emax (Zpos (digits2_pos p) + e)).
    assert (Haux : forall mz ez,
               ez <= e -> Zpos mz = Zpos p * 2 ^ (e - ez) ->
               below_pow2 2
                 (binary_round_aux PyFloat.prec PyFloat.emax false (Zpos mz)
                    ez loc_Exact) ->
               nonneg
                 (binary_round_aux PyFloat.prec PyFloat.emax false (Zpos mz)
                    ez loc_Exact) ->
               at_most_one
                 (binary_round_aux PyFloat.prec PyFloat.emax false (Zpos mz)
                    ez loc_Exact)).
    { intros mz ez Hez Hmz Hbel Hnn.
      set (e' := Z.max ez (fexp PyFloat.prec PyFloat.emax
                             (Zdigits2 (Zpos mz) + ez))).
      assert (Hmzlt : Zpos mz < 2 ^ (- ez)).
      { rewrite Hmz. replace (- ez) with (- e + (e - ez)) by lia.
        rewrite Z.pow_add_r by lia.
        apply Z.mul_lt_mono_pos_r; [apply Z.pow_pos_nonneg; lia | exact Hp]. }
      assert (Hdz : Zdigits2 (Zpos mz) + ez <= 0).
      { pose proof (Zdigits2_le (Zpos mz) (- ez) ltac:(lia) ltac:(lia) Hmzlt).
        lia. }
      assert (He' : e' <= 0).
      { unfold e', fexp, emin, PyFloat.prec, PyFloat.emax. lia. }
      assert (Hez' : ez <= e') by (unfold e'; lia).
      pose proof (binary_round_aux_le false (Zpos mz) ez (2 ^ (- e'))
                    ltac:(lia)) as Hle.
      cbv zeta in Hle. fold e' in Hle.
      assert (Hcond : Zpos mz <= 2 ^ (- e') * 2 ^ (e' - ez)).
      { rewrite <- Z.pow_add_r by lia.
        replace (- e' + (e' - ez)) with (- ez) by lia. lia. }
      specialize (Hle Hcond).
      destruct (binary_round_aux _ _ false (Zpos mz) ez loc_Exact)
        as [s0 | s0 | | s0 m0 e0]; cbn [at_most_one below_pow2 nonneg] in *;
        trivial.
      subst s0. destruct Hle as [Hge Hval].
      assert (He0 : e0 <= 0).
      { destruct (Z_le_gt_dec e0 0) as [Hl | Hg]; [exact Hl |]. exfalso.
        assert (2 ^ (- e') < 2 ^ (e0 - e'))
          by (apply Z.pow_lt_mono_r; lia).
        assert (2 ^ (e0 - e') <= Zpos m0 * 2 ^ (e0 - e')) by nia.
        lia. }
      split; [exact He0 |].
      replace (- e') with (- e0 + (e0 - e')) in Hval by lia.
      rewrite Z.pow_add_r in Hval by lia.
      assert (0 < 2 ^ (e0 - e')) by (apply Z.pow_pos_nonneg; lia).
      nia. }
    destruct (ex' - e) as [| j | j] eqn:Hj.
    + apply Haux; [lia |]. rewrite Z.sub_diag, Z.pow_0_r. lia.
    + apply Haux; [lia |]. rewrite Z.sub_diag, Z.pow_0_r. lia.
    + apply Haux; [lia |]. rewrite iter_xO. f_equal. f_equal. lia.
Qed.

Lemma trunc_of_scaled (n : Z) (m : positive) (e : Z) :
  e <= 0 -> Zpos m = n * 2 ^ (- e) ->
  PyFloat.trunc (S754_finite false m e) = Some n.
Proof.
  intros He Hm. cbn [PyFloat.trunc cond_Zopp]. f_equal.
  destruct e as [| p | p]; try lia.
  rewrite pow2_pos. change (- Zneg p) with (Zpos p) in Hm. rewrite Hm.
  apply Z.quot_mul. apply Z.pow_nonzero; lia.
Qed.

(** The float product of an exactly represented [n] with a factor of at
    most 1 truncates to an integer between 0 and [n]. *)
Lemma mul_at_most_one (n : Z) (mx : positive) (ex : Z) (y : float) (c : Z) :
  0 < n < 2 ^ 53 -> ex <= 0 -> Zpos mx = n * 2 ^ (- ex) ->
  at_most_one y ->
  PyFloat.trunc (PyFloat.mul (S754_finite false mx ex) y) = Some c ->
  0 <= c <= n.
Proof.
  intros [Hn0 Hn] Hex Hmx Hy.
  destruct y as [sy | sy | | sy my ey]; cbn [at_most_one] in Hy;
    try contradiction.
  - cbn. intros H. injection H as <-. lia.
  - destruct sy; [contradiction |]. destruct Hy as [Hey Hmy].
    unfold PyFloat.mul, SFmul. cbn [xorb].
    set (e' := Z.max (ex + ey)
                 (fexp PyFloat.prec PyFloat.emax
                    (Zdigits2 (Zpos (mx * my)) + (ex + ey)))).
    assert (Hpx : 0 < 2 ^ (- ex)) by (apply Z.pow_pos_nonneg; lia).
    assert (Hpy : 0 < 2 ^ (- ey)) by (apply Z.pow_pos_nonneg; lia).
    assert (Hprod : Zpos (mx * my) <= n * 2 ^ (- ex - ey)).
    { rewrite Pos2Z.inj_mul, Hmx.
      replace (- ex - ey) with (- ex + - ey) by lia.
      rewrite Z.pow_add_r by lia. nia. }
    assert (Hdig : Zdigits2 (Zpos (mx * my)) + (ex + ey) <= 53).
    { assert (Zpos (mx * my) < 2 ^ (53 - ex - ey)).
      { replace (53 - ex - ey) with (53 + (- ex - ey)) by lia.
        rewrite Z.pow_add_r by lia.
        assert (0 < 2 ^ (- ex - ey)) by (apply Z.pow_pos_nonneg; lia).
        nia. }
      pose proof (Zdigits2_le (Zpos (mx * my)) (53 - ex - ey)
                    ltac:(lia) ltac:(lia) H).
      lia. }
    assert (He' : e' <= 0).
    { unfold e', fexp, emin, PyFloat.prec, PyFloat.emax. lia. }
    assert (Hee : ex + ey <= e') by (unfold e'; lia).
    pose proof (binary_round_aux_le false (Zpos (mx * my)) (ex + ey)
                  (n * 2 ^ (- e')) ltac:(lia)) as Hle.
    cbv zeta in Hle. fold e' in Hle.
    assert (Hcond : Zpos (mx * my) <= n * 2 ^ (- e') * 2 ^ (e' - (ex + ey))).
    { rewrite <- Z.mul_assoc, <- Z.pow_add_r by lia.
      replace (- e' + (e' - (ex + ey))) with (- ex - ey) by lia.
      exact Hprod. }
    specialize (Hle Hcond).
    pose proof (binary_round_aux_sign false (Zpos (mx * my)) (ex + ey)
                  loc_Exact) as Hs.
    destruct (binary_round_aux _ _ false (Zpos (mx * my)) (ex + ey) loc_Exact)
      as [s0 | s0 | | s0 m0 e0]; cbn [PyFloat.trunc];
      try discriminate.
    + intros H. injection H as <-. lia.
    + subst s0. destruct Hle as [Hge Hval]. cbn [cond_Zopp].
      assert (Hp0 : 0 < 2 ^ (e0 - e')) by (apply Z.pow_pos_nonneg; lia).
      assert (Hpe : 0 < 2 ^ (- e')) by (apply Z.pow_pos_nonneg; lia).
      intros H.
      assert (Hc : c = match e0 with
                       | Zneg p => Z.quot (Zpos m0) (Zpos (2 ^ p))
                       | _ => Zpos m0 * 2 ^ e0
                       end) by congruence.
      clear H. subst c.
      destruct e0 as [| p | p].
      * rewrite Z.pow_0_r, Z.mul_1_r.
        replace (0 - e') with (- e') in Hval by lia. nia.
      * assert (Hpp : 0 < 2 ^ Zpos p) by (apply Z.pow_pos_nonneg; lia).
        replace (Zpos p - e') with (Zpos p + - e') in Hval by lia.
        rewrite Z.pow_add_r in Hval by lia. nia.
      * rewrite pow2_pos.
        assert (Hpp : 0 < 2 ^ Zpos p) by (apply Z.pow_pos_nonneg; lia).
        rewrite Z.quot_div_nonneg by lia.
        replace (- e') with (Zpos p + (Zneg p - e')) in Hval by lia.
        rewrite Z.pow_add_r in Hval by lia.
        assert (Hm0 : Zpos m0 <= n * 2 ^ Zpos p) by nia.
        split; [apply Z.div_pos; lia |].
        apply Z.div_le_upper_bound; lia.
Qed.

(** Line 97 on a mesh of fewer than [2 ^ 53] faces: the integer obtained
    is between 0 and the face count. *)
Lemma calculated_target_le (n : Z) (r x : float) (c : Z) :
  0 <= n < 2 ^ 53 -> PyFloat.valid r = true -> in_range r = true ->
  int_mul_float n (PyFloat.sub PyFloat.one r) = Returns x ->
  py_int x = Returns c ->
  0 <= c <= n.
Proof.
  intros [Hn0 Hn] Hv Hr Hx Hc. apply py_int_Returns in Hc.
  pose proof (sub_one_at_most_one r Hv Hr) as Hy.
  unfold int_mul_float in Hx.
  set (y := PyFloat.sub PyFloat.one r) in *. clearbody y.
  destruct (Z.eq_dec n 0) as [-> | Hnz].
  - change (PyFloat.of_int 0) with (S754_zero false) in Hx.
    cbn [PyFloat.is_finite] in Hx. injection Hx as <-.
    destruct y as [sy | sy | | sy my ey];
      cbn [at_most_one] in Hy; try contradiction;
      cbn in Hc; assert (c = 0) by congruence; lia.
  - destruct (of_int_exact n ltac:(lia)) as (m & e & Hf & He & Hm & _).
    rewrite Hf in Hx. cbn [PyFloat.is_finite] in Hx. injection Hx as <-.
    apply (mul_at_most_one n m e y c); trivial; lia.
Qed.

(** Multiplying a valid finite float by 1.0 changes nothing. *)
Lemma mul_one_r (s : bool) (m : positive) (e : Z) :
  PyFloat.valid (S754_finite s m e) = true ->
  PyFloat.mul (S754_finite s m e) PyFloat.one = S754_finite s m e.
Proof.
  intros Hv.
  assert (Hc : fexp PyFloat.prec PyFloat.emax (Zpos (digits2_pos m) + e) = e
               /\ e <= PyFloat.emax - PyFloat.prec).
  { unfold PyFloat.valid, valid_binary, bounded, canonical_mantissa in Hv.
    apply andb_true_iff in Hv as [H1 H2].
    apply Z.eqb_eq in H1. apply Z.leb_le in H2. auto. }
  destruct Hc as [Hc He].
  unfold PyFloat.mul, PyFloat.one, SFmul. rewrite xorb_false_r.
  assert (Em : (m * 4503599627370496)%positive = Pos.iter xO m 52).
  { apply Pos2Z.inj. rewrite iter_xO, Pos2Z.inj_mul. reflexivity. }
  rewrite Em. clear Em.
  unfold binary_round_aux.
  destruct (shr_fexp _ _ (Zpos (Pos.iter xO m 52)) (e + -52) loc_Exact)
    as [mrs1 e1] eqn:H1.
  apply shr_fexp_div in H1 as (He1 & Hm1 & Hexact); [| lia].
  cbn [Zdigits2] in He1. rewrite digits2_iter_xO in He1.
  replace (Zpos (digits2_pos m) + 52 + (e + -52))
    with (Zpos (digits2_pos m) + e) in He1 by lia.
  rewrite Hc in He1.
  assert (E1 : e1 = e) by lia. clear He1. subst e1.
  replace (e - (e + -52)) with 52 in * by lia.
  rewrite iter_xO in Hm1, Hexact.
  rewrite Z.div_mul in Hm1 by (apply Z.pow_nonzero; lia).
  rewrite Z.mod_mul in Hexact by (apply Z.pow_nonzero; lia).
  rewrite (Hexact eq_refl eq_refl), Hm1.
  cbn [round_nearest_even].
  unfold shr_fexp. cbn [Zdigits2]. rewrite Hc, Z.sub_diag.
  cbn [shr shr_record_of_loc shr_m].
  apply Z.leb_le in He. rewrite He. reflexivity.
Qed.

(** With a ratio of zero, line 97 gives back the face count. *)
Lemma calculated_target_ratio_zero (n : Z) (s : bool) :
  0 <= n < 2 ^ 53 ->
  exists x,
    int_mul_float n (PyFloat.sub PyFloat.one (S754_zero s)) = Returns x /\
    py_int x = Returns n.
Proof.
  intros [Hn0 Hn].
  change (PyFloat.sub PyFloat.one (S754_zero s)) with PyFloat.one.
  unfold int_mul_float.
  destruct (Z.eq_dec n 0) as [-> | Hnz].
  - eexists. split; reflexivity.
  - destruct (of_int_exact n ltac:(lia)) as (m & e & Hf & He & Hm & Hv).
    rewrite Hf. cbn [PyFloat.is_finite]. rewrite (mul_one_r false m e Hv).
    eexists. split; [reflexivity |].
    apply py_int_Returns. apply trunc_of_scaled; assumption.
Qed.

End FloatBounds.

(** ** How many faces a ratio asks for *)

(** X15. A ratio never asks for more faces than the mesh has.  With a
    [reduction_ratio] in [0, 1) and a loaded mesh of [n] faces,
    [0 <= n < 2 ^ 53], the face count handed to the engine lies between 4
    and [max n 4]: rounding in [n * (1 - reduction_ratio)] never pushes
    the product above [n], and only the floor of 4 can exceed the input
    face count, on meshes of fewer than 4 faces. *)
Theorem ratio_target_within_mesh {World Mesh} (lib : Library World Mesh)
    (input_path output_path : string) (r : float)
    (texture_weight : float) (preserve_boundary : bool)
    (boundary_weight quality_threshold : float)
    (planar optimal_placement verbose : bool)
    (w : World) (res : outcome unit) (st : state World Mesh) :
  PyFloat.valid r = true ->
  in_unit_interval r ->
  (forall w0 w1 n w2,
     lib_MeshSet lib w = (Returns tt, w0) ->
     lib_load_new_mesh lib input_path w0 = (Returns tt, w1) ->
     lib_face_number lib w1 = (Returns n, w2) -> 0 <= n < 2 ^ 53) ->
  run (simplify_body lib input_path output_path None (Some r)
         texture_weight preserve_boundary boundary_weight quality_threshold
         planar optimal_placement verbose) w = (res, st) ->
  forall a,
    In a (decimations (trace st)) ->
    exists w0 w1 w2 n t,
      lib_MeshSet lib w = (Returns tt, w0) /\
      lib_load_new_mesh lib input_path w0 = (Returns tt, w1) /\
      lib_face_number lib w1 = (Returns n, w2) /\
      targetfacenum a = Some t /\
      4 <= t <= Z.max n 4.
Proof.
  intros Hv Hin Hfaces Hrun a Ha.
  apply (FloatFacts.in_range_spec r Hv) in Hin.
  apply simplify_body_decimations in Hrun
    as [[Hd _] | (w0 & w1 & w2 & n & t & _ & Hms & Hload & Hfn & Ht & Hd)];
    rewrite Hd in Ha; [destruct Ha |].
  destruct Ha as [<- | []].
  destruct Ht as (x & c & Hx & Hc & ->).
  pose proof (FloatBounds.calculated_target_le n r x c
                (Hfaces _ _ _ _ Hms Hload Hfn) Hv Hin Hx Hc) as Hle.
  exists w0, w1, w2, n, (Z.max c 4).
  repeat (split; [assumption |]). split; [reflexivity | lia].
Qed.

Lemma ratio_target_within_mesh_witness :
  let body :=
    simplify_body Demo.lib "in.obj" "out.obj" None (Some Demo.half)
      default_texture_weight true default_boundary_weight
      default_quality_threshold false true true in
  PyFloat.valid Demo.half = true /\
  in_unit_interval Demo.half /\
  map targetfacenum (decimations (trace (snd (run body Demo.disk))))
    = [Some 6] /\
  exists n t, Demo.faces Demo.box = n /\ 4 <= t <= Z.max n 4.
Proof.
  cbv zeta.
  assert (Hin : in_unit_interval Demo.half).
  { eexists. split; [reflexivity |]. split; [discriminate | reflexivity]. }
  assert (Hfaces : forall w0 w1 n w2,
             lib_MeshSet Demo.lib Demo.disk = (Returns tt, w0) ->
             lib_load_new_mesh Demo.lib "in.obj" w0 = (Returns tt, w1) ->
             lib_face_number Demo.lib w1 = (Returns n, w2) ->
             0 <= n < 2 ^ 53).
  { intros w0 w1 n w2 H0 H1 H2.
    injection H0 as <-. injection H1 as <-. injection H2 as <- _.
    split; [discriminate | reflexivity]. }
  assert (Ha : In (engine_arguments default_texture_weight true
                     default_boundary_weight default_quality_threshold false
                     true (Some 6))
                 (decimations (trace (snd (run
                    (simplify_body Demo.lib "in.obj" "out.obj" None
                       (Some Demo.half) default_texture_weight true
                       default_boundary_weight default_quality_threshold false
                       true true) Demo.disk)))))
    by (vm_compute; auto).
  split; [reflexivity |]. split; [exact Hin |].
  split; [vm_compute; reflexivity |].
  destruct (ratio_target_within_mesh Demo.lib "in.obj" "out.obj" Demo.half
              default_texture_weight true default_boundary_weight
              default_quality_threshold false true true Demo.disk _ _
              eq_refl Hin Hfaces (surjective_pairing _) _ Ha)
    as (w0 & w1 & w2 & n & t & H0 & H1 & H2 & _ & Ht).
  injection H0 as <-. injection H1 as <-. injection H2 as <- _.
  exists (Demo.faces Demo.box), t. split; [reflexivity | exact Ht].
Defined.

(** X16. A ratio of zero keeps every face.  With [reduction_ratio = 0.0] (or
    [-0.0]) and a loaded mesh of [n] faces, [0 <= n < 2 ^ 53], the engine
    is asked for exactly [max n 4] faces: [n * (1 - 0.0)] is computed
    without rounding. *)
Theorem ratio_zero_keeps_every_face {World Mesh} (lib : Library World Mesh)
    (input_path output_path : string) (sign : bool)
    (texture_weight : float) (preserve_boundary : bool)
    (boundary_weight quality_threshold : float)
    (planar optimal_placement verbose : bool)
    (w : World) (res : outcome unit) (st : state World Mesh) :
  (forall w0 w1 n w2,
     lib_MeshSet lib w = (Returns tt, w0) ->
     lib_load_new_mesh lib input_path w0 = (Returns tt, w1) ->
     lib_face_number lib w1 = (Returns n, w2) -> 0 <= n < 2 ^ 53) ->
  run (simplify_body lib input_path output_path None (Some (S754_zero sign))
         texture_weight preserve_boundary boundary_weight quality_threshold
         planar optimal_placement verbose) w = (res, st) ->
  forall a,
    In a (decimations (trace st)) ->
    exists w0 w1 w2 n,
      lib_MeshSet lib w = (Returns tt, w0) /\
      lib_load_new_mesh lib input_path w0 = (Returns tt, w1) /\
      lib_face_number lib w1 = (Returns n, w2) /\
      targetfacenum a = Some (Z.max n 4).
Proof.
  intros Hfaces Hrun a Ha.
  apply simplify_body_decimations in Hrun
    as [[Hd _] | (w0 & w1 & w2 & n & t & _ & Hms & Hload & Hfn & Ht & Hd)];
    rewrite Hd in Ha; [destruct Ha |].
  destruct Ha as [<- | []].
  destruct Ht as (x & c & Hx & Hc & ->).
  destruct (FloatBounds.calculated_target_ratio_zero n sign
              (Hfaces _ _ _ _ Hms Hload Hfn)) as (x' & Hx' & Hc').
  rewrite Hx in Hx'. injection Hx' as <-.
  rewrite Hc in Hc'. injection Hc' as ->.
  exists w0, w1, w2, n. repeat (split; [assumption |]). reflexivity.
Qed.

Lemma ratio_zero_keeps_every_face_witness :
  map targetfacenum
    (decimations (trace (snd (run
       (simplify_body Demo.lib "in.obj" "out.obj" None (Some (S754_zero false))
          default_texture_weight true default_boundary_weight
          default_quality_threshold false true true) Demo.disk))))
  = [Some 12].
Proof.
  assert (Hfaces : forall w0 w1 n w2,
             lib_MeshSet Demo.lib Demo.disk = (Returns tt, w0) ->
             lib_load_new_mesh Demo.lib "in.obj" w0 = (Returns tt, w1) ->
             lib_face_number Demo.lib w1 = (Returns n, w2) ->
             0 <= n < 2 ^ 53).
  { intros w0 w1 n w2 H0 H1 H2.
    injection H0 as <-. injection H1 as <-. injection H2 as <- _.
    split; [discriminate | reflexivity]. }
  assert (Hd : exists a,
             decimations (trace (snd (run
               (simplify_body Demo.lib "in.obj" "out.obj" None
                  (Some (S754_zero false)) default_texture_weight true
                  default_boundary_weight default_quality_threshold false
                  true true) Demo.disk))) = [a])
    by (eexists; vm_compute; reflexivity).
  destruct Hd as [a Hd]. rewrite Hd. cbn [map]. f_equal.
  destruct (ratio_zero_keeps_every_face Demo.lib "in.obj" "out.obj" false
              default_texture_weight true default_boundary_weight
              default_quality_threshold false true true Demo.disk _ _
              Hfaces (surjective_pairing _) a)
    as (w0 & w1 & w2 & n & H0 & H1 & H2 & Ht).
  - rewrite Hd. left. reflexivity.
  - injection H0 as <-. injection H1 as <-. injection H2 as <- _.
    exact Ht.
Defined.

(** ** Rounding errors of the scale factor *)

Module FloatError.

Local Open Scope Z_scope.

Import FloatFacts FloatBounds.











(** *** From scaled integers to rationals *)







End FloatError.

(** ** Rescaling *)


